(** * Hand2Data backend: preset resolution, preprocessing, model cache, fallback

    A shallow embedding of the OCR backend
    ([app/services/tesseract_service.py], [app/services/trocr_service.py],
    [app/routes/ocr_routes.py]) together with the properties its design
    document states about it.

    Conventions of the embedding.
    - Python [int] is [Z]; [str] is [string]; [float] is an exact rational
      [Q] (the values that matter below are literals and quotients of small
      integers; statements about them use [==]).  Where the code subtracts
      two clock readings, the rounded subtraction is a parameter of the
      function.
    - A dict whose keys are fixed by the code (preset settings, generation
      config, the download report) is a record, with an [option] field for
      every key that is not always present, so that [d.get(k, default)] is
      [default] on that field.  A dict that receives keys dynamically (an
      engine result, a JSON body) is a [gmap string pyval].
    - OpenCV calls are kept symbolic: [preprocess_image] builds the tree of
      calls it makes ([cvexpr]) and [run_cv] evaluates such a tree with the
      library functions of the environment.
    - Everything outside the repository (OpenCV, Tesseract, the transformer
      library, the child process, the clock) is a field of [Env].
    - Methods that mutate the two service singletons, touch the file system or
      raise are computations [M A := St -> (exn + A) * St]. *)

From Stdlib Require Import ZArith QArith Ascii String List Lia.
From stdpp Require Import gmap strings list fin_maps pretty.

Open Scope string_scope.
Open Scope Z_scope.

(** ** Python values and exceptions *)

#[warnings="-register-all"]
Inductive pyval :=
  | VNone
  | VBool (b : bool)
  | VInt (z : Z)
  | VFloat (q : Q)
  | VStr (s : string)
  | VDict (d : gmap string pyval).

(** The exception classes the code distinguishes.  [KeyboardInterrupt] is the
    only one that is not a subclass of [Exception]. *)
Inductive exn :=
  | Exception (msg : string)
  | TimeoutExpired (msg : string)
  | HTTPException (status_code : Z) (detail : string)
  | KeyboardInterrupt.

Definition is_Exception (e : exn) : bool :=
  match e with
  | KeyboardInterrupt => false
  | _ => true
  end.

(** ** OpenCV calls, symbolically *)

Definition COLOR_BGR2GRAY : Z := 6.
Definition COLOR_BGR2RGB : Z := 4.
Definition ADAPTIVE_THRESH_MEAN_C : Z := 0.
Definition ADAPTIVE_THRESH_GAUSSIAN_C : Z := 1.
Definition THRESH_BINARY : Z := 0.
Definition THRESH_OTSU : Z := 8.

Inductive cvexpr :=
  | Input
  | CvtColor (src : cvexpr) (code : Z)
  | GaussianBlur (src : cvexpr) (ksize : Z * Z) (sigmaX : Z)
  | AdaptiveThreshold (src : cvexpr) (maxValue adaptiveMethod thresholdType
                                      blockSize C : Z)
  | Threshold (src : cvexpr) (thresh maxval type : Z).

(** The kernel handed to the (outermost) Gaussian blur of a call tree. *)
Fixpoint blur_ksize (e : cvexpr) : option (Z * Z) :=
  match e with
  | Input => None
  | CvtColor src _ => blur_ksize src
  | GaussianBlur _ ksize _ => Some ksize
  | AdaptiveThreshold src _ _ _ _ _ => blur_ksize src
  | Threshold src _ _ _ => blur_ksize src
  end.

(** ** Preset dictionaries *)

(** [d.get(k, dflt)] on an optional key. *)
Definition get {A} (field : option A) (dflt : A) : A :=
  match field with
  | Some v => v
  | None => dflt
  end.

(** [settings] of [_get_preprocessing_settings]: a key is absent ([None])
    until the code stores it. *)
Module Settings.
Record t := mk {
  blur_kernel : option Z;
  threshold_method : option string;
  block_size : option Z;
  c_value : option Z
}.
Definition empty : t := mk None None None None.
Definition set_threshold_method (v : string) (d : t) : t :=
  mk (blur_kernel d) (Some v) (block_size d) (c_value d).
Definition set_block_size (v : Z) (d : t) : t :=
  mk (blur_kernel d) (threshold_method d) (Some v) (c_value d).
Definition set_c_value (v : Z) (d : t) : t :=
  mk (blur_kernel d) (threshold_method d) (block_size d) (Some v).
End Settings.

(** [config] of [_get_generation_config]. *)
Module GenConfig.
Record t := mk {
  max_length : Z;
  early_stopping : bool;
  num_beams : option Z;
  do_sample : option bool;
  temperature : option Q;
  top_p : option Q;
  top_k : option Z
}.
Definition set_max_length (v : Z) (d : t) : t :=
  mk v (early_stopping d) (num_beams d) (do_sample d) (temperature d)
     (top_p d) (top_k d).
Definition set_num_beams (v : Z) (d : t) : t :=
  mk (max_length d) (early_stopping d) (Some v) (do_sample d) (temperature d)
     (top_p d) (top_k d).
Definition set_do_sample (v : bool) (d : t) : t :=
  mk (max_length d) (early_stopping d) (num_beams d) (Some v) (temperature d)
     (top_p d) (top_k d).
Definition set_temperature (v : Q) (d : t) : t :=
  mk (max_length d) (early_stopping d) (num_beams d) (do_sample d) (Some v)
     (top_p d) (top_k d).
Definition set_top_p (v : Q) (d : t) : t :=
  mk (max_length d) (early_stopping d) (num_beams d) (do_sample d)
     (temperature d) (Some v) (top_k d).
Definition set_top_k (v : Z) (d : t) : t :=
  mk (max_length d) (early_stopping d) (num_beams d) (do_sample d)
     (temperature d) (top_p d) (Some v).
End GenConfig.

(** ** The world outside the repository *)

(** One entry of [data['conf']]: [int(conf)] either yields an integer or
    raises. *)
Inductive conf_entry :=
  | ConfInt (z : Z)
  | ConfBad (msg : string).

(** What [subprocess.run] does: the child terminates with a return code, or
    the call raises ([TimeoutExpired], [KeyboardInterrupt], [OSError], ...). *)
Inductive proc_outcome :=
  | Completed (returncode : Z) (stdout stderr : string)
  | Raised (e : exn).

Record Env := {
  ndarray : Type;
  PILImage : Type;
  (* cv2: each call returns an array or raises; of [cv2.threshold]'s pair
     only the image is kept *)
  cv2_cvtColor : ndarray -> Z -> exn + ndarray;
  cv2_GaussianBlur : ndarray -> Z * Z -> Z -> exn + ndarray;
  cv2_adaptiveThreshold : ndarray -> Z -> Z -> Z -> Z -> Z -> exn + ndarray;
  cv2_threshold : ndarray -> Z -> Z -> Z -> exn + ndarray;
  Image_fromarray : ndarray -> exn + PILImage;
  (* pytesseract: the text read with a config string, and the [conf] column
     of [image_to_data] *)
  image_to_string : PILImage -> string -> exn + string;
  image_to_data_conf : PILImage -> exn + list conf_entry;
  (* builtins, starlette, pathlib, uuid, time: [s.strip()],
     [str(HTTPException(code, detail))], [Path(name).suffix.lower()],
     [str(uuid.uuid4())], and the seconds between the two clock readings of
     an extraction *)
  str_strip : string -> string;
  str_HTTPException : Z -> string -> string;
  path_suffix_lower : string -> string;
  uuid4 : string;
  elapsed : Q;
  (* the directory two levels above [app/services] *)
  backend_dir : string;
  (* torch and transformers: the CUDA set-up block and the description of
     the GPU it formats; [cls.from_pretrained(src)] for a class name, a
     directory or hub repository and the files on disk, with the exception it
     raises if any; [model.to(device)] for the source the model was read
     from; [self.device.upper()], where [self.device] is the [torch.device]
     just built; and recognition itself (processor, [generate],
     [batch_decode]) for the loaded processor, model and device *)
  cuda_is_available : bool;
  cuda_gpu_info : exn + string;
  from_pretrained : string -> string -> gset string -> option exn;
  model_to : string -> string -> option exn;
  device_upper : string -> exn + string;
  trocr_recognize :
    option string -> option string -> option string -> PILImage ->
    GenConfig.t -> exn + string;
  (* the child process, from the script path, the model type written into the
     script, the working directory and the file system: its outcome and the
     file system it leaves behind *)
  subprocess_run :
    string -> string -> string -> gset string -> proc_outcome * gset string
}.

(** [str(e)] *)
Definition str (E : Env) (e : exn) : string :=
  match e with
  | Exception msg => msg
  | TimeoutExpired msg => msg
  | HTTPException c d => str_HTTPException E c d
  | KeyboardInterrupt => ""
  end.

(** Sequencing of calls that may raise. *)
Definition and_then {A B} (r : exn + A) (k : A -> exn + B) : exn + B :=
  match r with
  | inl e => inl e
  | inr a => k a
  end.

(** Evaluation of a call tree on an input array; the first failing call
    raises. *)
Fixpoint eval_cv (E : Env) (e : cvexpr) (input : ndarray E) : exn + ndarray E :=
  match e with
  | Input => inr input
  | CvtColor src code =>
      and_then (eval_cv E src input) (fun a => cv2_cvtColor E a code)
  | GaussianBlur src ksize sigmaX =>
      and_then (eval_cv E src input) (fun a => cv2_GaussianBlur E a ksize sigmaX)
  | AdaptiveThreshold src maxValue adaptiveMethod thresholdType blockSize C =>
      and_then (eval_cv E src input)
        (fun a => cv2_adaptiveThreshold E a maxValue adaptiveMethod
                    thresholdType blockSize C)
  | Threshold src thresh maxval type =>
      and_then (eval_cv E src input) (fun a => cv2_threshold E a thresh maxval type)
  end.

(** ** Process state *)

Module TesseractSelf.
Record t := mk { model_loaded : bool; status : string }.
End TesseractSelf.

Module TrOCRSelf.
Record t := mk {
  model_loaded : bool;
  status : string;
  processor : option string;
  model : option string;
  device : option string;
  model_dir : option string;
  current_model_type : option string
}.
Definition set_model_loaded (v : bool) (s : t) : t :=
  mk v (status s) (processor s) (model s) (device s) (model_dir s)
     (current_model_type s).
Definition set_status (v : string) (s : t) : t :=
  mk (model_loaded s) v (processor s) (model s) (device s) (model_dir s)
     (current_model_type s).
Definition set_processor (v : string) (s : t) : t :=
  mk (model_loaded s) (status s) (Some v) (model s) (device s) (model_dir s)
     (current_model_type s).
Definition set_model (v : string) (s : t) : t :=
  mk (model_loaded s) (status s) (processor s) (Some v) (device s)
     (model_dir s) (current_model_type s).
Definition set_device (v : string) (s : t) : t :=
  mk (model_loaded s) (status s) (processor s) (model s) (Some v)
     (model_dir s) (current_model_type s).
Definition set_model_dir (v : string) (s : t) : t :=
  mk (model_loaded s) (status s) (processor s) (model s) (device s) (Some v)
     (current_model_type s).
Definition set_current_model_type (v : string) (s : t) : t :=
  mk (model_loaded s) (status s) (processor s) (model s) (device s)
     (model_dir s) (Some v).
(** The object built by [__init__]. *)
Definition init : t :=
  mk false "Not loaded - Use download_models() to load TrOCR"
     None None None None None.
End TrOCRSelf.

(** Calls that leave the process. *)
Inductive event :=
  | EvSaveUpload (path : string)
  | EvRunCv (e : cvexpr)
  | EvImageToString (config : string)
  | EvImageToData
  | EvGenerate (config : GenConfig.t)
  | EvFromPretrained (cls src : string)
  | EvWrite (path : string)
  | EvSubprocessRun (script : string)
  | EvRemove (path : string)
  | EvRmtree (path : string).

(** The two module-level singletons of [ocr_routes.py], the set of paths that
    exist, and the calls made so far, most recent first. *)
Record St := mkSt {
  tesseract_service : TesseractSelf.t;
  trocr_service : TrOCRSelf.t;
  fs : gset string;
  log : list event
}.

(** ** Computations: state and exceptions *)

Definition M (A : Type) : Type := St -> (exn + A) * St.

#[global] Instance M_ret : MRet M := fun A a s => (inr a, s).
#[global] Instance M_bind : MBind M := fun A B k m s =>
  match m s with
  | (inl e, s') => (inl e, s')
  | (inr a, s') => k a s'
  end.

Definition raise {A} (e : exn) : M A := fun s => (inl e, s).
Definition lift {A} (r : exn + A) : M A := fun s => (r, s).
Definition gets {A} (f : St -> A) : M A := fun s => (inr (f s), s).
Definition modify (f : St -> St) : M unit := fun s => (inr tt, f s).

(** [try: body except ...: handler]; a handler that does not match the raised
    exception is [None] and the exception propagates. *)
Definition try_except {A} (body : M A) (handler : exn -> option (M A)) : M A :=
  fun s =>
    match body s with
    | (inl e, s') =>
        match handler e with
        | Some h => h s'
        | None => (inl e, s')
        end
    | r => r
    end.

(** [except Exception as e: h e] *)
Definition except_Exception {A} (h : exn -> M A) : exn -> option (M A) :=
  fun e => if is_Exception e then Some (h e) else None.

Definition emit (ev : event) : M unit :=
  modify (fun s => mkSt (tesseract_service s) (trocr_service s) (fs s)
                        (ev :: log s)).
Definition set_fs (f : gset string) : M unit :=
  modify (fun s => mkSt (tesseract_service s) (trocr_service s) f (log s)).
Definition update_trocr (f : TrOCRSelf.t -> TrOCRSelf.t) : M unit :=
  modify (fun s => mkSt (tesseract_service s) (f (trocr_service s)) (fs s)
                        (log s)).

(** An OpenCV pipeline run on an array. *)
Definition run_cv (E : Env) (e : cvexpr) (image : ndarray E) : M (ndarray E) :=
  emit (EvRunCv e);; lift (eval_cv E e image).

(** ** Paths *)

(** [os.path.join a b] for a relative [b]. *)
Definition path_join (a b : string) : string := a ++ "/" ++ b.

(** [os.path.exists p] *)
Definition path_exists (f : gset string) (p : string) : bool :=
  bool_decide (p ∈ f).

(** [p] is [dir] or lies below it. *)
Definition under (dir p : string) : bool :=
  String.eqb p dir || String.prefix (dir ++ "/") p.

(** [shutil.rmtree dir] *)
Definition rmtree (dir : string) (f : gset string) : gset string :=
  filter (fun p => under dir p = false) f.


(** ** [app/services/tesseract_service.py] *)

Module TesseractService.

Definition preprocess_image (blur_kernel : Z) (threshold_method : string)
    (block_size c_value simple_thresh_value : Z) : cvexpr :=
  let gray_image := CvtColor Input COLOR_BGR2GRAY in
  let blur_kernel :=
    if blur_kernel mod 2 =? 0 then blur_kernel + 1 else blur_kernel in
  let blurred_image := GaussianBlur gray_image (blur_kernel, blur_kernel) 0 in
  if String.eqb threshold_method "Adaptive Gaussian" then
    AdaptiveThreshold blurred_image 255 ADAPTIVE_THRESH_GAUSSIAN_C
                      THRESH_BINARY block_size c_value
  else if String.eqb threshold_method "Adaptive Mean" then
    AdaptiveThreshold blurred_image 255 ADAPTIVE_THRESH_MEAN_C
                      THRESH_BINARY block_size c_value
  else if String.eqb threshold_method "Otsu" then
    Threshold blurred_image 0 255 (THRESH_BINARY + THRESH_OTSU)
  else
    Threshold blurred_image simple_thresh_value 255 THRESH_BINARY.

Definition _get_preprocessing_settings
    (processing_speed accuracy_level : string) : Settings.t :=
  let settings := Settings.empty in
  let settings :=
    if String.eqb processing_speed "fast" then
      Settings.mk (Some 3) (Some "Simple") (Some 7) (Some 1)
    else if String.eqb processing_speed "balanced" then
      Settings.mk (Some 5) (Some "Adaptive Gaussian") (Some 11) (Some 2)
    else if String.eqb processing_speed "high" then
      Settings.mk (Some 7) (Some "Adaptive Gaussian") (Some 15) (Some 3)
    else if String.eqb processing_speed "maximum" then
      Settings.mk (Some 9) (Some "Otsu") (Some 19) (Some 4)
    else settings in
  if String.eqb accuracy_level "low" then
    settings
  else if String.eqb accuracy_level "medium" then
    if negb (String.eqb processing_speed "fast") then
      Settings.set_threshold_method "Adaptive Gaussian" settings
    else settings
  else if String.eqb accuracy_level "high" then
    if negb (String.eqb processing_speed "fast"
             || String.eqb processing_speed "balanced") then
      let settings :=
        Settings.set_threshold_method "Adaptive Gaussian" settings in
      Settings.set_block_size
        (Z.max (get (Settings.block_size settings) 11) 13) settings
    else settings
  else if String.eqb accuracy_level "maximum" then
    let settings := Settings.set_threshold_method "Otsu" settings in
    let settings :=
      Settings.set_block_size
        (Z.max (get (Settings.block_size settings) 11) 15) settings in
    Settings.set_c_value
      (Z.max (get (Settings.c_value settings) 2) 3) settings
  else settings.

Definition _get_ocr_settings (processing_speed accuracy_level : string)
    : string :=
  let config_parts : list string := [] in
  let config_parts :=
    if String.eqb processing_speed "fast" then
      (config_parts ++ ["--oem 1"; "--psm 6"])%list
    else if String.eqb processing_speed "balanced" then
      (config_parts ++ ["--oem 3"; "--psm 6"])%list
    else if String.eqb processing_speed "high" then
      (config_parts ++ ["--oem 3"; "--psm 3"])%list
    else if String.eqb processing_speed "maximum" then
      (config_parts ++ ["--oem 3"; "--psm 1"])%list
    else config_parts in
  let config_parts :=
    if String.eqb accuracy_level "low" then
      config_parts
    else if String.eqb accuracy_level "medium" then
      (config_parts ++ ["--tessdata-dir ."])%list
    else if String.eqb accuracy_level "high" then
      (config_parts ++ ["--tessdata-dir ."; "--user-words"])%list
    else if String.eqb accuracy_level "maximum" then
      (config_parts ++ ["--tessdata-dir ."; "--user-words"; "--user-patterns";
         "--c tessedit_char_whitelist=0123456789ABCDEFGHIJKLMNOPQRSTUVWXYZabcdefghijklmnopqrstuvwxyz"])%list
    else config_parts in
  String.concat " " config_parts.

(** [[int(conf) for conf in data['conf'] if int(conf) > 0]] *)
Fixpoint positive_confs (conf : list conf_entry) : exn + list Z :=
  match conf with
  | [] => inr []
  | ConfBad msg :: _ => inl (Exception msg)
  | ConfInt z :: rest =>
      and_then (positive_confs rest)
        (fun tl => inr (if 0 <? z then z :: tl else tl))
  end.

Definition sum (l : list Z) : Z := fold_right Z.add 0 l.

(** The inner [try ... except:] of [extract_text]: the value of
    [avg_confidence] once the block is left, given what
    [pytesseract.image_to_data] did. *)
Definition avg_confidence (data : exn + list conf_entry) : Q :=
  match and_then data positive_confs with
  | inr confidences =>
      match confidences with
      | [] => 0%Q
      | _ :: _ =>
          (inject_Z (sum confidences)
           / inject_Z (Z.of_nat (length confidences)))%Q
      end
  | inl _ => 0.95%Q
  end.

(** The image handed to Tesseract (the [if use_preprocessing] block). *)
Definition pil_image (E : Env) (image : ndarray E) (use_preprocessing : bool)
    (blur_kernel : Z) (threshold_method : string) (block_size c_value : Z)
    (preprocessing_settings : Settings.t) : M (PILImage E) :=
  if use_preprocessing then
    let adjusted_blur :=
      get (Settings.blur_kernel preprocessing_settings) blur_kernel in
    let adjusted_threshold :=
      get (Settings.threshold_method preprocessing_settings) threshold_method in
    let adjusted_block_size :=
      get (Settings.block_size preprocessing_settings) block_size in
    let adjusted_c_value :=
      get (Settings.c_value preprocessing_settings) c_value in
    processed_image ←
      run_cv E (preprocess_image adjusted_blur adjusted_threshold
                  adjusted_block_size adjusted_c_value 127) image;
    lift (Image_fromarray E processed_image)
  else
    rgb ← run_cv E (CvtColor Input COLOR_BGR2RGB) image;
    lift (Image_fromarray E rgb).

Definition extract_text (E : Env) (image : ndarray E)
    (use_preprocessing : bool) (blur_kernel : Z) (threshold_method : string)
    (block_size c_value : Z) (processing_speed accuracy_level : string)
    : M (gmap string pyval) :=
  self ← gets tesseract_service;
  if negb (TesseractSelf.model_loaded self) then
    raise (Exception "Tesseract not properly initialized")
  else
    try_except
      (let preprocessing_settings :=
         _get_preprocessing_settings processing_speed accuracy_level in
       let ocr_settings := _get_ocr_settings processing_speed accuracy_level in
       pil_image ←
         pil_image E image use_preprocessing blur_kernel threshold_method
           block_size c_value preprocessing_settings;
       emit (EvImageToString ocr_settings);;
       extracted_text ← lift (image_to_string E pil_image ocr_settings);
       emit EvImageToData;;
       let avg_confidence := avg_confidence (image_to_data_conf E pil_image) in
       let processing_time := elapsed E in
       mret (<["text" := VStr (str_strip E extracted_text)]>
             (<["confidence" := VFloat (avg_confidence / 100)%Q]>
             (<["processing_time" := VFloat processing_time]> ∅))))
      (except_Exception
         (fun e => raise (Exception ("Tesseract OCR failed: " ++ str E e)))).


End TesseractService.

(** ** [app/services/trocr_service.py] *)

(** The download report: the dict [download_model] returns. *)
Module Report.
Record t := mk {
  success : bool;
  message : string;
  status : string;
  output : option string;
  error : option string
}.
End Report.

(** One entry of [get_installed_models], and the dict of [get_status]. *)
Module Installed.
Record t := mk {
  type : string;
  repo : string;
  size : string;
  path : option string
}.
End Installed.

Module Status.
Record t := mk {
  loaded : bool;
  status : string;
  current_model_type : option string;
  device : string;
  model_repo : string;
  available_models : gmap string (string * string);
  installed_models : list Installed.t
}.
End Status.

Module TrOCRService.

(** [self.available_models]: model type to (repo, size). *)
Definition available_models : gmap string (string * string) :=
  list_to_map
    [ ("small-handwritten", ("microsoft/trocr-small-handwritten", "~150 MB"));
      ("small-printed", ("microsoft/trocr-small-printed", "~150 MB"));
      ("base-handwritten", ("microsoft/trocr-base-handwritten", "~450 MB"));
      ("base-printed", ("microsoft/trocr-base-printed", "~450 MB"));
      ("large-handwritten", ("microsoft/trocr-large-handwritten", "~1.4 GB"));
      ("large-printed", ("microsoft/trocr-large-printed", "~1.4 GB")) ].

(** [list(self.available_models.keys())], formatted. *)
Definition available_keys_repr : string :=
  "['small-handwritten', 'small-printed', 'base-handwritten', 'base-printed', 'large-handwritten', 'large-printed']".

Definition _get_model_path (E : Env) (model_type : string) : string :=
  let backend_dir := backend_dir E in
  let python_ocr_dir := path_join backend_dir "python_ocr" in
  let model_dir := path_join python_ocr_dir ("trocr-" ++ model_type) in
  model_dir.

Definition processor_files : list string :=
  ["tokenizer.json"; "tokenizer_config.json"; "preprocessor_config.json"].
Definition model_files : list string :=
  ["config.json"; "pytorch_model.bin"].

Definition _check_local_model (E : Env) (model_type : string)
    (f : gset string) : bool * option string :=
  let model_dir := _get_model_path E model_type in
  if path_exists f model_dir then
    let processor_exists :=
      forallb (fun x => path_exists f (path_join model_dir x)) processor_files in
    let model_exists :=
      forallb (fun x => path_exists f (path_join model_dir x)) model_files in
    (processor_exists && model_exists, Some model_dir)
  else (false, None).

(** [TrOCRProcessor.from_pretrained] followed by
    [VisionEncoderDecoderModel.from_pretrained], from one source, and the
    bookkeeping that follows them. *)
Definition load_from (E : Env) (src model_type : string) : M unit :=
  f ← gets fs;
  emit (EvFromPretrained "TrOCRProcessor" src);;
  match from_pretrained E "TrOCRProcessor" src f with
  | Some e => raise e
  | None =>
      update_trocr (TrOCRSelf.set_processor src);;
      emit (EvFromPretrained "VisionEncoderDecoderModel" src);;
      match from_pretrained E "VisionEncoderDecoderModel" src f with
      | Some e => raise e
      | None =>
          update_trocr (TrOCRSelf.set_model src);;
          update_trocr (TrOCRSelf.set_model_dir src);;
          update_trocr (TrOCRSelf.set_current_model_type model_type)
      end
  end.

Definition _load_model (E : Env) (model_type : string) : M unit :=
  try_except
    (gpu_info ←
       (if cuda_is_available E then lift (cuda_gpu_info E)
        else mret "Not available");
     model_repo ←
       match available_models !! model_type with
       | Some (repo, _) => mret repo
       | None => raise (Exception ("'" ++ model_type ++ "'"))
       end;
     f ← gets fs;
     let '(local_exists, model_dir) := _check_local_model E model_type f in
     (if local_exists then
        update_trocr
          (TrOCRSelf.set_status
             ("Loading TrOCR " ++ model_type ++ " model from local cache..."));;
        load_from E (get model_dir "") model_type
      else
        update_trocr
          (TrOCRSelf.set_status
             ("Downloading TrOCR " ++ model_type
              ++ " model from Hugging Face..."));;
        load_from E model_repo model_type);;
     let device := if cuda_is_available E then "cuda" else "cpu" in
     update_trocr (TrOCRSelf.set_device device);;
     self ← gets trocr_service;
     match model_to E (get (TrOCRSelf.model self) "") device with
     | Some e => raise e
     | None =>
         update_trocr (TrOCRSelf.set_model_loaded true);;
         upper ← lift (device_upper E device);
         update_trocr
           (TrOCRSelf.set_status
              ("Ready - " ++ model_type ++ " - Using " ++ upper ++ " - "
               ++ gpu_info))
     end)
    (except_Exception
       (fun e =>
          update_trocr
            (TrOCRSelf.set_status
               ("Error loading TrOCR " ++ model_type ++ " model: " ++ str E e));;
          update_trocr (TrOCRSelf.set_model_loaded false))).

Definition preprocess_image (blur_kernel : Z) (threshold_method : string)
    (block_size c_value simple_thresh_value : Z) : cvexpr :=
  let gray_image := CvtColor Input COLOR_BGR2GRAY in
  let blur_kernel :=
    if blur_kernel mod 2 =? 0 then blur_kernel + 1 else blur_kernel in
  let blurred_image := GaussianBlur gray_image (blur_kernel, blur_kernel) 0 in
  if String.eqb threshold_method "Adaptive Gaussian" then
    AdaptiveThreshold blurred_image 255 ADAPTIVE_THRESH_GAUSSIAN_C
                      THRESH_BINARY block_size c_value
  else if String.eqb threshold_method "Adaptive Mean" then
    AdaptiveThreshold blurred_image 255 ADAPTIVE_THRESH_MEAN_C
                      THRESH_BINARY block_size c_value
  else if String.eqb threshold_method "Otsu" then
    Threshold blurred_image 0 255 (THRESH_BINARY + THRESH_OTSU)
  else
    Threshold blurred_image simple_thresh_value 255 THRESH_BINARY.

Definition _get_generation_config (processing_speed accuracy_level : string)
    : GenConfig.t :=
  let config := GenConfig.mk 128 true None None None None None in
  let config :=
    if String.eqb processing_speed "fast" then
      GenConfig.set_temperature 1.0
        (GenConfig.set_do_sample false (GenConfig.set_num_beams 1 config))
    else if String.eqb processing_speed "balanced" then
      GenConfig.set_temperature 1.0
        (GenConfig.set_do_sample false (GenConfig.set_num_beams 3 config))
    else if String.eqb processing_speed "high" then
      GenConfig.set_temperature 1.0
        (GenConfig.set_do_sample false (GenConfig.set_num_beams 5 config))
    else if String.eqb processing_speed "maximum" then
      GenConfig.set_top_k 50
        (GenConfig.set_top_p 0.9
           (GenConfig.set_temperature 0.8
              (GenConfig.set_do_sample true
                 (GenConfig.set_num_beams 8 config))))
    else config in
  if String.eqb accuracy_level "low" then
    config
  else if String.eqb accuracy_level "medium" then
    if negb (String.eqb processing_speed "fast") then
      GenConfig.set_num_beams
        (Z.max (get (GenConfig.num_beams config) 1) 3) config
    else config
  else if String.eqb accuracy_level "high" then
    if negb (String.eqb processing_speed "fast"
             || String.eqb processing_speed "balanced") then
      let config :=
        GenConfig.set_num_beams
          (Z.max (get (GenConfig.num_beams config) 1) 5) config in
      GenConfig.set_max_length 150 config
    else config
  else if String.eqb accuracy_level "maximum" then
    let config :=
      GenConfig.set_num_beams
        (Z.max (get (GenConfig.num_beams config) 1) 8) config in
    let config := GenConfig.set_max_length 200 config in
    let config := GenConfig.set_do_sample true config in
    let config := GenConfig.set_temperature 0.7 config in
    let config := GenConfig.set_top_p 0.9 config in
    GenConfig.set_top_k 50 config
  else config.

Definition extract_text (E : Env) (image : ndarray E)
    (use_preprocessing : bool) (blur_kernel : Z) (threshold_method : string)
    (block_size c_value : Z) (processing_speed accuracy_level : string)
    : M (gmap string pyval) :=
  self ← gets trocr_service;
  if negb (TrOCRSelf.model_loaded self) then
    raise (Exception "TrOCR model not properly loaded")
  else
    try_except
      (pil_image ←
         (if use_preprocessing then
            processed_image ←
              run_cv E (preprocess_image blur_kernel threshold_method
                          block_size c_value 127) image;
            lift (Image_fromarray E processed_image)
          else
            rgb ← run_cv E (CvtColor Input COLOR_BGR2RGB) image;
            lift (Image_fromarray E rgb));
       let generation_config :=
         _get_generation_config processing_speed accuracy_level in
       emit (EvGenerate generation_config);;
       extracted_text ←
         lift (trocr_recognize E (TrOCRSelf.processor self)
                 (TrOCRSelf.model self) (TrOCRSelf.device self) pil_image
                 generation_config);
       let processing_time := elapsed E in
       mret (<["text" := VStr (str_strip E extracted_text)]>
             (<["confidence" := VFloat 0.95]>
             (<["processing_time" := VFloat processing_time]> ∅))))
      (except_Exception
         (fun e => raise (Exception ("TrOCR processing failed: " ++ str E e)))).

(** [self.current_model_type == model_type] *)
Definition is_current (self : TrOCRSelf.t) (model_type : string) : bool :=
  match TrOCRSelf.current_model_type self with
  | Some t => String.eqb t model_type
  | None => false
  end.

(** [with open(p, "w") as f: f.write(...)] *)
Definition write_file (p : string) : M unit :=
  f ← gets fs;
  emit (EvWrite p);;
  set_fs ({[p]} ∪ f).

(** [if os.path.exists(p): os.remove(p)] *)
Definition remove_if_exists (p : string) : M unit :=
  f ← gets fs;
  if path_exists f p then emit (EvRemove p);; set_fs (f ∖ {[p]}) else mret tt.

(** [subprocess.run([sys.executable, script], ..., cwd=cwd, timeout=300)] *)
Definition run (E : Env) (script model_type cwd : string)
    : M (Z * string * string) :=
  f ← gets fs;
  emit (EvSubprocessRun script);;
  let '(outcome, f') := subprocess_run E script model_type cwd f in
  set_fs f';;
  match outcome with
  | Completed returncode stdout stderr => mret (returncode, stdout, stderr)
  | Raised e => raise e
  end.

(** The three handlers of the inner [try]: each removes the temporary
    script, records the error in [self.status] and returns a failure. *)
Definition download_failed (temp_script error_msg : string) : M Report.t :=
  remove_if_exists temp_script;;
  update_trocr (TrOCRSelf.set_status ("Error: " ++ error_msg));;
  self ← gets trocr_service;
  mret (Report.mk false error_msg (TrOCRSelf.status self) None None).

(** The inner [try] of [download_model]: run the temporary script, remove
    it, and load the model if the child succeeded. *)
Definition run_download (E : Env) (model_type python_ocr temp_script : string)
    : M Report.t :=
  try_except
    ('(returncode, stdout, stderr) ←
       run E temp_script model_type python_ocr;
     remove_if_exists temp_script;;
     if returncode =? 0 then
       _load_model E model_type;;
       self ← gets trocr_service;
       mret (Report.mk true
               ("Model " ++ model_type
                ++ " downloaded and loaded successfully")
               (TrOCRSelf.status self) (Some stdout) None)
     else
       let error_msg := "Download script failed: " ++ stderr in
       update_trocr (TrOCRSelf.set_status ("Error: " ++ error_msg));;
       self ← gets trocr_service;
       mret (Report.mk false error_msg (TrOCRSelf.status self)
               (Some stdout) (Some stderr)))
    (fun e =>
       match e with
       | TimeoutExpired _ =>
           Some (download_failed temp_script
                   "Model download timed out after 5 minutes")
       | KeyboardInterrupt =>
           Some (download_failed temp_script
                   "Model download was interrupted")
       | _ =>
           Some (download_failed temp_script
                   ("Download script execution failed: " ++ str E e))
       end).

Definition download_model (E : Env) (model_type : string) : M Report.t :=
  try_except
    (match available_models !! model_type with
     | None =>
         mret (Report.mk false
                 ("Invalid model type: " ++ model_type
                  ++ ". Available types: " ++ available_keys_repr)
                 "Error" None None)
     | Some _ =>
         self ← gets trocr_service;
         if TrOCRSelf.model_loaded self && is_current self model_type then
           mret (Report.mk true ("Model " ++ model_type ++ " already loaded")
                   (TrOCRSelf.status self) None None)
         else
           f ← gets fs;
           let '(local_exists, model_dir) :=
             _check_local_model E model_type f in
           if local_exists then
             update_trocr
               (TrOCRSelf.set_status
                  ("Local " ++ model_type ++ " model found, loading..."));;
             _load_model E model_type;;
             self ← gets trocr_service;
             mret (Report.mk true
                     ("Model " ++ model_type ++ " loaded from local cache")
                     (TrOCRSelf.status self) None None)
           else
             update_trocr
               (TrOCRSelf.set_status
                  ("Downloading TrOCR " ++ model_type
                   ++ " model... This may take several minutes."));;
             let python_ocr := path_join (backend_dir E) "python_ocr" in
             let download_script := path_join python_ocr "download_model.py" in
             let temp_script := path_join python_ocr "temp_download.py" in
             write_file temp_script;;
             run_download E model_type python_ocr temp_script
     end)
    (except_Exception
       (fun e =>
          let error_msg := "Model download failed: " ++ str E e in
          update_trocr (TrOCRSelf.set_status error_msg);;
          self ← gets trocr_service;
          mret (Report.mk false error_msg (TrOCRSelf.status self) None None))).

(** [self.available_models.items()]: the entries in the order the dict was
    written. *)
Definition available_items : list (string * (string * string)) :=
  [ ("small-handwritten", ("microsoft/trocr-small-handwritten", "~150 MB"));
    ("small-printed", ("microsoft/trocr-small-printed", "~150 MB"));
    ("base-handwritten", ("microsoft/trocr-base-handwritten", "~450 MB"));
    ("base-printed", ("microsoft/trocr-base-printed", "~450 MB"));
    ("large-handwritten", ("microsoft/trocr-large-handwritten", "~1.4 GB"));
    ("large-printed", ("microsoft/trocr-large-printed", "~1.4 GB")) ].

Definition get_available_models : gmap string (string * string) :=
  available_models.

(** The loop of [get_installed_models] over the catalog entries. *)
Fixpoint installed_among (E : Env) (f : gset string)
    (items : list (string * (string * string))) : list Installed.t :=
  match items with
  | [] => []
  | (model_type, (repo, size)) :: rest =>
      let '(exists_, model_dir) := _check_local_model E model_type f in
      if exists_ then
        Installed.mk model_type repo size model_dir :: installed_among E f rest
      else installed_among E f rest
  end.

Definition get_installed_models (E : Env) (f : gset string)
    : list Installed.t :=
  installed_among E f available_items.

Definition get_status (E : Env) (self : TrOCRSelf.t) (f : gset string)
    : Status.t :=
  Status.mk
    (TrOCRSelf.model_loaded self)
    (TrOCRSelf.status self)
    (TrOCRSelf.current_model_type self)
    (match TrOCRSelf.device self with
     | Some d => d
     | None => "Unknown"
     end)
    (match TrOCRSelf.current_model_type self with
     | Some t =>
         if String.eqb t "" then "None"
         else match available_models !! t with
              | Some (repo, _) => repo
              | None => "Unknown"
              end
     | None => "None"
     end)
    available_models
    (get_installed_models E f).

End TrOCRService.

(** ** [app/utils/file_utils.py] *)

(** The fields of an upload the code reads, and what decoding it gives
    ([file.read()], [Image.open], [np.array], [cv2.cvtColor]). *)
Record UploadFile (E : Env) := mkUploadFile {
  size : option Z;
  filename : option string;
  content_type : option string;
  decoded : exn + ndarray E
}.
Arguments size {E}.
Arguments filename {E}.
Arguments content_type {E}.
Arguments decoded {E}.

Module file_utils.

Definition ALLOWED_IMAGE_TYPES : list string :=
  ["image/jpeg"; "image/jpg"; "image/png"; "image/bmp"; "image/tiff";
   "image/tif"; "image/webp"].

Definition ALLOWED_EXTENSIONS : list string :=
  [".jpg"; ".jpeg"; ".png"; ".bmp"; ".tiff"; ".tif"; ".webp"].

Definition MAX_FILE_SIZE : Z := 10 * 1024 * 1024.

Definition mem (x : string) (l : list string) : bool :=
  existsb (String.eqb x) l.

Definition validate_image_file {E : Env} (file : UploadFile E) : bool :=
  if match size file with
     | Some n => negb (n =? 0) && (MAX_FILE_SIZE <? n)
     | None => false
     end
  then false
  else if match filename file with
          | Some name =>
              negb (String.eqb name "")
              && negb (mem (path_suffix_lower E name) ALLOWED_EXTENSIONS)
          | None => false
          end
  then false
  else if match content_type file with
          | Some ct =>
              negb (String.eqb ct "") && negb (mem ct ALLOWED_IMAGE_TYPES)
          | None => false
          end
  then false
  else true.

Definition generate_unique_filename (E : Env) (original_filename : string)
    : string :=
  let file_ext := path_suffix_lower E original_filename in
  let unique_id := uuid4 E in
  unique_id ++ file_ext.

(** [file.filename or "upload"] *)
Definition filename_or (name : option string) (dflt : string) : string :=
  match name with
  | Some n => if String.eqb n "" then dflt else n
  | None => dflt
  end.

Definition save_uploaded_file {E : Env} (file : UploadFile E) : M string :=
  let upload_dir := "uploads" in
  f ← gets fs;
  set_fs ({[upload_dir]} ∪ f);;
  let unique_filename :=
    generate_unique_filename E (filename_or (filename file) "upload") in
  let file_path := path_join upload_dir unique_filename in
  f ← gets fs;
  emit (EvSaveUpload file_path);;
  set_fs ({[file_path]} ∪ f);;
  mret file_path.

(** One entry of a directory listing: its name, whether it is a regular
    file, and its modification time. *)
Record DirEntry := mkDirEntry {
  entry_name : string;
  is_file : bool;
  st_mtime : Q
}.

(** [cleanup_old_files]: [listing] is the content of the uploads directory,
    [None] if the directory does not exist; the result is what is left of
    it.  Both times are floats, and [float_sub] is their binary64
    subtraction, which rounds: the age compared with the limit is the
    rounded difference, not the exact one.  The comparison of that float
    with the integer limit is exact. *)
Definition cleanup_old_files (float_sub : Q -> Q -> Q) (current_time : Q)
    (listing : option (list DirEntry)) (max_age_hours : Z)
    : option (list DirEntry) :=
  match listing with
  | None => None
  | Some entries =>
      let max_age_seconds := max_age_hours * 3600 in
      Some (List.filter
              (fun file_path =>
                 if is_file file_path then
                   let file_age := float_sub current_time (st_mtime file_path) in
                   (* kept unless [file_age > max_age_seconds] *)
                   Qle_bool file_age (inject_Z max_age_seconds)
                 else true)
              entries)
  end.

End file_utils.

(** ** [app/routes/ocr_routes.py] *)

Module ocr_routes.

(** [d[k]] *)
Definition getitem (d : gmap string pyval) (k : string) : M pyval :=
  match d !! k with
  | Some v => mret v
  | None => raise (Exception ("'" ++ k ++ "'"))
  end.

Definition extract_text {E : Env} (file : UploadFile E)
    (ocr_type model_type : string) (use_preprocessing : bool)
    (blur_kernel : Z) (threshold_method : string) (block_size c_value : Z)
    (primary_language : string) (language_detection : bool)
    (custom_dictionary processing_speed accuracy_level : string)
    : M (gmap string pyval) :=
  try_except
    (if negb (file_utils.validate_image_file file) then
       raise (HTTPException 400 "Invalid image file")
     else
       image_cv ← lift (decoded file);
       file_path ← file_utils.save_uploaded_file file;
       result ←
         (if String.eqb ocr_type "tesseract" then
            TesseractService.extract_text E image_cv use_preprocessing
              blur_kernel threshold_method block_size c_value
              processing_speed accuracy_level
          else if String.eqb ocr_type "trocr" then
            self ← gets trocr_service;
            if negb (TrOCRSelf.model_loaded self)
               || negb (TrOCRService.is_current self model_type) then
              load_result ← TrOCRService.download_model E model_type;
              if negb (Report.success load_result) then
                result ←
                  TesseractService.extract_text E image_cv use_preprocessing
                    blur_kernel threshold_method block_size c_value
                    processing_speed accuracy_level;
                let result := <["fallback_used" := VBool true]> result in
                let result :=
                  <["fallback_reason" :=
                      VStr ("TrOCR model " ++ model_type
                            ++ " failed to load: "
                            ++ Report.message load_result)]> result in
                mret result
              else
                TrOCRService.extract_text E image_cv use_preprocessing
                  blur_kernel threshold_method block_size c_value
                  processing_speed accuracy_level
            else
              TrOCRService.extract_text E image_cv use_preprocessing
                blur_kernel threshold_method block_size c_value
                processing_speed accuracy_level
          else
            raise (HTTPException 400
                     "Invalid OCR type. Use 'tesseract' or 'trocr'"));
       text ← getitem result "text";
       mret (<["success" := VBool true]>
             (<["text" := text]>
             (<["confidence" := get (result !! "confidence") (VFloat 0.95)]>
             (<["processing_time" :=
                  get (result !! "processing_time") (VInt 0)]>
             (<["file_path" := VStr file_path]>
             (<["ocr_type" := VStr ocr_type]>
             (<["model_type" :=
                  if String.eqb ocr_type "trocr" then VStr model_type
                  else VNone]>
             (<["preprocessing_used" := VBool use_preprocessing]>
             (<["settings_used" :=
                  VDict
                    (<["primary_language" := VStr primary_language]>
                    (<["language_detection" := VBool language_detection]>
                    (<["custom_dictionary" := VStr custom_dictionary]>
                    (<["processing_speed" := VStr processing_speed]>
                    (<["accuracy_level" := VStr accuracy_level]>
                    (<["blur_kernel" := VInt blur_kernel]>
                    (<["threshold_method" := VStr threshold_method]>
                    (<["block_size" := VInt block_size]>
                    (<["c_value" := VInt c_value]> ∅)))))))))]>
               ∅))))))))))
    (except_Exception
       (fun e =>
          raise (HTTPException 500 ("OCR processing failed: " ++ str E e)))).

Definition clear_model_cache (E : Env) : M (gmap string pyval) :=
  try_except
    (let model_dir := TrOCRService._get_model_path E "large-handwritten" in
     f ← gets fs;
     if path_exists f model_dir then
       emit (EvRmtree model_dir);;
       set_fs (rmtree model_dir f);;
       update_trocr (TrOCRSelf.set_model_loaded false);;
       update_trocr (TrOCRSelf.set_status "Local cache cleared");;
       self ← gets trocr_service;
       mret (<["success" := VBool true]>
             (<["message" := VStr "Model cache cleared successfully"]>
             (<["status" := VStr (TrOCRSelf.status self)]> ∅)))
     else
       mret (<["success" := VBool true]>
             (<["message" := VStr "No local cache found"]>
             (<["status" := VStr "No cache to clear"]> ∅))))
    (except_Exception
       (fun e =>
          raise (HTTPException 500
                   ("Failed to clear model cache: " ++ str E e)))).

(** The [/preprocess] route; [imencode] stands for [cv2.imencode('.png', _)]
    followed by [base64.b64encode(_).decode()]. *)
Definition preprocess_image {E : Env} (imencode : ndarray E -> exn + string)
    (file : UploadFile E) (blur_kernel : Z) (threshold_method : string)
    (block_size c_value simple_thresh_value : Z) : M (gmap string pyval) :=
  try_except
    (if negb (file_utils.validate_image_file file) then
       raise (HTTPException 400 "Invalid image file")
     else
       image_cv ← lift (decoded file);
       processed_image ←
         run_cv E (TesseractService.preprocess_image blur_kernel
                     threshold_method block_size c_value simple_thresh_value)
           image_cv;
       processed_base64 ← lift (imencode processed_image);
       mret (<["success" := VBool true]>
             (<["processed_image" :=
                  VStr ("data:image/png;base64," ++ processed_base64)]>
             (<["settings" :=
                  VDict
                    (<["blur_kernel" := VInt blur_kernel]>
                    (<["threshold_method" := VStr threshold_method]>
                    (<["block_size" := VInt block_size]>
                    (<["c_value" := VInt c_value]>
                    (<["simple_thresh_value" := VInt simple_thresh_value]>
                       ∅)))))]> ∅))))
    (except_Exception
       (fun e =>
          raise (HTTPException 500
                   ("Image preprocessing failed: " ++ str E e)))).

Definition download_models (E : Env) (model_type : string) : M Report.t :=
  try_except
    (result ← TrOCRService.download_model E model_type;
     mret result)
    (except_Exception
       (fun e =>
          raise (HTTPException 500 ("Model download failed: " ++ str E e)))).

Definition force_download_models (E : Env) (model_type : string)
    : M Report.t :=
  try_except
    (update_trocr (TrOCRSelf.set_model_loaded false);;
     update_trocr
       (TrOCRSelf.set_status
          ("Force downloading TrOCR " ++ model_type ++ " model..."));;
     result ← TrOCRService.download_model E model_type;
     mret result)
    (except_Exception
       (fun e =>
          raise (HTTPException 500
                   ("Force model download failed: " ++ str E e)))).

End ocr_routes.

(** ** The design document's vocabulary *)

(** The presets of the document, section 3, and the keys that select them. *)
Inductive Speed := SpeedFast | SpeedBalanced | SpeedHigh | SpeedMaximum.
Inductive Accuracy := AccLow | AccMedium | AccHigh | AccMaximum.
Inductive Method := AdaptiveGaussian | AdaptiveMean | Otsu | Simple.

Definition speed_key (s : Speed) : string :=
  match s with
  | SpeedFast => "fast"
  | SpeedBalanced => "balanced"
  | SpeedHigh => "high"
  | SpeedMaximum => "maximum"
  end.

Definition accuracy_key (a : Accuracy) : string :=
  match a with
  | AccLow => "low"
  | AccMedium => "medium"
  | AccHigh => "high"
  | AccMaximum => "maximum"
  end.

Definition method_name (m : Method) : string :=
  match m with
  | AdaptiveGaussian => "Adaptive Gaussian"
  | AdaptiveMean => "Adaptive Mean"
  | Otsu => "Otsu"
  | Simple => "Simple"
  end.

Record PreprocessingParams := mkParams {
  blur : Z;
  method : Method;
  block : Z;
  c : Z
}.

(** Section 4.2, the policy table: one row per speed. *)
Definition policy_table (s : Speed) : PreprocessingParams :=
  match s with
  | SpeedFast => mkParams 3 Simple 7 1
  | SpeedBalanced => mkParams 5 AdaptiveGaussian 11 2
  | SpeedHigh => mkParams 7 AdaptiveGaussian 15 3
  | SpeedMaximum => mkParams 9 Otsu 19 4
  end.

(** Section 4.2, the accuracy overlay, in the document's words. *)
Definition accuracy_overlay (s : Speed) (a : Accuracy)
    (p : PreprocessingParams) : PreprocessingParams :=
  match a with
  | AccLow => p
  | AccMedium =>
      match s with
      | SpeedFast => p
      | _ => mkParams (blur p) AdaptiveGaussian (block p) (c p)
      end
  | AccHigh =>
      match s with
      | SpeedFast | SpeedBalanced => p
      | _ => mkParams (blur p) AdaptiveGaussian (Z.max (block p) 13) (c p)
      end
  | AccMaximum =>
      mkParams (blur p) Otsu (Z.max (block p) 15) (Z.max (c p) 3)
  end.

Definition resolve (s : Speed) (a : Accuracy) : PreprocessingParams :=
  accuracy_overlay s a (policy_table s).

(** The settings dict that carries given parameters. *)
Definition settings_of (p : PreprocessingParams) : Settings.t :=
  Settings.mk (Some (blur p)) (Some (method_name (method p)))
              (Some (block p)) (Some (c p)).

(** Section 4.2 on the engine runtime parameters, as written: beam width by
    speed, sampling at a maximum preset only, output length by accuracy. *)
Definition beam_width (s : Speed) : Z :=
  match s with
  | SpeedFast => 1
  | SpeedBalanced => 3
  | SpeedHigh => 5
  | SpeedMaximum => 8
  end.

Definition output_length (a : Accuracy) : Z :=
  match a with
  | AccLow | AccMedium => 128
  | AccHigh => 150
  | AccMaximum => 200
  end.

Definition at_maximum (s : Speed) (a : Accuracy) : bool :=
  match s, a with
  | SpeedMaximum, _ | _, AccMaximum => true
  | _, _ => false
  end.

(** Sampling is active in a config: [do_sample] is set and the nucleus and
    top-k cut-offs are present. *)
Definition sampling (cfg : GenConfig.t) : bool :=
  match GenConfig.do_sample cfg, GenConfig.top_p cfg, GenConfig.top_k cfg with
  | Some true, Some _, Some _ => true
  | _, _, _ => false
  end.

Definition runtime_rule_as_written (s : Speed) (a : Accuracy) : Prop :=
  let cfg := TrOCRService._get_generation_config (speed_key s) (accuracy_key a) in
  GenConfig.num_beams cfg = Some (beam_width s)
  /\ (sampling cfg = true -> at_maximum s a = true)
  /\ GenConfig.max_length cfg = output_length a.

(** What the code does instead on the two axes where it differs. *)
Definition beam_width_used (s : Speed) (a : Accuracy) : Z :=
  match a with
  | AccMaximum => 8
  | _ => beam_width s
  end.

Definition output_length_used (s : Speed) (a : Accuracy) : Z :=
  match a, s with
  | AccMaximum, _ => 200
  | AccHigh, (SpeedHigh | SpeedMaximum) => 150
  | _, _ => 128
  end.

(** The odd kernel next to [k]: [k + 1] for an even [k], [k] itself otherwise. *)
Definition odd_kernel (k : Z) : Z := if Z.even k then k + 1 else k.

(** The blur-kernel invariant of the document, at one input. *)
Definition blur_rule_as_written (pipeline : cvexpr) (k : Z) : Prop :=
  exists k', blur_ksize pipeline = Some (k', k')
    /\ Z.odd k' = true /\ 1 <= k' /\ k' = odd_kernel k.

(** The pipeline with simple global thresholding at [thresh]. *)
Definition simple_pipeline (k thresh : Z) : cvexpr :=
  Threshold
    (GaussianBlur (CvtColor Input COLOR_BGR2GRAY) (odd_kernel k, odd_kernel k) 0)
    thresh 255 THRESH_BINARY.


(** ** [python_ocr/download_model.py], run through the temporary script *)

Module download_model_py.

(** What the script gets from outside: the time stamp in the name of its log
    file and whether that file can be written; three values it only logs;
    for a hub repository, the message of the exception
    [TrOCRProcessor.from_pretrained] (with or without the fast tokenizer) and
    [VisionEncoderDecoderModel.from_pretrained] raise, if any; the files
    [save_pretrained] leaves in a directory, or the message of the exception
    it raises; the traceback printed for an uncaught exception; and what the
    libraries write to the error stream. *)
Record Lib := mkLib {
  timestamp : string;
  log_writable : bool;
  HF_HOME : string;
  TRANSFORMERS_CACHE : string;
  executable : string;
  processor_from_pretrained : string -> bool -> option string;
  processor_save_pretrained : string -> gset string -> string + gset string;
  model_from_pretrained : string -> option string;
  model_save_pretrained : string -> gset string -> string + gset string;
  traceback : string -> string;
  noise : string
}.

Definition AVAILABLE_MODELS : gmap string (string * string) :=
  list_to_map
    [ ("small-handwritten", ("microsoft/trocr-small-handwritten", "~150 MB"));
      ("small-printed", ("microsoft/trocr-small-printed", "~150 MB"));
      ("base-handwritten", ("microsoft/trocr-base-handwritten", "~450 MB"));
      ("base-printed", ("microsoft/trocr-base-printed", "~450 MB"));
      ("large-handwritten", ("microsoft/trocr-large-handwritten", "~1.4 GB"));
      ("large-printed", ("microsoft/trocr-large-printed", "~1.4 GB")) ].

(** The child process: the files, and the lines printed so far. *)
Record Proc := mkProc {
  files : gset string;
  printed : list string
}.

(** [log(message, log_path)]: print, then append to the log file; an error
    while writing is swallowed. *)
Definition log (L : Lib) (message log_path : string) (p : Proc) : Proc :=
  mkProc (if log_writable L then {[log_path]} ∪ files p else files p)
         (printed p ++ [message]).

Definition nl : string := String (Ascii.ascii_of_nat 10) EmptyString.

Definition stdout (p : Proc) : string :=
  String.concat "" (map (fun line => line ++ nl) (printed p)).

(** The process ends with a return code. *)
Definition exit (L : Lib) (code : Z) (stderr : string) (p : Proc)
    : proc_outcome * gset string :=
  (Completed code (stdout p) (noise L ++ stderr), files p).

(** The [except Exception as e] of [download_model]. *)
Definition failed (L : Lib) (args_log e : string) (p : Proc)
    : proc_outcome * gset string :=
  let p := log L ("Error: " ++ e) args_log p in
  exit L 1 "" p.

(** [download_model()] with no model key, so that the model comes from
    [choose_model], which either raises (an uncaught exception, with its
    message) or returns a key and a repository; the directory of the script
    exists.  [LOG_DIR] was made when the module was imported. *)
Definition download_model (L : Lib) (script_dir : string)
    (choose_model : string + string * string) (p : Proc)
    : proc_outcome * gset string :=
  let LOG_DIR := path_join script_dir "logs" in
  let args_log :=
    path_join LOG_DIR ("trocr_download_" ++ timestamp L ++ ".log") in
  let p := log L "Starting TrOCR download utility" args_log p in
  let p := log L ("Log file: " ++ args_log) args_log p in
  match choose_model with
  | inl e => exit L 1 (traceback L e) p
  | inr (model_key, model_name) =>
      let model_dir := path_join script_dir ("trocr-" ++ model_key) in
      let p := mkProc ({[model_dir]} ∪ files p) (printed p) in
      let p := log L ("Target directory: " ++ model_dir) args_log p in
      if path_exists (files p) (path_join model_dir "config.json") then
        let p :=
          log L ("Model '" ++ model_name ++ "' already exists at " ++ model_dir)
              args_log p in
        exit L 0 "" p
      else
        let p := log L ("Downloading " ++ model_name ++ "...") args_log p in
        let p := log L "Environment info:" args_log p in
        let p := log L ("  HF_HOME=" ++ HF_HOME L) args_log p in
        let p :=
          log L ("  TRANSFORMERS_CACHE=" ++ TRANSFORMERS_CACHE L) args_log p in
        let p := log L ("  PYTHON=" ++ executable L) args_log p in
        let p := log L "Step 1/2: Downloading processor..." args_log p in
        let processor :=
          match processor_from_pretrained L model_name true with
          | None => inr p
          | Some e =>
              let p :=
                log L ("   Fast tokenizer failed: " ++ e) args_log p in
              let p :=
                log L
                  "   Falling back to slow tokenizer (requires sentencepiece)..."
                  args_log p in
              match processor_from_pretrained L model_name false with
              | None => inr p
              | Some e' => inl (e', p)
              end
          end in
        match processor with
        | inl (e, p) => failed L args_log e p
        | inr p =>
            match processor_save_pretrained L model_dir (files p) with
            | inl e => failed L args_log e p
            | inr f =>
                let p := mkProc f (printed p) in
                let p := log L "   Processor saved." args_log p in
                let p :=
                  log L
                    "Step 2/2: Downloading model (this may take several minutes)..."
                    args_log p in
                match model_from_pretrained L model_name with
                | Some e => failed L args_log e p
                | None =>
                    match model_save_pretrained L model_dir (files p) with
                    | inl e => failed L args_log e p
                    | inr f =>
                        let p := mkProc f (printed p) in
                        let p := log L "   Model saved." args_log p in
                        let p :=
                          log L
                            ("Download complete! Model stored at: "
                             ++ model_dir) args_log p in
                        let p := log L "Done." args_log p in
                        exit L 0 "" p
                    end
                end
            end
        end
  end.

(** The temporary script [TrOCRService.download_model] writes for
    [model_type]: it imports the module (which makes [LOG_DIR]), replaces
    [choose_model] by a function that returns [model_type] and its catalog
    repository (a [KeyError] if there is none), and calls [download_model()].
    [script_dir] is the directory both scripts are in. *)
Definition temp_download (L : Lib) (model_type script_dir : string)
    (f : gset string) : proc_outcome * gset string :=
  let LOG_DIR := path_join script_dir "logs" in
  let p := mkProc ({[LOG_DIR]} ∪ f) [] in
  download_model L script_dir
    (match AVAILABLE_MODELS !! model_type with
     | Some (repo, _) => inr (model_type, repo)
     | None => inl ("'" ++ model_type ++ "'")
     end) p.

End download_model_py.

(** The environment in which the child process is the repository's own
    script. *)
Definition with_script (E : Env) (L : download_model_py.Lib) : Env :=
  {| ndarray := ndarray E;
     PILImage := PILImage E;
     cv2_cvtColor := cv2_cvtColor E;
     cv2_GaussianBlur := cv2_GaussianBlur E;
     cv2_adaptiveThreshold := cv2_adaptiveThreshold E;
     cv2_threshold := cv2_threshold E;
     Image_fromarray := Image_fromarray E;
     image_to_string := image_to_string E;
     image_to_data_conf := image_to_data_conf E;
     str_strip := str_strip E;
     str_HTTPException := str_HTTPException E;
     path_suffix_lower := path_suffix_lower E;
     uuid4 := uuid4 E;
     elapsed := elapsed E;
     backend_dir := backend_dir E;
     cuda_is_available := cuda_is_available E;
     cuda_gpu_info := cuda_gpu_info E;
     from_pretrained := from_pretrained E;
     model_to := model_to E;
     device_upper := device_upper E;
     trocr_recognize := trocr_recognize E;
     subprocess_run := fun script model_type cwd f =>
       download_model_py.temp_download L model_type cwd f |}.
(** ** Vocabulary for the stateful properties *)

(** [now] extends [old] by calls that all satisfy [P]. *)
Inductive grows (P : event -> Prop) (old : list event) : list event -> Prop :=
  | grows_refl : grows P old old
  | grows_cons ev now : P ev -> grows P old now -> grows P old (ev :: now).

(** [s'] differs from [s] at most in the TrOCR service object and in calls
    that satisfy [P]: Tesseract and the files are as they were. *)
Definition frame (P : event -> Prop) (s s' : St) : Prop :=
  tesseract_service s' = tesseract_service s
  /\ fs s' = fs s
  /\ grows P (log s) (log s').

(** From any state whose files are [f0], the computation leaves Tesseract
    and the files alone and makes only calls that satisfy [P]. *)
Definition framed (f0 : gset string) (P : event -> Prop) {A} (m : M A) : Prop :=
  forall s, fs s = f0 -> frame P s (snd (m s)).

(** A [from_pretrained] call on [src]; any [from_pretrained] call; the
    storing of the upload. *)
Definition loads_from (src : string) (ev : event) : Prop :=
  exists cls, ev = EvFromPretrained cls src.

Definition is_load (ev : event) : Prop :=
  exists cls src, ev = EvFromPretrained cls src.

Definition is_upload (ev : event) : Prop :=
  exists path, ev = EvSaveUpload path.

(** The child process timed out, was interrupted, could not be run, or
    exited with a non-zero code. *)
Definition ended_badly (o : proc_outcome) : Prop :=
  match o with
  | Completed returncode _ _ => returncode <> 0
  | Raised _ => True
  end.

(** The reason reported for each way the child can end badly. *)
Definition failure_reason (E : Env) (o : proc_outcome) : string :=
  match o with
  | Completed _ _ stderr => "Download script failed: " ++ stderr
  | Raised (TimeoutExpired _) => "Model download timed out after 5 minutes"
  | Raised KeyboardInterrupt => "Model download was interrupted"
  | Raised e => "Download script execution failed: " ++ str E e
  end.

(** The body [clear_model_cache] answers with when there is no cache. *)
Definition no_cache_body : gmap string pyval :=
  <["success" := VBool true]>
  (<["message" := VStr "No local cache found"]>
  (<["status" := VStr "No cache to clear"]> ∅)).

(** The strictly positive values of a list of confidences, and their
    average. *)
Definition positives (zs : list Z) : list Z := filter (fun z => 0 < z) zs.

Definition average (zs : list Z) : Q :=
  (inject_Z (TesseractService.sum zs) / inject_Z (Z.of_nat (length zs)))%Q.

(** What a computation returned, if it did not raise, and one key of a
    returned dict. *)
Definition answer {A} (r : (exn + A) * St) : option A :=
  match fst r with
  | inr a => Some a
  | inl _ => None
  end.

Definition field (k : string) (r : (exn + gmap string pyval) * St)
    : option pyval :=
  match answer r with
  | Some d => d !! k
  | None => None
  end.

(** ** Vocabulary for the remaining functions *)

(** A key that selects no preset row. *)
Definition off_grid (key : string) : Prop :=
  key <> "fast" /\ key <> "balanced" /\ key <> "high" /\ key <> "maximum".

Definition unknown_accuracy (key : string) : Prop :=
  key <> "low" /\ key <> "medium" /\ key <> "high" /\ key <> "maximum".

(** The presets in increasing order. *)
Definition speed_rank (s : Speed) : Z :=
  match s with
  | SpeedFast => 0
  | SpeedBalanced => 1
  | SpeedHigh => 2
  | SpeedMaximum => 3
  end.

Definition accuracy_rank (a : Accuracy) : Z :=
  match a with
  | AccLow => 0
  | AccMedium => 1
  | AccHigh => 2
  | AccMaximum => 3
  end.

(** Both keys are stored and the first value is at most the second. *)
Definition stored_le (x y : option Z) : Prop :=
  match x, y with
  | Some a, Some b => a <= b
  | _, _ => False
  end.

(** Every state the computation can end in is related to the one it started
    from. *)
Definition respects (R : St -> St -> Prop) {A} (m : M A) : Prop :=
  forall s, R s (snd (m s)).

(** Nothing changed but the log, which grew by calls that satisfy [P]. *)
Definition calm (P : event -> Prop) (s s' : St) : Prop :=
  tesseract_service s' = tesseract_service s
  /\ trocr_service s' = trocr_service s
  /\ fs s' = fs s
  /\ grows P (log s) (log s').

(** The calls of the deterministic engine and of the neural engine. *)
Definition tesseract_call (ev : event) : Prop :=
  match ev with
  | EvRunCv _ | EvImageToString _ | EvImageToData => True
  | _ => False
  end.

Definition trocr_call (ev : event) : Prop :=
  match ev with
  | EvRunCv _ | EvGenerate _ => True
  | _ => False
  end.

(** The errors an engine's [extract_text] can end with: its own
    not-ready error, a wrapped failure of the extraction, or an interrupt. *)
Definition engine_error (E : Env) (not_ready wrapped : string) (e : exn)
    : Prop :=
  e = Exception not_ready
  \/ (exists cause, is_Exception cause = true
                    /\ e = Exception (wrapped ++ str E cause))
  \/ e = KeyboardInterrupt.

(** The keys of an engine result. *)
Definition result_keys : gset string :=
  {["text"; "confidence"; "processing_time"]}.

(** The dict a computation returned (empty if it raised). *)
Definition returned (r : (exn + gmap string pyval) * St) : gmap string pyval :=
  match fst r with
  | inr d => d
  | inl _ => ∅
  end.


(** ** Vocabulary for the routes *)

(** What a route lets out: an interrupt, or a 500 whose detail starts with
    the route's own prefix. *)
Definition http_500 (prefix : string) (e : exn) : Prop :=
  e = KeyboardInterrupt
  \/ exists cause, e = HTTPException 500 (prefix ++ cause).

(** The path [save_uploaded_file] stores an upload under. *)
Definition upload_path {E : Env} (file : UploadFile E) : string :=
  path_join "uploads"
    (file_utils.generate_unique_filename E
       (file_utils.filename_or (filename file) "upload")).

(** The calls of a request that needs no model to be loaded: the storing of
    the upload and the calls of the two engines. *)
Definition request_call (ev : event) : Prop :=
  match ev with
  | EvSaveUpload _ | EvRunCv _ | EvImageToString _ | EvImageToData
  | EvGenerate _ => True
  | _ => False
  end.

(** Both service objects are as they were, no file is gone, every new path
    is the uploads directory or lies below it, and only calls that satisfy
    [request_call] were made. *)
Definition served (s s' : St) : Prop :=
  tesseract_service s' = tesseract_service s
  /\ trocr_service s' = trocr_service s
  /\ fs s ⊆ fs s'
  /\ (forall p, p ∈ fs s' -> p ∈ fs s \/ under "uploads" p = true)
  /\ grows request_call (log s) (log s').

(** The state [save_uploaded_file] leaves behind. *)
Definition saved {E : Env} (file : UploadFile E) (s : St) : St :=
  mkSt (tesseract_service s) (trocr_service s)
       ({[upload_path file]} ∪ ({["uploads"]} ∪ fs s))
       (EvSaveUpload (upload_path file) :: log s).

(** ** The states the process can be in *)

(** If the TrOCR service says a model is loaded, then a processor, a model
    and a device are set and the current model type is a catalog key. *)
Definition usable (self : TrOCRSelf.t) : Prop :=
  TrOCRSelf.model_loaded self = true ->
  is_Some (TrOCRSelf.processor self)
  /\ is_Some (TrOCRSelf.model self)
  /\ (TrOCRSelf.device self = Some "cuda" \/ TrOCRSelf.device self = Some "cpu")
  /\ exists model_type,
       TrOCRSelf.current_model_type self = Some model_type
       /\ is_Some (TrOCRService.available_models !! model_type).

(** The current model type is unset or a catalog key. *)
Definition named (self : TrOCRSelf.t) : Prop :=
  TrOCRSelf.current_model_type self = None
  \/ exists model_type,
       TrOCRSelf.current_model_type self = Some model_type
       /\ is_Some (TrOCRService.available_models !! model_type).

Definition consistent (self : TrOCRSelf.t) : Prop := usable self /\ named self.

(** A computation that keeps a property of the TrOCR service object. *)
Definition keeps (I : TrOCRSelf.t -> Prop) (s s' : St) : Prop :=
  I (trocr_service s) -> I (trocr_service s').

(** One thing that can happen to the process: a call of one of the routes
    that change state, with any arguments, or a change of the files from
    outside. *)
Inductive route_step (E : Env) (s : St) : St -> Prop :=
  | step_extract_text (file : UploadFile E) ocr_type model_type
      use_preprocessing blur_kernel threshold_method block_size c_value
      primary_language language_detection custom_dictionary processing_speed
      accuracy_level :
      route_step E s
        (snd (ocr_routes.extract_text file ocr_type model_type
                use_preprocessing blur_kernel threshold_method block_size
                c_value primary_language language_detection custom_dictionary
                processing_speed accuracy_level s))
  | step_preprocess_image imencode (file : UploadFile E) blur_kernel
      threshold_method block_size c_value simple_thresh_value :
      route_step E s
        (snd (ocr_routes.preprocess_image imencode file blur_kernel
                threshold_method block_size c_value simple_thresh_value s))
  | step_download_models model_type :
      route_step E s (snd (ocr_routes.download_models E model_type s))
  | step_force_download_models model_type :
      route_step E s (snd (ocr_routes.force_download_models E model_type s))
  | step_clear_model_cache :
      route_step E s (snd (ocr_routes.clear_model_cache E s))
  | step_files files :
      route_step E s
        (mkSt (tesseract_service s) (trocr_service s) files (log s)).

(** The states reached from start-up, where the TrOCR service is the object
    [__init__] builds. *)
Inductive reachable (E : Env) : St -> Prop :=
  | reachable_start tesseract files :
      reachable E (mkSt tesseract TrOCRSelf.init files [])
  | reachable_step s s' :
      reachable E s -> route_step E s s' -> reachable E s'.

(** The keys of the body [extract_text] answers with, of its
    [settings_used], and of the body of [preprocess_image]. *)
Definition response_keys : gset string :=
  {["success"; "text"; "confidence"; "processing_time"; "file_path";
    "ocr_type"; "model_type"; "preprocessing_used"; "settings_used"]}.

Definition settings_used (primary_language : string)
    (language_detection : bool)
    (custom_dictionary processing_speed accuracy_level : string)
    (blur_kernel : Z) (threshold_method : string) (block_size c_value : Z)
    : gmap string pyval :=
  list_to_map
    [ ("primary_language", VStr primary_language);
      ("language_detection", VBool language_detection);
      ("custom_dictionary", VStr custom_dictionary);
      ("processing_speed", VStr processing_speed);
      ("accuracy_level", VStr accuracy_level);
      ("blur_kernel", VInt blur_kernel);
      ("threshold_method", VStr threshold_method);
      ("block_size", VInt block_size);
      ("c_value", VInt c_value) ].

Definition preprocess_keys : gset string :=
  {["success"; "processed_image"; "settings"]}.

(** A file of the listing whose age, as the float subtraction [float_sub]
    computes it, is above [max_age_hours]. *)
Definition expired (float_sub : Q -> Q -> Q) (current_time : Q)
    (max_age_hours : Z) (x : file_utils.DirEntry) : Prop :=
  file_utils.is_file x = true
  /\ (inject_Z (max_age_hours * 3600)
      < float_sub current_time (file_utils.st_mtime x))%Q.

Definition preprocess_settings (blur_kernel : Z) (threshold_method : string)
    (block_size c_value simple_thresh_value : Z) : gmap string pyval :=
  list_to_map
    [ ("blur_kernel", VInt blur_kernel);
      ("threshold_method", VStr threshold_method);
      ("block_size", VInt block_size);
      ("c_value", VInt c_value);
      ("simple_thresh_value", VInt simple_thresh_value) ].

(** The one call [preprocess_image] makes. *)
Definition runs (pipeline : cvexpr) (ev : event) : Prop := ev = EvRunCv pipeline.

(** ** Vocabulary for the parameters that reach the engines *)

(** Two runs end in the same state and with the same outcome, except that
    returned dicts may differ at [key]. *)
Definition same_but (key : string) (r r' : (exn + gmap string pyval) * St)
    : Prop :=
  snd r = snd r'
  /\ match fst r, fst r' with
     | inr body, inr body' => forall k, k <> key -> body !! k = body' !! k
     | inl e, inl e' => e = e'
     | _, _ => False
     end.

(** The threshold method is one of the two adaptive ones, and it is none of
    the three named ones. *)
Definition adaptive (threshold_method : string) : Prop :=
  threshold_method = "Adaptive Gaussian" \/ threshold_method = "Adaptive Mean".

Definition unnamed (threshold_method : string) : Prop :=
  threshold_method <> "Adaptive Gaussian"
  /\ threshold_method <> "Adaptive Mean" /\ threshold_method <> "Otsu".

(** ** The status line of a completed load *)

(** [self.device] is a [torch.device], and [torch.device] has no method
    [upper]: the call in the status line of [_load_model] raises
    [AttributeError], whatever the device. *)
Definition device_has_no_upper (E : Env) : Prop :=
  forall device, exists msg, device_upper E device = inl (Exception msg).

(** Any call but the model's [generate]. *)
Definition not_generate (ev : event) : Prop :=
  match ev with
  | EvGenerate _ => False
  | _ => True
  end.

(** If no model was loaded before, none is loaded after, and the model was
    not run in between. *)
Definition idle (s s' : St) : Prop :=
  TrOCRSelf.model_loaded (trocr_service s) = false ->
  TrOCRSelf.model_loaded (trocr_service s') = false
  /\ grows not_generate (log s) (log s').
(** ** A concrete world *)

(** [Path(name).suffix.lower()] on ASCII names: the final component is what
    follows the last slash; its suffix starts at its last dot, unless that
    dot is its first or its last character. *)
Fixpoint after_last (c : ascii) (s : string) : option string :=
  match s with
  | EmptyString => None
  | String a rest =>
      match after_last c rest with
      | Some tail => Some tail
      | None => if Ascii.eqb a c then Some rest else None
      end
  end.

Definition lower_ascii (c : ascii) : ascii :=
  let n := nat_of_ascii c in
  if ((65 <=? n) && (n <=? 90))%nat then ascii_of_nat (n + 32) else c.

Fixpoint lower (s : string) : string :=
  match s with
  | EmptyString => EmptyString
  | String a rest => String (lower_ascii a) (lower rest)
  end.

Definition suffix_lower (path : string) : string :=
  let name := get (after_last "/" path) path in
  match after_last "." name with
  | None => ""
  | Some ext =>
      if (String.length ext =? 0)%nat
         || (String.length name =? String.length ext + 1)%nat
      then ""
      else lower (String "." ext)
  end.

(** An environment in which an array is the tree of OpenCV calls that made
    it, Tesseract reads [tesseract_says] with per-token confidences [conf],
    the child process ends as [child], and loading a model fails with
    [load_error] if that is an exception.  [str] of an [HTTPException] is
    Starlette's [f"{status_code}: {detail}"], and [self.device.upper()]
    raises, as it does on every [torch.device]. *)
Definition tesseract_says : string := "Dear Ada".

Definition no_upper : exn :=
  Exception "'torch.device' object has no attribute 'upper'".

Definition world (conf : exn + list conf_entry) (child : proc_outcome)
    (load_error : option exn) : Env :=
  {| ndarray := cvexpr;
     PILImage := cvexpr;
     cv2_cvtColor := fun a code => inr (CvtColor a code);
     cv2_GaussianBlur := fun a ksize sigmaX => inr (GaussianBlur a ksize sigmaX);
     cv2_adaptiveThreshold := fun a m am tt bs cc =>
       inr (AdaptiveThreshold a m am tt bs cc);
     cv2_threshold := fun a t m ty => inr (Threshold a t m ty);
     Image_fromarray := fun a => inr a;
     image_to_string := fun _ _ => inr tesseract_says;
     image_to_data_conf := fun _ => conf;
     str_strip := fun s => s;
     str_HTTPException := fun code detail => pretty code ++ ": " ++ detail;
     path_suffix_lower := suffix_lower;
     uuid4 := "0b5c";
     elapsed := 0.25%Q;
     backend_dir := "/srv/backend";
     cuda_is_available := false;
     cuda_gpu_info := inr "none";
     from_pretrained := fun _ _ _ => load_error;
     model_to := fun _ _ => None;
     device_upper := fun _ => inl no_upper;
     trocr_recognize := fun _ _ _ _ _ => inr "Dear Ada,";
     subprocess_run := fun _ _ _ f => (child, f) |}.

(** Tesseract reads three tokens, one of them without signal; the download
    succeeds. *)
Definition world_ok : Env :=
  world (inr [ConfInt 90; ConfInt (-1); ConfInt 80]) (Completed 0 "done" "") None.

(** The same, but the download script exits with code 1. *)
Definition world_offline : Env :=
  world (inr [ConfInt 90; ConfInt (-1); ConfInt 80])
        (Completed 1 "" "no network") None.

(** The same as [world_ok], but Tesseract finds no token on the page. *)
Definition world_blank : Env :=
  world (inr []) (Completed 0 "done" "") None.

(** The same as [world_ok], but the cached checkpoint cannot be read. *)
Definition world_corrupt : Env :=
  world (inr [ConfInt 90; ConfInt (-1); ConfInt 80]) (Completed 0 "done" "")
        (Some (Exception "corrupt checkpoint")).

(** The process right after start-up, Tesseract found, with [files] on
    disk. *)
Definition started (tesseract_ready : bool) (files : gset string) : St :=
  mkSt (TesseractSelf.mk tesseract_ready
          (if tesseract_ready then "Ready" else "Error: tesseract is not installed"))
       TrOCRSelf.init files [].

Definition note_png (E : Env) (image : ndarray E) : UploadFile E :=
  mkUploadFile E (Some 2048) (Some "note.png") (Some "image/png") (inr image).

(** The cache of the [large-handwritten] model, complete. *)
Definition large_cache : gset string :=
  list_to_set
    [ "/srv/backend/python_ocr/trocr-large-handwritten";
      "/srv/backend/python_ocr/trocr-large-handwritten/tokenizer.json";
      "/srv/backend/python_ocr/trocr-large-handwritten/tokenizer_config.json";
      "/srv/backend/python_ocr/trocr-large-handwritten/preprocessor_config.json";
      "/srv/backend/python_ocr/trocr-large-handwritten/config.json";
      "/srv/backend/python_ocr/trocr-large-handwritten/pytorch_model.bin" ].


(** A request with the default form fields; then one for the neural engine
    with the catalog's largest model, made right after start-up with nothing
    cached and no network; one with the cache in place but unreadable; and
    one for a model type that is not in the catalog. *)
Definition request (E : Env) (image : ndarray E) (ocr_type model_type : string)
    (st : St) : (exn + gmap string pyval) * St :=
  ocr_routes.extract_text (note_png E image) ocr_type model_type true 5
    "Adaptive Gaussian" 11 2 "eng" true "" "balanced" "high" st.

Definition request_offline : (exn + gmap string pyval) * St :=
  request world_offline Input "trocr" "large-handwritten" (started true ∅).

Definition request_corrupt : (exn + gmap string pyval) * St :=
  request world_corrupt Input "trocr" "large-handwritten"
          (started true large_cache).

Definition request_unknown_model : (exn + gmap string pyval) * St :=
  request world_ok Input "trocr" "tiny-handwritten" (started true ∅).

(** Tesseract reads the page but the confidence table cannot be read; and a
    table with one entry that is not a number. *)
Definition world_unreadable : Env :=
  world (inl (Exception "no TSV output")) (Completed 0 "done" "") None.

Definition world_garbled : Env :=
  world (inr [ConfInt 90; ConfBad "invalid literal for int()"])
        (Completed 0 "done" "") None.

(** The state [download_model] leaves behind when the [large-handwritten]
    model is read from its cache: both parts were read and moved to the
    device, then the status line failed on [self.device.upper()], so the
    handler wrote the error and cleared [model_loaded]. *)
Definition large_tried : St :=
  mkSt (TesseractSelf.mk true "Ready")
       (TrOCRSelf.mk false
          "Error loading TrOCR large-handwritten model: 'torch.device' object has no attribute 'upper'"
          (Some "/srv/backend/python_ocr/trocr-large-handwritten")
          (Some "/srv/backend/python_ocr/trocr-large-handwritten")
          (Some "cpu")
          (Some "/srv/backend/python_ocr/trocr-large-handwritten")
          (Some "large-handwritten"))
       large_cache
       [ EvFromPretrained "VisionEncoderDecoderModel"
           "/srv/backend/python_ocr/trocr-large-handwritten";
         EvFromPretrained "TrOCRProcessor"
           "/srv/backend/python_ocr/trocr-large-handwritten" ].

(** A service object set by hand, as a test of the methods in isolation
    would set it: the fields a completed load of [large-handwritten] would
    have written.  No run of the routes produces it, since every load ends
    in the handler (see [large_tried]); it serves to exercise the branches
    that read [model_loaded]. *)
Definition loaded_by_hand : St :=
  mkSt (TesseractSelf.mk true "Ready")
       (TrOCRSelf.mk true
          "Ready - large-handwritten - Using cpu - Not available"
          (Some "/srv/backend/python_ocr/trocr-large-handwritten")
          (Some "/srv/backend/python_ocr/trocr-large-handwritten")
          (Some "cpu")
          (Some "/srv/backend/python_ocr/trocr-large-handwritten")
          (Some "large-handwritten"))
       large_cache
       [ EvFromPretrained "VisionEncoderDecoderModel"
           "/srv/backend/python_ocr/trocr-large-handwritten";
         EvFromPretrained "TrOCRProcessor"
           "/srv/backend/python_ocr/trocr-large-handwritten" ].

(** A hub that answers, with libraries that save the five files the service
    looks for; and a cache directory that holds [config.json] only. *)
Definition lib_ok : download_model_py.Lib :=
  {| download_model_py.timestamp := "20250101_120000";
     download_model_py.log_writable := true;
     download_model_py.HF_HOME := "";
     download_model_py.TRANSFORMERS_CACHE := "";
     download_model_py.executable := "/usr/bin/python3";
     download_model_py.processor_from_pretrained := fun _ _ => None;
     download_model_py.processor_save_pretrained := fun dir f =>
       inr ({[path_join dir "tokenizer.json";
              path_join dir "tokenizer_config.json";
              path_join dir "preprocessor_config.json"]} ∪ f);
     download_model_py.model_from_pretrained := fun _ => None;
     download_model_py.model_save_pretrained := fun dir f =>
       inr ({[path_join dir "config.json";
              path_join dir "pytorch_model.bin"]} ∪ f);
     download_model_py.traceback := fun e => "KeyError: " ++ e;
     download_model_py.noise := "" |}.

Definition partial_cache : gset string :=
  {[ "/srv/backend/python_ocr/trocr-large-handwritten";
     "/srv/backend/python_ocr/trocr-large-handwritten/config.json" ]}.

(** The same libraries without a network. *)
Definition lib_offline : download_model_py.Lib :=
  {| download_model_py.timestamp := "20250101_120000";
     download_model_py.log_writable := true;
     download_model_py.HF_HOME := "";
     download_model_py.TRANSFORMERS_CACHE := "";
     download_model_py.executable := "/usr/bin/python3";
     download_model_py.processor_from_pretrained :=
       fun _ _ => Some "Connection error";
     download_model_py.processor_save_pretrained := fun dir f => inr f;
     download_model_py.model_from_pretrained :=
       fun _ => Some "Connection error";
     download_model_py.model_save_pretrained := fun dir f => inr f;
     download_model_py.traceback := fun e => "KeyError: " ++ e;
     download_model_py.noise := "" |}.
(** ** Proof automation *)

(** Unfolding of the computation combinators. *)
Ltac run_M :=
  unfold try_except, except_Exception, emit, set_fs, update_trocr, modify,
    gets, raise, lift, mbind, M_bind, mret, M_ret in *;
  cbn [fs log trocr_service tesseract_service fst snd is_Exception] in *.

(** ** Preset resolution *)

(** C1. Over the 4x4 grid of (processing_speed, accuracy_level) keys,
    [_get_preprocessing_settings] is a function (same inputs, same dict) that
    returns, for every pair, exactly the row of the policy table of section
    4.2 with the accuracy overlay applied, with all four keys present; in
    particular (fast, low) gives blur 3, Simple, block 7, c 1 and
    (maximum, maximum) gives blur 9, Otsu, block 19, c 4. *)
Theorem preprocessing_settings_match_policy :
  (forall s a,
     TesseractService._get_preprocessing_settings (speed_key s) (accuracy_key a)
     = settings_of (resolve s a))
  /\ TesseractService._get_preprocessing_settings "fast" "low"
     = Settings.mk (Some 3) (Some "Simple") (Some 7) (Some 1)
  /\ TesseractService._get_preprocessing_settings "maximum" "maximum"
     = Settings.mk (Some 9) (Some "Otsu") (Some 19) (Some 4).
Proof.
  split; [|split; reflexivity].
  intros s a; destruct s, a; reflexivity.
Qed.

(** The accuracy axis never lowers a numeric setting below the speed row. *)
Lemma overlay_only_raises s a :
  block (policy_table s) <= block (resolve s a)
  /\ c (policy_table s) <= c (resolve s a)
  /\ blur (resolve s a) = blur (policy_table s).
Proof. destruct s, a; cbn; lia. Qed.

(** C6 as written fails at (fast, high): the output length stays 128, where
    the rule asks for 150. *)
Lemma runtime_rule_fails_fast_high :
  GenConfig.max_length (TrOCRService._get_generation_config "fast" "high") = 128
  /\ ~ runtime_rule_as_written SpeedFast AccHigh.
Proof.
  split; [reflexivity|].
  intros (_ & _ & Hlen). vm_compute in Hlen. discriminate Hlen.
Qed.

(** The beam width does not follow the speed alone either: at accuracy
    maximum it is 8 for every speed. *)
Lemma runtime_rule_fails_fast_maximum :
  ~ runtime_rule_as_written SpeedFast AccMaximum.
Proof. intros (Hbeam & _). vm_compute in Hbeam. discriminate Hbeam. Qed.

(** C6, amended. For every (speed, accuracy) pair of the grid the generation
    config has: beam width 1, 3, 5, 8 by speed when accuracy is low, medium or
    high, and 8 at accuracy maximum whatever the speed; sampling
    ([do_sample] with [top_p] 0.9 and [top_k] 50) exactly when speed or
    accuracy is maximum, and [do_sample] false otherwise, with temperature
    0.7 at accuracy maximum, else 0.8 at speed maximum, else 1.0; output
    length 200 at accuracy maximum, 150 at accuracy high when the speed is
    high or maximum, and 128 in every other case. *)
Theorem generation_config_table s a :
  let cfg := TrOCRService._get_generation_config (speed_key s) (accuracy_key a) in
  GenConfig.num_beams cfg = Some (beam_width_used s a)
  /\ sampling cfg = at_maximum s a
  /\ GenConfig.do_sample cfg = Some (at_maximum s a)
  /\ GenConfig.top_p cfg = (if at_maximum s a then Some 0.9%Q else None)
  /\ GenConfig.top_k cfg = (if at_maximum s a then Some 50 else None)
  /\ GenConfig.temperature cfg
     = Some (match a, s with
             | AccMaximum, _ => 0.7%Q
             | _, SpeedMaximum => 0.8%Q
             | _, _ => 1.0%Q
             end)
  /\ GenConfig.max_length cfg = output_length_used s a
  /\ GenConfig.early_stopping cfg = true.
Proof. destruct s, a; vm_compute; repeat split; reflexivity. Qed.

(** ** The preprocessing pipeline *)

Lemma mod2_even k : (k mod 2 =? 0) = Z.even k.
Proof. rewrite Zmod_even. destruct (Z.even k); reflexivity. Qed.

Lemma odd_kernel_odd k : Z.odd (odd_kernel k) = true.
Proof.
  unfold odd_kernel. destruct (Z.even k) eqn:He.
  - change (k + 1) with (Z.succ k). rewrite Z.odd_succ. exact He.
  - rewrite <- Z.negb_even, He. reflexivity.
Qed.

Lemma tesseract_blur_ksize k m b c s :
  blur_ksize (TesseractService.preprocess_image k m b c s)
  = Some (odd_kernel k, odd_kernel k).
Proof.
  unfold TesseractService.preprocess_image, odd_kernel.
  rewrite mod2_even. repeat case_match; reflexivity.
Qed.

Lemma trocr_blur_ksize k m b c s :
  blur_ksize (TrOCRService.preprocess_image k m b c s)
  = Some (odd_kernel k, odd_kernel k).
Proof.
  unfold TrOCRService.preprocess_image, odd_kernel.
  rewrite mod2_even. repeat case_match; reflexivity.
Qed.

(** C7 as written fails at the odd input -3: the pipeline blurs with kernel
    -3, which is not at least 1. *)
Lemma blur_rule_fails_negative :
  blur_ksize (TesseractService.preprocess_image (-3) "Otsu" 11 2 127)
  = Some (-3, -3)
  /\ ~ blur_rule_as_written
         (TesseractService.preprocess_image (-3) "Otsu" 11 2 127) (-3).
Proof.
  split; [reflexivity|].
  intros (k' & Hk & _ & Hge & _).
  vm_compute in Hk. injection Hk as <-. lia.
Qed.

(** C7, amended. In both services' [preprocess_image] the kernel handed to
    the Gaussian blur is always odd: for every even integer input it is
    input+1 and for every odd integer input it is the input unchanged.  It is
    at least 1 whenever the input is not negative. *)
Theorem blur_kernel_coerced_odd k m b c s :
  blur_ksize (TesseractService.preprocess_image k m b c s)
  = Some (odd_kernel k, odd_kernel k)
  /\ blur_ksize (TrOCRService.preprocess_image k m b c s)
     = Some (odd_kernel k, odd_kernel k)
  /\ Z.odd (odd_kernel k) = true
  /\ (Z.even k = true -> odd_kernel k = k + 1)
  /\ (Z.odd k = true -> odd_kernel k = k)
  /\ (0 <= k -> 1 <= odd_kernel k).
Proof.
  split; [apply tesseract_blur_ksize|].
  split; [apply trocr_blur_ksize|].
  split; [apply odd_kernel_odd|].
  unfold odd_kernel. repeat split.
  - intros ->. reflexivity.
  - intros Ho. rewrite <- Z.negb_odd, Ho. reflexivity.
  - intros Hk. destruct (Z.even k) eqn:He; [lia|].
    assert (k <> 0) by (intros ->; discriminate He). lia.
Qed.

Lemma blur_kernel_coerced_odd_at_4 :
  blur_ksize (TesseractService.preprocess_image 4 "Simple" 11 2 127)
  = Some (5, 5)
  /\ odd_kernel 4 = 4 + 1 /\ 1 <= odd_kernel 4.
Proof.
  destruct (blur_kernel_coerced_odd 4 "Simple" 11 2 127)
    as (Hk & _ & _ & Heven & _ & Hge).
  split; [exact Hk|].
  split; [apply Heven; reflexivity | apply Hge; discriminate].
Defined.

(** C10. For every [threshold_method] string other than "Adaptive Gaussian",
    "Adaptive Mean" and "Otsu", each service's [preprocess_image] makes the
    calls of simple global thresholding at [simple_thresh_value]:
    grayscale, blur, [cv2.threshold(_, simple_thresh_value, 255,
    THRESH_BINARY)].  The name is never inspected further, so the pipeline
    runs, and fails, exactly as it does for "Simple". *)
Theorem unknown_threshold_is_simple m k b c s :
  m <> "Adaptive Gaussian" -> m <> "Adaptive Mean" -> m <> "Otsu" ->
  TesseractService.preprocess_image k m b c s = simple_pipeline k s
  /\ TrOCRService.preprocess_image k m b c s = simple_pipeline k s
  /\ (forall (E : Env) (image : ndarray E),
        eval_cv E (TesseractService.preprocess_image k m b c s) image
        = eval_cv E (TesseractService.preprocess_image k "Simple" b c s) image
        /\ eval_cv E (TrOCRService.preprocess_image k m b c s) image
           = eval_cv E (TrOCRService.preprocess_image k "Simple" b c s) image).
Proof.
  intros Hg Hm Ho.
  assert (Ht : TesseractService.preprocess_image k m b c s = simple_pipeline k s).
  { unfold TesseractService.preprocess_image, simple_pipeline, odd_kernel.
    rewrite mod2_even.
    apply String.eqb_neq in Hg, Hm, Ho. rewrite Hg, Hm, Ho. reflexivity. }
  assert (Hr : TrOCRService.preprocess_image k m b c s = simple_pipeline k s).
  { unfold TrOCRService.preprocess_image, simple_pipeline, odd_kernel.
    rewrite mod2_even.
    apply String.eqb_neq in Hg, Hm, Ho. rewrite Hg, Hm, Ho. reflexivity. }
  split; [exact Ht|]. split; [exact Hr|].
  intros E image. rewrite Ht, Hr.
  split; unfold TesseractService.preprocess_image,
    TrOCRService.preprocess_image, simple_pipeline, odd_kernel;
    rewrite mod2_even; reflexivity.
Qed.

Lemma unknown_threshold_is_simple_sauvola :
  TesseractService.preprocess_image 5 "Sauvola" 11 2 140
  = simple_pipeline 5 140
  /\ TrOCRService.preprocess_image 5 "Sauvola" 11 2 140
     = simple_pipeline 5 140.
Proof.
  destruct (unknown_threshold_is_simple "Sauvola" 5 11 2 140)
    as (Ht & Hr & _); [discriminate | discriminate | discriminate |].
  split; [exact Ht | exact Hr].
Defined.

(** ** The model cache *)

Lemma rmtree_removes dir (f : gset string) : dir ∉ rmtree dir f.
Proof.
  unfold rmtree. rewrite elem_of_filter. intros [Hu _].
  unfold under in Hu. rewrite String.eqb_refl in Hu. discriminate Hu.
Qed.

Lemma path_exists_true (f : gset string) p : path_exists f p = true <-> p ∈ f.
Proof. unfold path_exists. apply bool_decide_eq_true. Qed.

Lemma path_exists_false (f : gset string) p : path_exists f p = false <-> p ∉ f.
Proof. unfold path_exists. apply bool_decide_eq_false. Qed.

(** C8. Clearing the model cache always returns a success body and leaves
    the cache directory absent.  If the directory was absent nothing
    changes; if it was present it is deleted with everything below it and
    the loaded flag is reset to false.  Clearing again afterwards is again
    a success and changes nothing. *)
Theorem clear_model_cache_idempotent E st :
  let model_dir := TrOCRService._get_model_path E "large-handwritten" in
  exists body st',
    ocr_routes.clear_model_cache E st = (inr body, st')
    /\ body !! "success" = Some (VBool true)
    /\ (model_dir ∉ fs st')
    /\ (model_dir ∈ fs st ->
        fs st' = rmtree model_dir (fs st)
        /\ TrOCRSelf.model_loaded (trocr_service st') = false)
    /\ (model_dir ∉ fs st -> body = no_cache_body /\ st' = st)
    /\ ocr_routes.clear_model_cache E st' = (inr no_cache_body, st').
Proof.
  intros model_dir.
  assert (Habsent : forall s, model_dir ∉ fs s ->
            ocr_routes.clear_model_cache E s = (inr no_cache_body, s)).
  { intros s Hs. apply path_exists_false in Hs.
    unfold ocr_routes.clear_model_cache. run_M.
    fold model_dir. rewrite Hs. reflexivity. }
  destruct (path_exists (fs st) model_dir) eqn:Hex.
  - apply path_exists_true in Hex.
    eexists _, _. split.
    { unfold ocr_routes.clear_model_cache. run_M. fold model_dir.
      apply path_exists_true in Hex. rewrite Hex. reflexivity. }
    cbn [fs trocr_service TrOCRSelf.model_loaded TrOCRSelf.set_status
         TrOCRSelf.set_model_loaded].
    split; [reflexivity|].
    split; [apply rmtree_removes|].
    split; [intros _; split; reflexivity|].
    split; [intros Hn; contradiction|].
    apply Habsent. cbn [fs]. apply rmtree_removes.
  - apply path_exists_false in Hex.
    exists no_cache_body, st.
    split; [apply Habsent, Hex|].
    split; [reflexivity|].
    split; [exact Hex|].
    split; [intros Hin; contradiction|].
    split; [intros _; split; reflexivity|].
    apply Habsent, Hex.
Qed.

Lemma clear_model_cache_on_large_cache :
  exists body st',
    ocr_routes.clear_model_cache world_ok (started true large_cache)
    = (inr body, st')
    /\ body !! "success" = Some (VBool true)
    /\ fs st'
       = rmtree "/srv/backend/python_ocr/trocr-large-handwritten" large_cache
    /\ TrOCRSelf.model_loaded (trocr_service st') = false
    /\ ocr_routes.clear_model_cache world_ok st' = (inr no_cache_body, st').
Proof.
  destruct (clear_model_cache_idempotent world_ok (started true large_cache))
    as (body & st' & Hrun & Hok & _ & Hpresent & _ & Hagain).
  exists body, st'.
  destruct Hpresent as [Hfs Hflag]; [vm_compute; reflexivity|].
  repeat split; assumption.
Defined.

(** ** Framing: computations that only load models *)

Lemma grows_trans P l1 l2 l3 : grows P l1 l2 -> grows P l2 l3 -> grows P l1 l3.
Proof. intros H12 H23. induction H23; [exact H12|]. constructor; assumption. Qed.

Lemma frame_refl P s : frame P s s.
Proof. repeat split. constructor. Qed.

Lemma frame_trans P s1 s2 s3 : frame P s1 s2 -> frame P s2 s3 -> frame P s1 s3.
Proof.
  intros (Ht & Hf & Hl) (Ht' & Hf' & Hl'). repeat split; try congruence.
  eapply grows_trans; eassumption.
Qed.

Section Framing.
Context (f0 : gset string) (P : event -> Prop).

Lemma framed_ret {A} (a : A) : framed f0 P (mret a).
Proof. intros s _. apply frame_refl. Qed.

Lemma framed_raise {A} e : framed f0 P (@raise A e).
Proof. intros s _. apply frame_refl. Qed.

Lemma framed_lift {A} (r : exn + A) : framed f0 P (lift r).
Proof. intros s _. apply frame_refl. Qed.

Lemma framed_gets {A} (f : St -> A) : framed f0 P (gets f).
Proof. intros s _. apply frame_refl. Qed.

Lemma framed_update_trocr f : framed f0 P (update_trocr f).
Proof. intros s _. repeat split. constructor. Qed.

Lemma framed_emit ev : P ev -> framed f0 P (emit ev).
Proof.
  intros Hev s _. repeat split. cbn. constructor; [exact Hev|constructor].
Qed.

Lemma framed_bind {A B} (m : M A) (k : A -> M B) :
  framed f0 P m -> (forall a, framed f0 P (k a)) -> framed f0 P (m ≫= k).
Proof.
  intros Hm Hk s Hs. specialize (Hm s Hs).
  unfold mbind, M_bind. destruct (m s) as [[e|a] s1]; [exact Hm|].
  cbn in Hm. eapply frame_trans; [exact Hm|].
  apply Hk. destruct Hm as (_ & Hf & _). congruence.
Qed.

Lemma framed_gets_fs {B} (k : gset string -> M B) :
  framed f0 P (k f0) -> framed f0 P (gets fs ≫= k).
Proof.
  intros Hk s Hs. unfold mbind, M_bind, gets. rewrite Hs. apply Hk, Hs.
Qed.

Lemma framed_try_except {A} (body : M A) handler :
  framed f0 P body ->
  (forall e h, handler e = Some h -> framed f0 P h) ->
  framed f0 P (try_except body handler).
Proof.
  intros Hb Hh s Hs. specialize (Hb s Hs).
  unfold try_except. destruct (body s) as [[e|a] s1]; [|exact Hb].
  destruct (handler e) as [h|] eqn:He; [|exact Hb].
  cbn in Hb. eapply frame_trans; [exact Hb|].
  eapply Hh; [exact He|]. destruct Hb as (_ & Hf & _). congruence.
Qed.

Lemma framed_except_Exception {A} (body : M A) h :
  framed f0 P body -> (forall e, framed f0 P (h e)) ->
  framed f0 P (try_except body (except_Exception h)).
Proof.
  intros Hb Hh. apply framed_try_except; [exact Hb|].
  intros e h'. unfold except_Exception.
  destruct (is_Exception e); [|discriminate].
  intros [= <-]. apply Hh.
Qed.

Lemma framed_weaken (Q : event -> Prop) {A} (m : M A) :
  (forall ev, P ev -> Q ev) -> framed f0 P m -> framed f0 Q m.
Proof.
  intros HPQ Hm s Hs. destruct (Hm s Hs) as (Ht & Hf & Hl).
  repeat split; try assumption.
  induction Hl; constructor; auto.
Qed.

End Framing.

(** One syntax-directed step of a [framed] derivation. *)
Ltac framing_step :=
  first
    [ apply framed_ret | apply framed_raise | apply framed_lift
    | apply framed_gets | apply framed_update_trocr
    | apply framed_emit; unfold loads_from, is_load, is_upload; solve [eauto]
    | apply framed_gets_fs
    | apply framed_except_Exception; [|intros ?]
    | apply framed_bind; [|intros ?]
    | match goal with
      | |- framed _ _ (if ?b then _ else _) => destruct b eqn:?
      | |- framed _ _ (match ?x with _ => _ end) => destruct x eqn:?
      end ].

Lemma check_local_model_dir E mt f d :
  TrOCRService._check_local_model E mt f = (true, d) ->
  d = Some (TrOCRService._get_model_path E mt).
Proof.
  unfold TrOCRService._check_local_model.
  destruct (path_exists f _); intros [= H1 H2]; congruence.
Qed.

Lemma check_local_model_present E mt (f : gset string) :
  fst (TrOCRService._check_local_model E mt f) = true
  <-> TrOCRService._get_model_path E mt ∈ f
      /\ Forall (fun x => path_join (TrOCRService._get_model_path E mt) x ∈ f)
           (TrOCRService.processor_files ++ TrOCRService.model_files).
Proof.
  unfold TrOCRService._check_local_model.
  destruct (path_exists f _) eqn:Hd; cbn [fst].
  - apply path_exists_true in Hd.
    rewrite andb_true_iff, !forallb_forall, Forall_app, !Forall_forall.
    split.
    + intros [Hp Hm]. split; [exact Hd|]. split; intros x Hx.
      * apply path_exists_true, Hp, list_elem_of_In, Hx.
      * apply path_exists_true, Hm, list_elem_of_In, Hx.
    + intros [_ [Hp Hm]]. split; intros x Hx; apply path_exists_true.
      * apply Hp, list_elem_of_In, Hx.
      * apply Hm, list_elem_of_In, Hx.
  - apply path_exists_false in Hd.
    split; [discriminate|]. intros [Hin _]. contradiction.
Qed.

Lemma load_from_framed f0 E src mt :
  framed f0 (loads_from src) (TrOCRService.load_from E src mt).
Proof. unfold TrOCRService.load_from. repeat framing_step. Qed.

(** Loading a model never touches the files or Tesseract, whatever
    happens. *)
Lemma load_model_framed f0 E mt :
  framed f0 is_load (TrOCRService._load_model E mt).
Proof.
  unfold TrOCRService._load_model.
  repeat first
    [ eapply framed_weaken; [|apply load_from_framed];
      intros ? [? ->]; unfold is_load; solve [eauto]
    | framing_step ].
Qed.

(** With the cache present, it loads from the cache directory only. *)
Lemma load_model_framed_local f0 E mt :
  fst (TrOCRService._check_local_model E mt f0) = true ->
  framed f0 (loads_from (TrOCRService._get_model_path E mt))
         (TrOCRService._load_model E mt).
Proof.
  intros Hlocal.
  destruct (TrOCRService._check_local_model E mt f0) as [b d] eqn:Hc.
  cbn in Hlocal. subst b. apply check_local_model_dir in Hc as Hd. subst d.
  unfold TrOCRService._load_model.
  repeat first
    [ rewrite Hc; cbn [get]
    | apply load_from_framed
    | framing_step ].
Qed.

Lemma download_model_framed_local f0 E mt :
  fst (TrOCRService._check_local_model E mt f0) = true ->
  framed f0 (loads_from (TrOCRService._get_model_path E mt))
         (TrOCRService.download_model E mt).
Proof.
  intros Hlocal.
  destruct (TrOCRService._check_local_model E mt f0) as [b d] eqn:Hc.
  cbn in Hlocal. subst b.
  unfold TrOCRService.download_model.
  repeat first
    [ rewrite Hc; cbv iota beta
    | apply load_model_framed_local; rewrite Hc; reflexivity
    | framing_step ].
Qed.

(** One case split on an answer of the model library. *)
Ltac case_library :=
  match goal with
  | |- context [match from_pretrained ?E ?c ?src ?f with _ => _ end] =>
      destruct (from_pretrained E c src f)
  | |- context [match model_to ?E ?m ?d with _ => _ end] =>
      destruct (model_to E m d)
  | |- context [match device_upper ?E ?d with _ => _ end] =>
      destruct (device_upper E d)
  | |- context [if is_Exception ?e then _ else _] =>
      destruct (is_Exception e)
  end;
  cbn [fs log trocr_service tesseract_service fst snd get
       TrOCRSelf.model TrOCRSelf.set_model TrOCRSelf.set_model_dir
       TrOCRSelf.set_current_model_type TrOCRSelf.set_device
       TrOCRSelf.set_processor TrOCRSelf.set_status
       TrOCRSelf.set_model_loaded].

(** With the cache present, a catalog model and a usable device, the first
    thing [_load_model] does outside the process is to read the processor
    from the cache directory. *)
Lemma load_model_starts_local E mt s info :
  TrOCRService.available_models !! mt = Some info ->
  (cuda_is_available E = true -> exists g, cuda_gpu_info E = inr g) ->
  fst (TrOCRService._check_local_model E mt (fs s)) = true ->
  grows (loads_from (TrOCRService._get_model_path E mt))
        (EvFromPretrained "TrOCRProcessor" (TrOCRService._get_model_path E mt)
         :: log s)
        (log (snd (TrOCRService._load_model E mt s))).
Proof.
  intros Hinfo Hgpu Hlocal.
  destruct (TrOCRService._check_local_model E mt (fs s)) as [b d] eqn:Hc.
  cbn in Hlocal. subst b. apply check_local_model_dir in Hc as Hd. subst d.
  unfold TrOCRService._load_model, TrOCRService.load_from.
  destruct info as [repo size].
  destruct (cuda_is_available E);
    [destruct (Hgpu eq_refl) as [g ->]|];
    run_M; rewrite Hinfo; cbn [fs]; rewrite Hc;
    cbn [fs log trocr_service tesseract_service fst snd get];
    repeat case_library;
    repeat first
      [ apply grows_refl
      | apply grows_cons; [eexists; reflexivity|] ].
Qed.

(** C5. A model type's cache is present exactly when its directory and
    all files of the processor-file set and of the model-file set exist
    under it (one missing file makes it absent).  When it is present,
    [download_model] (the step that ensures the model is loaded) leaves the
    file system as it is, so it writes no download script, and the only calls
    it makes are [from_pretrained] calls on the local directory: the child
    process is never run and nothing is fetched from the hub.  If moreover
    the model type is in the catalog and is not the loaded one, and the
    device can be set up, it does read the model from that directory. *)
Theorem cached_model_never_downloads E model_type st :
  let model_dir := TrOCRService._get_model_path E model_type in
  (fst (TrOCRService._check_local_model E model_type (fs st)) = true
   <-> model_dir ∈ fs st
       /\ Forall (fun x => path_join model_dir x ∈ fs st)
            (TrOCRService.processor_files ++ TrOCRService.model_files))
  /\ (fst (TrOCRService._check_local_model E model_type (fs st)) = true ->
      frame (loads_from model_dir) st
            (snd (TrOCRService.download_model E model_type st))
      /\ (is_Some (TrOCRService.available_models !! model_type) ->
          TrOCRSelf.model_loaded (trocr_service st)
          && TrOCRService.is_current (trocr_service st) model_type = false ->
          (cuda_is_available E = true -> exists g, cuda_gpu_info E = inr g) ->
          grows (loads_from model_dir)
                (EvFromPretrained "TrOCRProcessor" model_dir :: log st)
                (log (snd (TrOCRService.download_model E model_type st))))).
Proof.
  intros model_dir. split; [apply check_local_model_present|].
  intros Hlocal. split.
  { apply (download_model_framed_local (fs st)); [exact Hlocal|reflexivity]. }
  intros [info Hinfo] Hnot Hgpu.
  unfold TrOCRService.download_model. rewrite Hinfo.
  unfold try_except at 1.
  unfold mbind at 1, M_bind at 1, gets at 1. rewrite Hnot.
  unfold mbind at 1, M_bind at 1, gets at 1.
  destruct (TrOCRService._check_local_model E model_type (fs st))
    as [b d] eqn:Hc.
  cbn in Hlocal. subst b.
  unfold mbind at 1, M_bind at 1, update_trocr at 1, modify at 1.
  unfold mbind at 1, M_bind at 1.
  match goal with
  | |- context [TrOCRService._load_model E model_type ?s0] =>
      pose proof (load_model_starts_local E model_type s0 info Hinfo Hgpu)
        as Hstart;
      cbn [fs log] in Hstart; rewrite Hc in Hstart;
      specialize (Hstart eq_refl);
      destruct (TrOCRService._load_model E model_type s0) as [[e|[]] s1]
  end; cbn [snd] in Hstart.
  - unfold except_Exception. destruct (is_Exception e); run_M; exact Hstart.
  - run_M. exact Hstart.
Qed.

Lemma cached_model_never_downloads_large :
  frame (loads_from "/srv/backend/python_ocr/trocr-large-handwritten")
        (started true large_cache)
        (snd (TrOCRService.download_model world_ok "large-handwritten"
                (started true large_cache)))
  /\ log (snd (TrOCRService.download_model world_ok "large-handwritten"
                 (started true large_cache)))
     = [ EvFromPretrained "VisionEncoderDecoderModel"
           "/srv/backend/python_ocr/trocr-large-handwritten";
         EvFromPretrained "TrOCRProcessor"
           "/srv/backend/python_ocr/trocr-large-handwritten" ].
Proof.
  split; [|vm_compute; reflexivity].
  apply (cached_model_never_downloads world_ok "large-handwritten"
           (started true large_cache)).
  vm_compute; reflexivity.
Defined.

(** ** The download *)

Lemma remove_if_exists_gone p s :
  exists s', TrOCRService.remove_if_exists p s = (inr tt, s')
    /\ (p ∉ fs s').
Proof.
  unfold TrOCRService.remove_if_exists. run_M.
  destruct (path_exists (fs s) p) eqn:Hp.
  - eexists. split; [reflexivity|]. cbn.
    rewrite elem_of_difference, elem_of_singleton. tauto.
  - eexists. split; [reflexivity|]. apply path_exists_false in Hp. exact Hp.
Qed.

Lemma download_failed_effect p msg s :
  exists status s',
    TrOCRService.download_failed p msg s
    = (inr (Report.mk false msg status None None), s')
    /\ (p ∉ fs s').
Proof.
  unfold TrOCRService.download_failed.
  destruct (remove_if_exists_gone p s) as (s1 & H1 & Hp).
  unfold mbind at 1, M_bind at 1. rewrite H1. run_M.
  eexists _, _. split; [reflexivity|]. exact Hp.
Qed.

(** Whatever the child process does, the inner [try] returns a report and
    leaves no temporary script behind. *)
Lemma run_download_effect E mt cwd temp s :
  exists report s',
    TrOCRService.run_download E mt cwd temp s = (inr report, s')
    /\ (temp ∉ fs s')
    /\ (ended_badly (fst (subprocess_run E temp mt cwd (fs s))) ->
        Report.success report = false
        /\ Report.message report
           = failure_reason E (fst (subprocess_run E temp mt cwd (fs s)))).
Proof.
  unfold TrOCRService.run_download, TrOCRService.run.
  unfold try_except, mbind at 1, M_bind at 1.
  unfold mbind at 1, M_bind at 1, gets at 1.
  unfold mbind at 1, M_bind at 1, emit at 1, modify at 1.
  destruct (subprocess_run E temp mt cwd (fs s)) as [outcome f'] eqn:Hrun.
  unfold mbind at 1, M_bind at 1, set_fs at 1, modify at 1.
  cbn [fst snd fs log trocr_service tesseract_service].
  destruct outcome as [returncode stdout stderr|e].
  - unfold mret at 1, M_ret at 1.
    unfold mbind at 1, M_bind at 1.
    match goal with
    | |- context [TrOCRService.remove_if_exists temp ?s0] =>
        destruct (remove_if_exists_gone temp s0) as (s1 & -> & Hgone)
    end.
    destruct (returncode =? 0) eqn:Hrc.
    + unfold mbind at 1, M_bind at 1.
      pose proof (load_model_framed (fs s1) E mt s1 eq_refl) as (_ & Hfs & _).
      destruct (TrOCRService._load_model E mt s1) as [[e|[]] s2].
      * cbn [snd] in Hfs.
        assert (Hbad : ~ ended_badly (Completed returncode stdout stderr))
          by (cbn; apply Z.eqb_eq in Hrc; lia).
        destruct e;
          match goal with
          | |- context [TrOCRService.download_failed temp ?msg s2] =>
              destruct (download_failed_effect temp msg s2)
                as (status & s3 & -> & Hgone3)
          end;
          eexists _, _; (split; [reflexivity|]); (split; [exact Hgone3|]);
          intros Hb; contradiction.
      * cbn [snd] in Hfs. run_M.
        eexists _, _. split; [reflexivity|]. cbn [fs].
        split; [rewrite Hfs; exact Hgone|].
        cbn. apply Z.eqb_eq in Hrc. intros Hb; contradiction.
    + run_M. eexists _, _. split; [reflexivity|]. cbn [fs].
      split; [exact Hgone|]. intros _. split; reflexivity.
  - unfold raise at 1.
    destruct e;
      match goal with
      | |- context [TrOCRService.download_failed temp ?msg ?s0] =>
          destruct (download_failed_effect temp msg s0)
            as (status & s3 & -> & Hgone3)
      end;
      eexists _, _; (split; [reflexivity|]); (split; [exact Hgone3|]);
      intros _; split; reflexivity.
Qed.

Lemma failure_reason_nonempty E o : failure_reason E o <> "".
Proof. destruct o as [? ? ?|[]]; discriminate. Qed.

(** C9. Once [download_model] has written its temporary script (the model
    type is in the catalog, is not the loaded one and has no local cache),
    it always returns a report, never an exception, and the temporary script
    is gone from the file system when it returns, however the child process
    ended: success, timeout, error or interruption.  If the child timed out,
    was interrupted, could not be run or exited with a non-zero code, the
    report has [success = false] and a non-empty message that names the
    reason. *)
Theorem download_failure_is_reported E model_type st :
  let python_ocr := path_join (backend_dir E) "python_ocr" in
  let temp_script := path_join python_ocr "temp_download.py" in
  let outcome :=
    fst (subprocess_run E temp_script model_type python_ocr
           ({[temp_script]} ∪ fs st)) in
  is_Some (TrOCRService.available_models !! model_type) ->
  TrOCRSelf.model_loaded (trocr_service st)
  && TrOCRService.is_current (trocr_service st) model_type = false ->
  fst (TrOCRService._check_local_model E model_type (fs st)) = false ->
  exists report st',
    TrOCRService.download_model E model_type st = (inr report, st')
    /\ (temp_script ∉ fs st')
    /\ (ended_badly outcome ->
        Report.success report = false
        /\ Report.message report = failure_reason E outcome
        /\ Report.message report <> "").
Proof.
  intros python_ocr temp_script outcome [info Hinfo] Hnot Hlocal.
  unfold TrOCRService.download_model. rewrite Hinfo.
  unfold try_except at 1.
  unfold mbind at 1, M_bind at 1, gets at 1. rewrite Hnot.
  unfold mbind at 1, M_bind at 1, gets at 1.
  destruct (TrOCRService._check_local_model E model_type (fs st))
    as [b d] eqn:Hc.
  cbn in Hlocal. subst b.
  fold python_ocr. fold temp_script.
  unfold mbind at 1, M_bind at 1, update_trocr at 1, modify at 1.
  unfold mbind at 1, M_bind at 1, TrOCRService.write_file at 1.
  unfold mbind at 1, M_bind at 1, gets at 1.
  unfold mbind at 1, M_bind at 1, emit at 1, modify at 1.
  unfold set_fs at 1, modify at 1.
  cbn [fs log trocr_service tesseract_service].
  match goal with
  | |- context [TrOCRService.run_download E model_type python_ocr temp_script ?s0] =>
      destruct (run_download_effect E model_type python_ocr temp_script s0)
        as (report & s' & -> & Hgone & Hbad)
  end.
  cbn [fs] in Hbad. fold outcome in Hbad.
  exists report, s'. split; [reflexivity|]. split; [exact Hgone|].
  intros Ho. destruct (Hbad Ho) as [Hs Hm].
  split; [exact Hs|]. split; [exact Hm|].
  rewrite Hm. apply failure_reason_nonempty.
Qed.

Lemma download_failure_is_reported_offline :
  exists report st',
    TrOCRService.download_model world_offline "large-handwritten"
      (started true ∅) = (inr report, st')
    /\ ("/srv/backend/python_ocr/temp_download.py" ∉ fs st')
    /\ Report.success report = false
    /\ Report.message report = "Download script failed: no network"
    /\ log st'
       = [ EvRemove "/srv/backend/python_ocr/temp_download.py";
           EvSubprocessRun "/srv/backend/python_ocr/temp_download.py";
           EvWrite "/srv/backend/python_ocr/temp_download.py" ].
Proof.
  destruct (download_failure_is_reported world_offline "large-handwritten"
              (started true ∅))
    as (report & st' & Hrun & Hgone & Hbad).
  - vm_compute. eexists. reflexivity.
  - reflexivity.
  - vm_compute. reflexivity.
  - exists report, st'. split; [exact Hrun|]. split; [exact Hgone|].
    destruct Hbad as (Hs & Hm & _); [vm_compute; discriminate|].
    split; [exact Hs|]. split; [exact Hm|].
    apply (f_equal snd) in Hrun. cbn [snd] in Hrun. rewrite <- Hrun.
    vm_compute. reflexivity.
Defined.

(** ** Confidence of the deterministic engine *)

Lemma positive_confs_ints zs :
  TesseractService.positive_confs (map ConfInt zs) = inr (positives zs).
Proof.
  unfold positives. induction zs as [|z zs IH]; [reflexivity|].
  cbn [map TesseractService.positive_confs]. rewrite IH. cbn [and_then].
  rewrite filter_cons. destruct (Z.ltb_spec 0 z); case_decide; (reflexivity || lia).
Qed.

Lemma avg_confidence_ints zs :
  TesseractService.avg_confidence (inr (map ConfInt zs))
  = match positives zs with
    | [] => 0%Q
    | _ :: _ => average (positives zs)
    end.
Proof.
  unfold TesseractService.avg_confidence. cbn [and_then].
  rewrite positive_confs_ints. reflexivity.
Qed.

(** C3 as written fails on an empty confidence list: the page is reported
    with confidence zero, not with the constant 0.95. *)
Lemma empty_confidence_reported_zero :
  image_to_data_conf world_blank Input = inr []
  /\ field "confidence"
       (TesseractService.extract_text world_blank Input true 5
          "Adaptive Gaussian" 11 2 "balanced" "high" (started true ∅))
     = Some (VFloat (0 / 100))
  /\ (0 / 100 == 0)%Q
  /\ ~ (0 / 100 == 0.95)%Q.
Proof.
  split; [reflexivity|]. split; [vm_compute; reflexivity|].
  split; [reflexivity | discriminate].
Qed.

(** C3, amended. When the token confidences are read without error, the
    confidence [extract_text] reports is the average of the strictly positive
    per-token values, divided by 100; if no strictly positive value remains
    (an empty list included) the reported confidence is zero. *)
Theorem tesseract_confidence_scaled_average
    E image use_preprocessing blur_kernel threshold_method block_size c_value
    processing_speed accuracy_level st pil st1 text zs :
  TesseractSelf.model_loaded (tesseract_service st) = true ->
  TesseractService.pil_image E image use_preprocessing blur_kernel
    threshold_method block_size c_value
    (TesseractService._get_preprocessing_settings processing_speed
       accuracy_level) st = (inr pil, st1) ->
  image_to_string E pil
    (TesseractService._get_ocr_settings processing_speed accuracy_level)
  = inr text ->
  image_to_data_conf E pil = inr (map ConfInt zs) ->
  exists result st' q,
    TesseractService.extract_text E image use_preprocessing blur_kernel
      threshold_method block_size c_value processing_speed accuracy_level st
    = (inr result, st')
    /\ result !! "confidence" = Some (VFloat q)
    /\ (positives zs = [] -> (q == 0)%Q)
    /\ (positives zs <> [] -> (q == average (positives zs) / 100)%Q).
Proof.
  intros Hloaded Hpil Htext Hconf.
  unfold TesseractService.extract_text.
  unfold mbind at 1, M_bind at 1, gets at 1. rewrite Hloaded. cbn [negb].
  unfold try_except, mbind at 1, M_bind at 1. rewrite Hpil.
  run_M. rewrite Htext, Hconf, avg_confidence_ints.
  eexists _, _, _. split; [reflexivity|].
  split; [rewrite lookup_insert_ne by discriminate; apply lookup_insert_eq|].
  split.
  - intros ->. reflexivity.
  - intros Hne. destruct (positives zs); [contradiction|]. reflexivity.
Qed.

Lemma tesseract_confidence_scaled_average_ok :
  exists result st',
    TesseractService.extract_text world_ok Input true 5 "Adaptive Gaussian"
      11 2 "balanced" "high" (started true ∅) = (inr result, st')
    /\ exists q, result !! "confidence" = Some (VFloat q) /\ (q == 0.85)%Q.
Proof.
  destruct (tesseract_confidence_scaled_average world_ok Input true 5
              "Adaptive Gaussian" 11 2 "balanced" "high" (started true ∅)
              (AdaptiveThreshold (GaussianBlur (CvtColor Input 6) (5, 5) 0)
                 255 1 0 11 2)
              (snd (TesseractService.pil_image world_ok Input true 5
                      "Adaptive Gaussian" 11 2
                      (TesseractService._get_preprocessing_settings
                         "balanced" "high") (started true ∅)))
              tesseract_says [90; -1; 80])
    as (result & st' & q & Hrun & Hq & _ & Havg);
    [reflexivity | reflexivity | reflexivity | reflexivity |].
  exists result, st'. split; [exact Hrun|]. exists q. split; [exact Hq|].
  rewrite Havg; [reflexivity | discriminate].
Defined.

(** ** The extraction route *)

(** C2, at a failing input.  The neural engine is requested, nothing is
    cached and the download script exits with code 1.  The route falls back
    to Tesseract and answers with Tesseract's text, but the body it returns
    has neither [fallback_used] nor [fallback_reason], and reports
    [ocr_type = trocr]: the two keys are stored in the engine result only,
    which the response does not copy. *)
Theorem fallback_flag_dropped :
  field "success" request_offline = Some (VBool true)
  /\ field "text" request_offline = Some (VStr tesseract_says)
  /\ field "fallback_used" request_offline = None
  /\ field "fallback_reason" request_offline = None
  /\ field "ocr_type" request_offline = Some (VStr "trocr")
  /\ log (snd request_offline)
     = [ EvImageToData;
         EvImageToString "--oem 3 --psm 6 --tessdata-dir . --user-words";
         EvRunCv (TesseractService.preprocess_image 5 "Adaptive Gaussian"
                    11 2 127);
         EvRemove "/srv/backend/python_ocr/temp_download.py";
         EvSubprocessRun "/srv/backend/python_ocr/temp_download.py";
         EvWrite "/srv/backend/python_ocr/temp_download.py";
         EvSaveUpload "uploads/0b5c.png" ].
Proof. vm_compute. repeat split; reflexivity. Qed.

(** A load that fails inside [_load_model] is not seen by the route at all:
    [download_model] reports success, and the request ends with an error. *)
Lemma load_error_surfaces :
  fst request_corrupt
  = inl (HTTPException 500
           "OCR processing failed: TrOCR model not properly loaded")
  /\ TrOCRSelf.status (trocr_service (snd request_corrupt))
     = "Error loading TrOCR large-handwritten model: corrupt checkpoint".
Proof. vm_compute. split; reflexivity. Qed.

Lemma bind_returns {A B} (m : M A) (k : A -> M B) s b s' :
  (m ≫= k) s = (inr b, s') ->
  exists a s1, m s = (inr a, s1) /\ k a s1 = (inr b, s').
Proof.
  unfold mbind, M_bind. destruct (m s) as [[e|a] s1]; [discriminate|].
  intros H. exists a, s1. split; [reflexivity | exact H].
Qed.

Lemma try_except_returns {A} (body : M A) h s a s' :
  try_except body (except_Exception (fun e => raise (h e))) s = (inr a, s') ->
  body s = (inr a, s').
Proof.
  unfold try_except, except_Exception, raise.
  destruct (body s) as [[e|a0] s1]; [|exact (fun H => H)].
  destruct (is_Exception e); discriminate.
Qed.

(** No body returned by [extract_text] carries the fallback keys. *)
Lemma response_never_flags_fallback
    (E : Env) (file : UploadFile E) ocr_type model_type use_preprocessing
    blur_kernel threshold_method block_size c_value primary_language
    language_detection custom_dictionary processing_speed accuracy_level
    st body st' :
  ocr_routes.extract_text file ocr_type model_type use_preprocessing
    blur_kernel threshold_method block_size c_value primary_language
    language_detection custom_dictionary processing_speed accuracy_level st
  = (inr body, st') ->
  body !! "fallback_used" = None /\ body !! "fallback_reason" = None.
Proof.
  unfold ocr_routes.extract_text. intros H.
  apply try_except_returns in H.
  destruct (negb (file_utils.validate_image_file file)); [discriminate H|].
  apply bind_returns in H as (image_cv & s1 & _ & H).
  apply bind_returns in H as (file_path & s2 & _ & H).
  apply bind_returns in H as (result & s3 & _ & H).
  apply bind_returns in H as (text & s4 & _ & H).
  injection H as <- _. split; reflexivity.
Qed.

(** C4 as written fails for a model type that is not in the catalog: the
    request is answered with an extraction result, Tesseract's. *)
Lemma unknown_model_type_is_served :
  TrOCRService.available_models !! "tiny-handwritten" = None
  /\ field "success" request_unknown_model = Some (VBool true)
  /\ field "text" request_unknown_model = Some (VStr tesseract_says)
  /\ log (snd request_unknown_model)
     = [ EvImageToData;
         EvImageToString "--oem 3 --psm 6 --tessdata-dir . --user-words";
         EvRunCv (TesseractService.preprocess_image 5 "Adaptive Gaussian"
                    11 2 127);
         EvSaveUpload "uploads/0b5c.png" ].
Proof. vm_compute. repeat split; reflexivity. Qed.


(** ** Presets beyond the grid *)

Lemma settings_complete s accuracy_level :
  exists b t k c,
    TesseractService._get_preprocessing_settings (speed_key s) accuracy_level
    = Settings.mk (Some b) (Some t) (Some k) (Some c).
Proof.
  unfold TesseractService._get_preprocessing_settings.
  destruct s; cbn;
    repeat match goal with
           | |- context [String.eqb accuracy_level ?k] =>
               destruct (String.eqb accuracy_level k)
           end;
    eexists _, _, _, _; reflexivity.
Qed.

Lemma pil_image_preset (E : Env) (image : ndarray E) use_preprocessing
    bk tm bs cv bk' tm' bs' cv' b t k c :
  TesseractService.pil_image E image use_preprocessing bk tm bs cv
    (Settings.mk (Some b) (Some t) (Some k) (Some c))
  = TesseractService.pil_image E image use_preprocessing bk' tm' bs' cv'
      (Settings.mk (Some b) (Some t) (Some k) (Some c)).
Proof. reflexivity. Qed.

(** X1. For each of the four processing speeds the deterministic engine
    ignores the caller's blur kernel, threshold method, block size and C
    value: whatever the accuracy key, [extract_text] behaves the same for any
    two choices of them, and on the grid the pipeline it runs is the one of
    the resolved preset. *)
Theorem tesseract_presets_override_caller (E : Env) (image : ndarray E)
    use_preprocessing s accuracy_level bk tm bs cv bk' tm' bs' cv' :
  TesseractService.extract_text E image use_preprocessing bk tm bs cv
    (speed_key s) accuracy_level
  = TesseractService.extract_text E image use_preprocessing bk' tm' bs' cv'
      (speed_key s) accuracy_level
  /\ forall a,
       TesseractService.pil_image E image true bk tm bs cv
         (TesseractService._get_preprocessing_settings (speed_key s)
            (accuracy_key a))
       = (processed_image ←
            run_cv E
              (TesseractService.preprocess_image (blur (resolve s a))
                 (method_name (method (resolve s a))) (block (resolve s a))
                 (c (resolve s a)) 127) image;
          lift (Image_fromarray E processed_image)).
Proof.
  split.
  - unfold TesseractService.extract_text.
    destruct (settings_complete s accuracy_level) as (b & t & k & c0 & ->).
    rewrite (pil_image_preset E image use_preprocessing bk tm bs cv
               bk' tm' bs' cv').
    reflexivity.
  - intros a. destruct s, a; reflexivity.
Qed.

(** X2. A processing speed outside the four presets stores no blur kernel
    and leaves the other keys to the accuracy level, which then works from
    the defaults 11 and 2 and not from the caller's values: nothing at low
    or at an unknown accuracy, Adaptive Gaussian at medium, Adaptive Gaussian
    with block 13 at high, Otsu with block 15 and C 3 at maximum.  An
    unknown accuracy level on a known speed gives the speed's row
    unchanged. *)
Theorem settings_outside_grid speed accuracy_level s :
  off_grid speed -> unknown_accuracy accuracy_level ->
  TesseractService._get_preprocessing_settings speed "low" = Settings.empty
  /\ TesseractService._get_preprocessing_settings speed accuracy_level
     = Settings.empty
  /\ TesseractService._get_preprocessing_settings speed "medium"
     = Settings.mk None (Some "Adaptive Gaussian") None None
  /\ TesseractService._get_preprocessing_settings speed "high"
     = Settings.mk None (Some "Adaptive Gaussian") (Some 13) None
  /\ TesseractService._get_preprocessing_settings speed "maximum"
     = Settings.mk None (Some "Otsu") (Some 15) (Some 3)
  /\ TesseractService._get_preprocessing_settings (speed_key s) accuracy_level
     = settings_of (policy_table s).
Proof.
  intros (Hf & Hb & Hh & Hm) (Hl & Hme & Hhi & Hma).
  apply String.eqb_neq in Hf, Hb, Hh, Hm, Hl, Hme, Hhi, Hma.
  unfold TesseractService._get_preprocessing_settings.
  rewrite Hf, Hb, Hh, Hm, Hl, Hme, Hhi, Hma. cbn.
  repeat split; try reflexivity.
  destruct s; reflexivity.
Qed.

Lemma settings_outside_grid_turbo :
  TesseractService._get_preprocessing_settings "turbo" "maximum"
  = Settings.mk None (Some "Otsu") (Some 15) (Some 3)
  /\ TesseractService._get_preprocessing_settings "fast" "best"
     = Settings.mk (Some 3) (Some "Simple") (Some 7) (Some 1).
Proof.
  destruct (settings_outside_grid "turbo" "best" SpeedFast)
    as (_ & _ & _ & _ & Hmax & Hrow).
  - repeat split; discriminate.
  - repeat split; discriminate.
  - split; [exact Hmax | exact Hrow].
Defined.

(** X3. Both presets are monotone over the grid: a higher speed or a higher
    accuracy never lowers the blur kernel, the block size, the C value, the
    beam width or the maximal output length (and each of these keys is
    stored for every pair). *)
Theorem presets_monotone s s' a a' :
  speed_rank s <= speed_rank s' -> accuracy_rank a <= accuracy_rank a' ->
  let lo := TesseractService._get_preprocessing_settings
              (speed_key s) (accuracy_key a) in
  let hi := TesseractService._get_preprocessing_settings
              (speed_key s') (accuracy_key a') in
  let cfg_lo := TrOCRService._get_generation_config
                  (speed_key s) (accuracy_key a) in
  let cfg_hi := TrOCRService._get_generation_config
                  (speed_key s') (accuracy_key a') in
  stored_le (Settings.blur_kernel lo) (Settings.blur_kernel hi)
  /\ stored_le (Settings.block_size lo) (Settings.block_size hi)
  /\ stored_le (Settings.c_value lo) (Settings.c_value hi)
  /\ stored_le (GenConfig.num_beams cfg_lo) (GenConfig.num_beams cfg_hi)
  /\ GenConfig.max_length cfg_lo <= GenConfig.max_length cfg_hi.
Proof.
  destruct s, s', a, a'; intros Hs Ha; vm_compute in Hs, Ha |- *;
    try (exfalso; apply Hs; reflexivity);
    try (exfalso; apply Ha; reflexivity);
    repeat split; discriminate.
Qed.

Lemma presets_monotone_balanced_high :
  stored_le
    (Settings.block_size
       (TesseractService._get_preprocessing_settings "balanced" "medium"))
    (Settings.block_size
       (TesseractService._get_preprocessing_settings "high" "high"))
  /\ stored_le
       (GenConfig.num_beams
          (TrOCRService._get_generation_config "balanced" "medium"))
       (GenConfig.num_beams
          (TrOCRService._get_generation_config "high" "high")).
Proof.
  destruct (presets_monotone SpeedBalanced SpeedHigh AccMedium AccHigh)
    as (_ & Hb & _ & Hw & _); [discriminate | discriminate |].
  split; [exact Hb | exact Hw].
Defined.

(** ** Rules for [respects] *)

Section Respecting.
Context (R : St -> St -> Prop).
Hypothesis R_refl : forall s, R s s.
Hypothesis R_trans : forall s1 s2 s3, R s1 s2 -> R s2 s3 -> R s1 s3.

Lemma respects_ret {A} (a : A) : respects R (mret a).
Proof. intros s. apply R_refl. Qed.

Lemma respects_raise {A} e : respects R (@raise A e).
Proof. intros s. apply R_refl. Qed.

Lemma respects_lift {A} (r : exn + A) : respects R (lift r).
Proof. intros s. apply R_refl. Qed.

Lemma respects_gets {A} (f : St -> A) : respects R (gets f).
Proof. intros s. apply R_refl. Qed.

Lemma respects_modify f : (forall s, R s (f s)) -> respects R (modify f).
Proof. intros Hf s. apply Hf. Qed.

Lemma respects_bind {A B} (m : M A) (k : A -> M B) :
  respects R m -> (forall a, respects R (k a)) -> respects R (m ≫= k).
Proof.
  intros Hm Hk s. specialize (Hm s).
  unfold mbind, M_bind. destruct (m s) as [[e|a] s1]; [exact Hm|].
  eapply R_trans; [exact Hm | apply Hk].
Qed.

Lemma respects_try_except {A} (body : M A) handler :
  respects R body ->
  (forall e h, handler e = Some h -> respects R h) ->
  respects R (try_except body handler).
Proof.
  intros Hb Hh s. specialize (Hb s).
  unfold try_except. destruct (body s) as [[e|a] s1]; [|exact Hb].
  destruct (handler e) as [h|] eqn:He; [|exact Hb].
  eapply R_trans; [exact Hb | eapply Hh, He].
Qed.

Lemma respects_except_Exception {A} (body : M A) h :
  respects R body -> (forall e, respects R (h e)) ->
  respects R (try_except body (except_Exception h)).
Proof.
  intros Hb Hh. apply respects_try_except; [exact Hb|].
  intros e h'. unfold except_Exception.
  destruct (is_Exception e); [|discriminate].
  intros [= <-]. apply Hh.
Qed.

End Respecting.

Lemma calm_refl P s : calm P s s.
Proof. repeat split. constructor. Qed.

Lemma calm_trans P s1 s2 s3 : calm P s1 s2 -> calm P s2 s3 -> calm P s1 s3.
Proof.
  intros (Ht & Hr & Hf & Hl) (Ht' & Hr' & Hf' & Hl').
  repeat split; try congruence. eapply grows_trans; eassumption.
Qed.

Lemma calm_emit P ev : P ev -> respects (calm P) (emit ev).
Proof.
  intros Hev. unfold emit. apply respects_modify. intros s.
  repeat split. cbn. constructor; [exact Hev | constructor].
Qed.

(** One syntax-directed step of a [respects (calm _)] derivation. *)
Ltac calm_step :=
  first
    [ apply respects_ret; apply calm_refl
    | apply respects_raise; apply calm_refl
    | apply respects_lift; apply calm_refl
    | apply respects_gets; apply calm_refl
    | apply calm_emit; exact I
    | apply respects_except_Exception; [apply calm_trans | | intros ?]
    | apply respects_bind; [apply calm_trans | | intros ?]
    | match goal with
      | |- respects _ (if ?b then _ else _) => destruct b eqn:?
      | |- respects _ (match ?x with _ => _ end) => destruct x eqn:?
      end
    | progress cbv beta zeta ].

(** ** What a handler that re-raises lets through *)

Lemma not_Exception e : is_Exception e = false -> e = KeyboardInterrupt.
Proof. destruct e; (discriminate || reflexivity). Qed.

Lemma try_except_wraps {A} (body : M A) f s e s' :
  try_except body (except_Exception (fun e => raise (f e))) s = (inl e, s') ->
  (exists cause, is_Exception cause = true /\ e = f cause)
  \/ e = KeyboardInterrupt.
Proof.
  unfold try_except, except_Exception, raise.
  destruct (body s) as [[e0|a] s1]; [|discriminate].
  destruct (is_Exception e0) eqn:He0; intros [= <- <-].
  - left. exists e0. split; [exact He0 | reflexivity].
  - right. apply not_Exception, He0.
Qed.

(** ** The deterministic engine *)

Lemma tesseract_extract_calm (E : Env) (image : ndarray E) use_preprocessing
    bk tm bs cv speed acc :
  respects (calm tesseract_call)
    (TesseractService.extract_text E image use_preprocessing bk tm bs cv
       speed acc).
Proof.
  unfold TesseractService.extract_text, TesseractService.pil_image, run_cv.
  repeat calm_step.
Qed.

(** X4. The deterministic engine's [extract_text] changes neither service
    object nor any file, and calls nothing but OpenCV and Tesseract.  When
    the service is not initialised it raises "Tesseract not properly
    initialized" before calling anything; every other failure is re-raised
    as an [Exception] whose message is "Tesseract OCR failed: " followed by
    the cause, and only an interrupt passes through unwrapped. *)
Theorem tesseract_extract_errors (E : Env) (image : ndarray E)
    use_preprocessing bk tm bs cv speed acc st :
  calm tesseract_call st
    (snd (TesseractService.extract_text E image use_preprocessing bk tm bs cv
            speed acc st))
  /\ (forall e,
        fst (TesseractService.extract_text E image use_preprocessing bk tm bs
               cv speed acc st) = inl e ->
        engine_error E "Tesseract not properly initialized"
          "Tesseract OCR failed: " e)
  /\ (TesseractSelf.model_loaded (tesseract_service st) = false ->
      TesseractService.extract_text E image use_preprocessing bk tm bs cv
        speed acc st
      = (inl (Exception "Tesseract not properly initialized"), st)).
Proof.
  split; [apply tesseract_extract_calm|].
  assert (Hnot : TesseractSelf.model_loaded (tesseract_service st) = false ->
                 TesseractService.extract_text E image use_preprocessing bk tm
                   bs cv speed acc st
                 = (inl (Exception "Tesseract not properly initialized"), st)).
  { intros Hf. unfold TesseractService.extract_text.
    unfold mbind, M_bind, gets. rewrite Hf. reflexivity. }
  split; [|exact Hnot].
  intros e He.
  destruct (TesseractSelf.model_loaded (tesseract_service st)) eqn:Hl.
  - revert He. unfold TesseractService.extract_text.
    unfold mbind at 1, M_bind at 1, gets at 1. rewrite Hl. cbn [negb].
    intros He.
    match type of He with
    | fst ?r = _ => destruct r as [r0 s'] eqn:Hrun
    end.
    cbn [fst] in He. subst r0.
    apply try_except_wraps in Hrun as [(cause & Hc & ->)| ->].
    + right. left. exists cause. split; [exact Hc | reflexivity].
    + right. right. reflexivity.
  - rewrite (Hnot eq_refl) in He. injection He as <-. left. reflexivity.
Qed.

Lemma tesseract_not_ready :
  TesseractService.extract_text world_ok Input true 5 "Adaptive Gaussian" 11 2
    "balanced" "high" (started false ∅)
  = (inl (Exception "Tesseract not properly initialized"), started false ∅).
Proof.
  destruct (tesseract_extract_errors world_ok Input true 5
              "Adaptive Gaussian" 11 2 "balanced" "high" (started false ∅))
    as (_ & _ & Hnot_ready).
  apply Hnot_ready. reflexivity.
Defined.

Lemma positive_confs_bad l msg :
  ConfBad msg ∈ l -> exists e, TesseractService.positive_confs l = inl e.
Proof.
  induction l as [|[z|m] l IH]; intros Hin.
  - inversion Hin.
  - apply elem_of_cons in Hin as [Heq|Hin]; [discriminate Heq|].
    destruct (IH Hin) as [e He]. exists e.
    cbn [TesseractService.positive_confs]. rewrite He. reflexivity.
  - eexists. reflexivity.
Qed.

Lemma positive_confs_positive l pos :
  TesseractService.positive_confs l = inr pos ->
  Forall (fun z => 0 < z /\ ConfInt z ∈ l) pos.
Proof.
  revert pos. induction l as [|[z|m] l IH]; intros pos.
  - intros [= <-]. constructor.
  - cbn [TesseractService.positive_confs].
    destruct (TesseractService.positive_confs l) as [e|tl]; [discriminate|].
    cbn [and_then]. intros [= <-].
    assert (Htl : Forall (fun z0 => 0 < z0 /\ ConfInt z0 ∈ ConfInt z :: l) tl).
    { eapply Forall_impl; [apply IH; reflexivity|].
      intros z0 [Hz Hin]. split; [exact Hz | right; exact Hin]. }
    destruct (Z.ltb_spec 0 z); [|exact Htl].
    constructor; [|exact Htl]. split; [assumption | left].
  - discriminate.
Qed.

Lemma sum_bounds lo hi l :
  Forall (fun z => lo <= z <= hi) l ->
  lo * Z.of_nat (length l) <= TesseractService.sum l <= hi * Z.of_nat (length l).
Proof.
  induction 1 as [|z l Hz _ IH]; [cbn; lia|].
  cbn [TesseractService.sum fold_right length].
  fold (TesseractService.sum l). lia.
Qed.

Lemma average_bounds lo hi l :
  l <> [] -> Forall (fun z => lo <= z <= hi) l ->
  (inject_Z lo <= average l /\ average l <= inject_Z hi)%Q.
Proof.
  intros Hne Hall. apply sum_bounds in Hall.
  assert (Hlen : (0 < inject_Z (Z.of_nat (length l)))%Q).
  { rewrite <- (Zlt_Qlt 0). destruct l; [contradiction | cbn; lia]. }
  unfold average. split.
  - apply Qle_shift_div_l; [exact Hlen|].
    rewrite <- inject_Z_mult, <- Zle_Qle. lia.
  - apply Qle_shift_div_r; [exact Hlen|].
    rewrite <- inject_Z_mult, <- Zle_Qle. lia.
Qed.

(** The value the confidence block leaves in [avg_confidence]: never
    negative, and at most 100 when no token confidence exceeds 100. *)
Lemma avg_confidence_bounds data :
  (0 <= TesseractService.avg_confidence data)%Q
  /\ ((forall l z, data = inr l -> ConfInt z ∈ l -> z <= 100) ->
      (TesseractService.avg_confidence data <= 100)%Q).
Proof.
  unfold TesseractService.avg_confidence.
  destruct data as [e|l]; cbn [and_then]; [split; [|intros _]; discriminate|].
  destruct (TesseractService.positive_confs l) as [e|pos] eqn:Hpos;
    [split; [|intros _]; discriminate|].
  apply positive_confs_positive in Hpos.
  destruct pos as [|z pos]; [split; [|intros _]; discriminate|].
  fold (average (z :: pos)). split.
  - assert (Hlen : (0 < inject_Z (Z.of_nat (length (z :: pos))))%Q).
    { rewrite <- (Zlt_Qlt 0). cbn; lia. }
    unfold average. apply Qle_shift_div_l; [exact Hlen|].
    rewrite Qmult_0_l. rewrite <- (Zle_Qle 0).
    assert (Hall : Forall (fun x => 0 <= x) (z :: pos)).
    { eapply Forall_impl; [exact Hpos|]. intros x [Hx _]. lia. }
    clear -Hall. induction Hall; cbn; [lia|].
    fold (TesseractService.sum l). lia.
  - intros Hle.
    apply (average_bounds 1 100); [discriminate|].
    eapply Forall_impl; [exact Hpos|]. intros x [Hx Hin].
    split; [lia|]. eapply Hle; [reflexivity | exact Hin].
Qed.

(** X5. If reading the confidence table raises, or one of its entries is
    not a number, the extraction still succeeds: the error is swallowed and
    the reported confidence is 0.95 / 100. *)
Theorem tesseract_confidence_unreadable
    E image use_preprocessing blur_kernel threshold_method block_size c_value
    processing_speed accuracy_level st pil st1 text :
  TesseractSelf.model_loaded (tesseract_service st) = true ->
  TesseractService.pil_image E image use_preprocessing blur_kernel
    threshold_method block_size c_value
    (TesseractService._get_preprocessing_settings processing_speed
       accuracy_level) st = (inr pil, st1) ->
  image_to_string E pil
    (TesseractService._get_ocr_settings processing_speed accuracy_level)
  = inr text ->
  (exists e, image_to_data_conf E pil = inl e)
  \/ (exists l msg, image_to_data_conf E pil = inr l /\ ConfBad msg ∈ l) ->
  exists result st',
    TesseractService.extract_text E image use_preprocessing blur_kernel
      threshold_method block_size c_value processing_speed accuracy_level st
    = (inr result, st')
    /\ result !! "text" = Some (VStr (str_strip E text))
    /\ result !! "confidence" = Some (VFloat (0.95 / 100)).
Proof.
  intros Hloaded Hpil Htext Hconf.
  assert (Havg : TesseractService.avg_confidence (image_to_data_conf E pil)
                 = 0.95%Q).
  { unfold TesseractService.avg_confidence.
    destruct Hconf as [[e ->]|(l & msg & -> & Hbad)]; [reflexivity|].
    cbn [and_then]. destruct (positive_confs_bad l msg Hbad) as [e ->].
    reflexivity. }
  unfold TesseractService.extract_text.
  unfold mbind at 1, M_bind at 1, gets at 1. rewrite Hloaded. cbn [negb].
  unfold try_except, mbind at 1, M_bind at 1. rewrite Hpil.
  run_M. rewrite Htext, Havg.
  eexists _, _. split; [reflexivity|].
  split; [apply lookup_insert_eq|].
  rewrite lookup_insert_ne by discriminate. apply lookup_insert_eq.
Qed.

Lemma tesseract_confidence_unreadable_examples :
  field "confidence"
    (TesseractService.extract_text world_unreadable Input true 5
       "Adaptive Gaussian" 11 2 "balanced" "high" (started true ∅))
  = Some (VFloat (0.95 / 100))
  /\ field "confidence"
       (TesseractService.extract_text world_garbled Input true 5
          "Adaptive Gaussian" 11 2 "balanced" "high" (started true ∅))
     = Some (VFloat (0.95 / 100)).
Proof.
  split.
  - destruct (tesseract_confidence_unreadable world_unreadable Input true 5
                "Adaptive Gaussian" 11 2 "balanced" "high" (started true ∅)
                (AdaptiveThreshold (GaussianBlur (CvtColor Input 6) (5, 5) 0)
                   255 1 0 11 2)
                (snd (TesseractService.pil_image world_unreadable Input true 5
                        "Adaptive Gaussian" 11 2
                        (TesseractService._get_preprocessing_settings
                           "balanced" "high") (started true ∅)))
                tesseract_says)
      as (result & st' & Hrun & _ & Hq);
      [reflexivity | reflexivity | reflexivity
      | left; eexists; reflexivity |].
    unfold field, answer. rewrite Hrun. exact Hq.
  - destruct (tesseract_confidence_unreadable world_garbled Input true 5
                "Adaptive Gaussian" 11 2 "balanced" "high" (started true ∅)
                (AdaptiveThreshold (GaussianBlur (CvtColor Input 6) (5, 5) 0)
                   255 1 0 11 2)
                (snd (TesseractService.pil_image world_garbled Input true 5
                        "Adaptive Gaussian" 11 2
                        (TesseractService._get_preprocessing_settings
                           "balanced" "high") (started true ∅)))
                tesseract_says)
      as (result & st' & Hrun & _ & Hq);
      [reflexivity | reflexivity | reflexivity
      | right; eexists _, _; split;
        [reflexivity | right; left] |].
    unfold field, answer. rewrite Hrun. exact Hq.
Defined.

(** X6. Whenever the deterministic engine returns a result, the service
    was initialised and the result has exactly the keys [text],
    [confidence] and [processing_time]; the text is what Tesseract read,
    stripped; the confidence is never negative, and it is at most 1 if no
    per-token confidence Tesseract gives exceeds 100. *)
Theorem tesseract_result_shape (E : Env) (image : ndarray E)
    use_preprocessing bk tm bs cv speed acc st result st' :
  TesseractService.extract_text E image use_preprocessing bk tm bs cv speed
    acc st = (inr result, st') ->
  TesseractSelf.model_loaded (tesseract_service st) = true
  /\ dom result = result_keys
  /\ exists text q,
       result !! "text" = Some (VStr (str_strip E text))
       /\ result !! "confidence" = Some (VFloat q)
       /\ result !! "processing_time" = Some (VFloat (elapsed E))
       /\ (0 <= q)%Q
       /\ ((forall pil l z,
              image_to_data_conf E pil = inr l -> ConfInt z ∈ l -> z <= 100) ->
           (q <= 1)%Q).
Proof.
  unfold TesseractService.extract_text. intros H.
  apply bind_returns in H as (self & s0 & Hself & H).
  unfold gets in Hself. injection Hself as <- <-.
  destruct (TesseractSelf.model_loaded (tesseract_service st));
    [|discriminate H].
  split; [reflexivity|]. cbn [negb] in H.
  apply try_except_returns in H. cbv zeta in H.
  apply bind_returns in H as (pil & s1 & _ & H).
  apply bind_returns in H as ([] & s2 & _ & H).
  apply bind_returns in H as (text & s3 & _ & H).
  apply bind_returns in H as ([] & s4 & _ & H).
  injection H as <- _.
  split.
  { rewrite !dom_insert_L, dom_empty_L. unfold result_keys. set_solver. }
  exists text, (TesseractService.avg_confidence (image_to_data_conf E pil) / 100)%Q.
  destruct (avg_confidence_bounds (image_to_data_conf E pil)) as [Hlo Hhi].
  split; [apply lookup_insert_eq|].
  split; [rewrite lookup_insert_ne by discriminate; apply lookup_insert_eq|].
  split; [rewrite !lookup_insert_ne by discriminate; apply lookup_insert_eq|].
  split.
  - apply Qle_shift_div_l; [reflexivity|]. rewrite Qmult_0_l. exact Hlo.
  - intros Hle. apply Qle_shift_div_r; [reflexivity|].
    rewrite Qmult_1_l. apply Hhi. intros l z Hl. eapply Hle, Hl.
Qed.

Lemma tesseract_result_shape_ok :
  exists result,
    answer (TesseractService.extract_text world_ok Input true 5
              "Adaptive Gaussian" 11 2 "balanced" "high" (started true ∅))
    = Some result
    /\ dom result = result_keys
    /\ exists q, result !! "confidence" = Some (VFloat q) /\ (q <= 1)%Q.
Proof.
  assert (Hrun :
    TesseractService.extract_text world_ok Input true 5 "Adaptive Gaussian"
      11 2 "balanced" "high" (started true ∅)
    = (inr (returned
              (TesseractService.extract_text world_ok Input true 5
                 "Adaptive Gaussian" 11 2 "balanced" "high" (started true ∅))),
       snd (TesseractService.extract_text world_ok Input true 5
              "Adaptive Gaussian" 11 2 "balanced" "high" (started true ∅))))
    by (vm_compute; reflexivity).
  eexists. split; [unfold answer; rewrite Hrun; reflexivity|].
  destruct (tesseract_result_shape world_ok Input true 5 "Adaptive Gaussian"
              11 2 "balanced" "high" (started true ∅) _ _ Hrun)
    as (_ & Hdom & text & q & _ & Hq & _ & _ & Hle).
  split; [exact Hdom|]. exists q. split; [exact Hq|].
  apply Hle. intros pil l z [= <-] Hin.
  repeat (apply elem_of_cons in Hin as [[= ->]|Hin]; [lia|]).
  inversion Hin.
Defined.

(** ** The neural engine *)

Lemma large_tried_reached :
  snd (TrOCRService.download_model world_ok "large-handwritten"
         (started true large_cache)) = large_tried.
Proof. vm_compute. reflexivity. Qed.

Lemma trocr_extract_calm (E : Env) (image : ndarray E) use_preprocessing
    bk tm bs cv speed acc :
  respects (calm trocr_call)
    (TrOCRService.extract_text E image use_preprocessing bk tm bs cv
       speed acc).
Proof.
  unfold TrOCRService.extract_text, run_cv.
  repeat calm_step.
Qed.

(** X7. The neural engine's [extract_text] changes neither service object
    nor any file and calls nothing but OpenCV and the model.  It raises
    "TrOCR model not properly loaded" when no model is loaded, and wraps
    every other failure as "TrOCR processing failed: " followed by the cause.
    A result it returns has the keys [text], [confidence] and
    [processing_time] with the constant confidence 0.95, and it was obtained
    by running the caller's own blur kernel, threshold method, block size
    and C value (the speed and accuracy keys only select the generation
    config). *)
Theorem trocr_extract_contract (E : Env) (image : ndarray E)
    use_preprocessing bk tm bs cv speed acc st :
  calm trocr_call st
    (snd (TrOCRService.extract_text E image use_preprocessing bk tm bs cv
            speed acc st))
  /\ (forall e,
        fst (TrOCRService.extract_text E image use_preprocessing bk tm bs cv
               speed acc st) = inl e ->
        engine_error E "TrOCR model not properly loaded"
          "TrOCR processing failed: " e)
  /\ (TrOCRSelf.model_loaded (trocr_service st) = false ->
      TrOCRService.extract_text E image use_preprocessing bk tm bs cv speed
        acc st
      = (inl (Exception "TrOCR model not properly loaded"), st))
  /\ (forall result st',
        TrOCRService.extract_text E image use_preprocessing bk tm bs cv speed
          acc st = (inr result, st') ->
        TrOCRSelf.model_loaded (trocr_service st) = true
        /\ dom result = result_keys
        /\ result !! "confidence" = Some (VFloat 0.95)
        /\ log st'
           = EvGenerate (TrOCRService._get_generation_config speed acc)
             :: EvRunCv (if use_preprocessing
                         then TrOCRService.preprocess_image bk tm bs cv 127
                         else CvtColor Input COLOR_BGR2RGB)
             :: log st).
Proof.
  split; [apply trocr_extract_calm|].
  assert (Hnot : TrOCRSelf.model_loaded (trocr_service st) = false ->
                 TrOCRService.extract_text E image use_preprocessing bk tm bs
                   cv speed acc st
                 = (inl (Exception "TrOCR model not properly loaded"), st)).
  { intros Hf. unfold TrOCRService.extract_text.
    unfold mbind, M_bind, gets. rewrite Hf. reflexivity. }
  split; [|split; [exact Hnot|]].
  - intros e He.
    destruct (TrOCRSelf.model_loaded (trocr_service st)) eqn:Hl.
    + revert He. unfold TrOCRService.extract_text.
      unfold mbind at 1, M_bind at 1, gets at 1. rewrite Hl. cbn [negb].
      intros He.
      match type of He with
      | fst ?r = _ => destruct r as [r0 s'] eqn:Hrun
      end.
      cbn [fst] in He. subst r0.
      apply try_except_wraps in Hrun as [(cause & Hc & ->)| ->].
      * right. left. exists cause. split; [exact Hc | reflexivity].
      * right. right. reflexivity.
    + rewrite (Hnot eq_refl) in He. injection He as <-. left. reflexivity.
  - intros result st'.
    destruct (TrOCRSelf.model_loaded (trocr_service st)) eqn:Hl;
      [|rewrite (Hnot eq_refl); discriminate].
    unfold TrOCRService.extract_text, run_cv. run_M. rewrite Hl. cbn [negb].
    destruct use_preprocessing;
      match goal with
      | |- context [eval_cv E ?p image] => destruct (eval_cv E p image) as [e|a]
      end;
      try (destruct (is_Exception e); discriminate);
      (destruct (Image_fromarray E a) as [e|pil];
       [destruct (is_Exception e); discriminate|]);
      match goal with
      | |- context [trocr_recognize E ?p ?m ?d pil ?c] =>
          destruct (trocr_recognize E p m d pil c) as [e|text]
      end;
      try (destruct (is_Exception e); discriminate);
      intros [= <- <-]; cbn [log];
      (split; [reflexivity|]);
      (split; [rewrite !dom_insert_L, dom_empty_L; unfold result_keys;
               set_solver|]);
      (split; [rewrite lookup_insert_ne by discriminate;
               apply lookup_insert_eq | reflexivity]).
Qed.

Lemma trocr_extract_contract_loaded :
  TrOCRSelf.model_loaded (trocr_service loaded_by_hand) = true
  /\ exists result st',
       TrOCRService.extract_text world_ok Input true 9 "Otsu" 21 4 "fast"
         "low" loaded_by_hand = (inr result, st')
       /\ result !! "confidence" = Some (VFloat 0.95)
       /\ log st'
          = EvGenerate (TrOCRService._get_generation_config "fast" "low")
            :: EvRunCv (TrOCRService.preprocess_image 9 "Otsu" 21 4 127)
            :: log loaded_by_hand.
Proof.
  split; [reflexivity|].
  assert (Hrun :
    TrOCRService.extract_text world_ok Input true 9 "Otsu" 21 4 "fast" "low"
      loaded_by_hand
    = (inr (returned
              (TrOCRService.extract_text world_ok Input true 9 "Otsu" 21 4
                 "fast" "low" loaded_by_hand)),
       snd (TrOCRService.extract_text world_ok Input true 9 "Otsu" 21 4
              "fast" "low" loaded_by_hand)))
    by (vm_compute; reflexivity).
  eexists _, _. split; [exact Hrun|].
  destruct (trocr_extract_contract world_ok Input true 9 "Otsu" 21 4 "fast"
              "low" loaded_by_hand) as (_ & _ & _ & Hres).
  destruct (Hres _ _ Hrun) as (_ & _ & Hq & Hlog).
  split; [exact Hq | exact Hlog].
Defined.

(** ** Loading a model *)

Ltac trocr_simpl :=
  cbn [fs log trocr_service tesseract_service fst snd get
       TrOCRSelf.model_loaded TrOCRSelf.status TrOCRSelf.processor
       TrOCRSelf.model TrOCRSelf.device TrOCRSelf.model_dir
       TrOCRSelf.current_model_type
       TrOCRSelf.set_model TrOCRSelf.set_model_dir
       TrOCRSelf.set_current_model_type TrOCRSelf.set_device
       TrOCRSelf.set_processor TrOCRSelf.set_status
       TrOCRSelf.set_model_loaded] in *.

(** One case split on an answer of the model library, keeping what is
    learnt about the class of an exception. *)
Ltac case_answer :=
  match goal with
  | |- context [match from_pretrained ?E ?c ?src ?f with _ => _ end] =>
      destruct (from_pretrained E c src f)
  | |- context [match model_to ?E ?m ?d with _ => _ end] =>
      destruct (model_to E m d)
  | |- context [match device_upper ?E ?d with _ => _ end] =>
      destruct (device_upper E d)
  | |- context [if is_Exception ?e then _ else _] =>
      destruct (is_Exception e) eqn:?
  end;
  trocr_simpl.

(** Every way [_load_model] can end. *)
Lemma load_model_outcome E mt st :
  (fst (TrOCRService._load_model E mt st) = inr tt
   \/ fst (TrOCRService._load_model E mt st) = inl KeyboardInterrupt)
  /\ (fst (TrOCRService._load_model E mt st) = inr tt ->
      let self := trocr_service (snd (TrOCRService._load_model E mt st)) in
      (TrOCRSelf.model_loaded self = true
       /\ is_Some (TrOCRService.available_models !! mt)
       /\ TrOCRSelf.current_model_type self = Some mt
       /\ TrOCRSelf.device self
          = Some (if cuda_is_available E then "cuda" else "cpu")
       /\ exists src,
            TrOCRSelf.processor self = Some src
            /\ TrOCRSelf.model self = Some src
            /\ TrOCRSelf.model_dir self = Some src)
      \/ (TrOCRSelf.model_loaded self = false
          /\ exists cause,
               TrOCRSelf.status self
               = "Error loading TrOCR " ++ mt ++ " model: " ++ cause))
  /\ (TrOCRService.available_models !! mt = None ->
      log (snd (TrOCRService._load_model E mt st)) = log st)
  /\ (TrOCRSelf.current_model_type
        (trocr_service (snd (TrOCRService._load_model E mt st)))
      = TrOCRSelf.current_model_type (trocr_service st)
      \/ (TrOCRSelf.current_model_type
            (trocr_service (snd (TrOCRService._load_model E mt st)))
          = Some mt
          /\ is_Some (TrOCRService.available_models !! mt))).
Proof.
  unfold TrOCRService._load_model, TrOCRService.load_from.
  destruct (TrOCRService.available_models !! mt) as [[repo size]|] eqn:Hinfo;
  destruct (TrOCRService._check_local_model E mt (fs st)) as [[] d] eqn:Hc;
  destruct (cuda_is_available E);
    try destruct (cuda_gpu_info E) as [e0|gpu];
    run_M; rewrite ?Hc; trocr_simpl;
    repeat case_answer.
  all: split;
    [first [left; reflexivity
           | right; f_equal; apply not_Exception; assumption]|].
  all: split;
    [|split; [first [discriminate | intros _; reflexivity]
             |first [left; reflexivity | right; split; [reflexivity|eauto]]]].
  all: intros Hr; try discriminate Hr.
  all: first
    [ right; split; [reflexivity | eexists; reflexivity]
    | left; repeat split; eauto ].
Qed.




(** ** [download_model] as a whole *)

Lemma try_except_total {A} (body : M A) h s e s' :
  (forall e0 s0, exists a s1, h e0 s0 = (inr a, s1)) ->
  try_except body (except_Exception h) s = (inl e, s') ->
  e = KeyboardInterrupt.
Proof.
  intros Hh. unfold try_except, except_Exception.
  destruct (body s) as [[e0|a] s1]; [|discriminate].
  destruct (is_Exception e0) eqn:He0.
  - destruct (Hh e0 s1) as (a & s2 & ->). discriminate.
  - intros [= <- _]. apply not_Exception, He0.
Qed.

(** X9. [download_model] never raises an [Exception]: it answers with a
    report, or an interrupt passes through; and it answers with a failure
    report, touching nothing, for a model type outside the catalog. *)
Theorem download_model_total E model_type st :
  ((exists report, fst (TrOCRService.download_model E model_type st)
                   = inr report)
   \/ fst (TrOCRService.download_model E model_type st)
      = inl KeyboardInterrupt)
  /\ (TrOCRService.available_models !! model_type = None ->
      exists report,
        TrOCRService.download_model E model_type st = (inr report, st)
        /\ Report.success report = false).
Proof.
  split.
  - destruct (TrOCRService.download_model E model_type st) as [[e|report] s']
      eqn:Hrun; [|left; eexists; reflexivity].
    right. cbn [fst]. f_equal.
    unfold TrOCRService.download_model in Hrun.
    eapply try_except_total; [|exact Hrun].
    intros e0 s0. run_M. eexists _, _. reflexivity.
  - intros Hnone. unfold TrOCRService.download_model. rewrite Hnone. run_M.
    eexists. split; reflexivity.
Qed.

Lemma download_model_total_tiny :
  exists report,
    TrOCRService.download_model world_ok "tiny" large_tried
    = (inr report, large_tried)
    /\ Report.success report = false.
Proof.
  destruct (download_model_total world_ok "tiny" large_tried) as [_ Hnone].
  apply Hnone. reflexivity.
Defined.

(** ** What the routes let out *)

Lemma route_error {A} (body : M A) E prefix s e s' :
  try_except body
    (except_Exception
       (fun e => raise (HTTPException 500 (prefix ++ str E e)))) s
  = (inl e, s') ->
  http_500 prefix e.
Proof.
  intros H. apply try_except_wraps in H as [(cause & _ & ->)| ->].
  - right. eexists. reflexivity.
  - left. reflexivity.
Qed.

Lemma fst_raised {A} (r : (exn + A) * St) e :
  fst r = inl e -> exists s', r = (inl e, s').
Proof. destruct r as [x s']. cbn. intros ->. eexists. reflexivity. Qed.

(** X11. The two image routes answer every failure with status 500: an
    exception that leaves [extract_text] or [preprocess_image] is an
    [HTTPException] with code 500 whose detail starts with the route's
    prefix (or an interrupt).  This includes the failures the routes raise
    themselves with code 400: an upload that does not pass validation and an
    OCR type that is neither engine come out as 500 with the rendered 400
    inside the detail, the former before anything is stored or run. *)
Theorem image_routes_fail_with_500 (E : Env) (file : UploadFile E)
    (imencode : ndarray E -> exn + string)
    ocr_type model_type use_preprocessing blur_kernel threshold_method
    block_size c_value simple_thresh_value primary_language
    language_detection custom_dictionary processing_speed accuracy_level st :
  (forall e,
     fst (ocr_routes.extract_text file ocr_type model_type use_preprocessing
            blur_kernel threshold_method block_size c_value primary_language
            language_detection custom_dictionary processing_speed
            accuracy_level st) = inl e ->
     http_500 "OCR processing failed: " e)
  /\ (forall e,
        fst (ocr_routes.preprocess_image imencode file blur_kernel
               threshold_method block_size c_value simple_thresh_value st)
        = inl e ->
        http_500 "Image preprocessing failed: " e)
  /\ (file_utils.validate_image_file file = false ->
      ocr_routes.extract_text file ocr_type model_type use_preprocessing
        blur_kernel threshold_method block_size c_value primary_language
        language_detection custom_dictionary processing_speed accuracy_level
        st
      = (inl (HTTPException 500
                ("OCR processing failed: "
                 ++ str_HTTPException E 400 "Invalid image file")), st)
      /\ ocr_routes.preprocess_image imencode file blur_kernel
           threshold_method block_size c_value simple_thresh_value st
         = (inl (HTTPException 500
                   ("Image preprocessing failed: "
                    ++ str_HTTPException E 400 "Invalid image file")), st))
  /\ (file_utils.validate_image_file file = true ->
      (exists image_cv, decoded file = inr image_cv) ->
      ocr_type <> "tesseract" -> ocr_type <> "trocr" ->
      fst (ocr_routes.extract_text file ocr_type model_type use_preprocessing
             blur_kernel threshold_method block_size c_value primary_language
             language_detection custom_dictionary processing_speed
             accuracy_level st)
      = inl (HTTPException 500
               ("OCR processing failed: "
                ++ str_HTTPException E 400
                     "Invalid OCR type. Use 'tesseract' or 'trocr'"))).
Proof.
  split; [|split; [|split]].
  - intros e He. apply fst_raised in He as [s' He].
    unfold ocr_routes.extract_text in He. eapply route_error, He.
  - intros e He. apply fst_raised in He as [s' He].
    unfold ocr_routes.preprocess_image in He. eapply route_error, He.
  - intros Hbad.
    unfold ocr_routes.extract_text, ocr_routes.preprocess_image.
    rewrite Hbad. split; reflexivity.
  - intros Hok [image_cv Hdec] Ht Hn.
    apply String.eqb_neq in Ht, Hn.
    unfold ocr_routes.extract_text. rewrite Hok, Hdec.
    unfold file_utils.save_uploaded_file. run_M.
    rewrite Ht, Hn. reflexivity.
Qed.

Lemma image_routes_fail_with_500_gif :
  fst (request world_ok Input "tessaract" "large-handwritten" (started true ∅))
  = inl (HTTPException 500
           "OCR processing failed: 400: Invalid OCR type. Use 'tesseract' or 'trocr'")
  /\ ocr_routes.preprocess_image (E := world_ok) (fun _ => inr "aGk=")
       (mkUploadFile world_ok (Some 2048) (Some "note.gif") (Some "image/gif")
          (inr Input)) 5 "Otsu" 11 2 127 (started false ∅)
     = (inl (HTTPException 500
               "Image preprocessing failed: 400: Invalid image file"),
        started false ∅).
Proof.
  destruct (image_routes_fail_with_500 world_ok (note_png world_ok Input)
              (fun _ => inr "aGk=") "tessaract" "large-handwritten" true 5
              "Adaptive Gaussian" 11 2 127 "eng" true "" "balanced" "high"
              (started true ∅)) as (_ & _ & _ & Htype).
  destruct (image_routes_fail_with_500 world_ok
              (mkUploadFile world_ok (Some 2048) (Some "note.gif")
                 (Some "image/gif") (inr Input))
              (fun _ => inr "aGk=") "tesseract" "large-handwritten" true 5
              "Otsu" 11 2 127 "eng" true "" "balanced" "high"
              (started false ∅)) as (_ & _ & Hbad & _).
  split.
  - apply Htype;
      [reflexivity | eexists; reflexivity | discriminate | discriminate].
  - apply Hbad. reflexivity.
Defined.

(** ** The model routes *)

Lemma bind_ret_id {A} (m : M A) s : (result ← m; mret result) s = m s.
Proof.
  unfold mbind, M_bind, mret, M_ret. destruct (m s) as [[e|a] s']; reflexivity.
Qed.

Lemma download_model_answers E mt st :
  (exists report, fst (TrOCRService.download_model E mt st) = inr report)
  \/ fst (TrOCRService.download_model E mt st) = inl KeyboardInterrupt.
Proof.
  destruct (TrOCRService.download_model E mt st) as [[e|report] s'] eqn:Hrun;
    [|left; eexists; reflexivity].
  right. cbn [fst]. f_equal.
  unfold TrOCRService.download_model in Hrun.
  eapply try_except_total; [|exact Hrun].
  intros e0 s0. run_M. eexists _, _. reflexivity.
Qed.

Lemma try_except_passes {A} (body : M A) h s :
  (exists a, fst (body s) = inr a) \/ fst (body s) = inl KeyboardInterrupt ->
  try_except body (except_Exception h) s = body s.
Proof.
  unfold try_except, except_Exception.
  destruct (body s) as [[e|a] s']; cbn [fst]; [|reflexivity].
  intros [[a [=]]|[= ->]]. reflexivity.
Qed.

Lemma download_models_run E mt st :
  ocr_routes.download_models E mt st = TrOCRService.download_model E mt st.
Proof.
  unfold ocr_routes.download_models.
  rewrite try_except_passes; rewrite bind_ret_id;
    [reflexivity | apply download_model_answers].
Qed.

Lemma force_download_models_run E mt st :
  ocr_routes.force_download_models E mt st
  = TrOCRService.download_model E mt
      (mkSt (tesseract_service st)
         (TrOCRSelf.set_status
            ("Force downloading TrOCR " ++ mt ++ " model...")
            (TrOCRSelf.set_model_loaded false (trocr_service st)))
         (fs st) (log st)).
Proof.
  unfold ocr_routes.force_download_models.
  match goal with
  | |- try_except _ ?h st = TrOCRService.download_model E mt ?reset =>
      change (try_except
                (result ← TrOCRService.download_model E mt; mret result)
                h reset
              = TrOCRService.download_model E mt reset)
  end.
  rewrite try_except_passes; rewrite bind_ret_id;
    [reflexivity | apply download_model_answers].
Qed.

(** X12. The two download routes never answer with an error status: each is
    exactly the service call it wraps (after the reset of [model_loaded] and
    [status] for the forced one), so it returns the service's report, also
    when that report says [success: false], and its own [except] branch with
    the 500 is never taken. *)
Theorem download_routes_never_500 E model_type st :
  let reset :=
    mkSt (tesseract_service st)
         (TrOCRSelf.set_status
            ("Force downloading TrOCR " ++ model_type ++ " model...")
            (TrOCRSelf.set_model_loaded false (trocr_service st)))
         (fs st) (log st) in
  ocr_routes.download_models E model_type st
  = TrOCRService.download_model E model_type st
  /\ ocr_routes.force_download_models E model_type st
     = TrOCRService.download_model E model_type reset
  /\ (forall code detail,
        fst (ocr_routes.download_models E model_type st)
        <> inl (HTTPException code detail)
        /\ fst (ocr_routes.force_download_models E model_type st)
           <> inl (HTTPException code detail)).
Proof.
  intros reset.
  split; [apply download_models_run|].
  split; [apply force_download_models_run|].
  intros code detail.
  rewrite download_models_run, force_download_models_run.
  split.
  - destruct (download_model_answers E model_type st) as [[r ->]| ->];
      discriminate.
  - match goal with
    | |- fst (TrOCRService.download_model E model_type ?s) <> _ =>
        destruct (download_model_answers E model_type s) as [[r ->]| ->]
    end; discriminate.
Qed.

(** ** The forced download and the cache *)

(** With the cache present, a catalog model that is not the loaded one and
    a usable device, the first thing [download_model] does outside the
    process is to read the processor from the cache directory. *)
Lemma download_model_starts_local E mt st :
  is_Some (TrOCRService.available_models !! mt) ->
  TrOCRSelf.model_loaded (trocr_service st)
  && TrOCRService.is_current (trocr_service st) mt = false ->
  (cuda_is_available E = true -> exists g, cuda_gpu_info E = inr g) ->
  fst (TrOCRService._check_local_model E mt (fs st)) = true ->
  grows (loads_from (TrOCRService._get_model_path E mt))
        (EvFromPretrained "TrOCRProcessor" (TrOCRService._get_model_path E mt)
         :: log st)
        (log (snd (TrOCRService.download_model E mt st))).
Proof.
  intros [info Hinfo] Hnot Hgpu Hlocal.
  unfold TrOCRService.download_model. rewrite Hinfo.
  unfold try_except at 1.
  unfold mbind at 1, M_bind at 1, gets at 1. rewrite Hnot.
  unfold mbind at 1, M_bind at 1, gets at 1.
  destruct (TrOCRService._check_local_model E mt (fs st)) as [b d] eqn:Hc.
  cbn in Hlocal. subst b.
  unfold mbind at 1, M_bind at 1, update_trocr at 1, modify at 1.
  unfold mbind at 1, M_bind at 1.
  match goal with
  | |- context [TrOCRService._load_model E mt ?s0] =>
      pose proof (load_model_starts_local E mt s0 info Hinfo Hgpu) as Hstart;
      cbn [fs log] in Hstart; rewrite Hc in Hstart;
      specialize (Hstart eq_refl);
      destruct (TrOCRService._load_model E mt s0) as [[e|[]] s1]
  end; cbn [snd] in Hstart.
  - unfold except_Exception. destruct (is_Exception e); run_M; exact Hstart.
  - run_M. exact Hstart.
Qed.

(** X13. The forced download does not force a download: when the cache of
    the model type is present, [force_download_models] writes no script,
    runs no child process and changes no file; all it does outside the
    process is to call [from_pretrained] on the cache directory.  For a
    catalog model it does make these calls, also when that very model was
    loaded already (it reloads it). *)
Theorem force_download_uses_cache E model_type st :
  fst (TrOCRService._check_local_model E model_type (fs st)) = true ->
  frame (loads_from (TrOCRService._get_model_path E model_type)) st
        (snd (ocr_routes.force_download_models E model_type st))
  /\ (is_Some (TrOCRService.available_models !! model_type) ->
      (cuda_is_available E = true -> exists g, cuda_gpu_info E = inr g) ->
      grows (loads_from (TrOCRService._get_model_path E model_type))
            (EvFromPretrained "TrOCRProcessor"
               (TrOCRService._get_model_path E model_type) :: log st)
            (log (snd (ocr_routes.force_download_models E model_type st)))).
Proof.
  intros Hlocal. rewrite force_download_models_run.
  split.
  - match goal with
    | |- frame _ _ (snd (_ _ _ ?reset)) =>
        destruct (download_model_framed_local (fs st) E model_type Hlocal
                    reset eq_refl) as (Ht & Hf & Hl)
    end.
    repeat split; assumption.
  - intros Hcat Hgpu.
    match goal with
    | |- grows _ _ (log (snd (_ _ _ ?reset))) =>
        apply (download_model_starts_local E model_type reset Hcat)
    end; [reflexivity | exact Hgpu | exact Hlocal].
Qed.

Lemma force_download_uses_cache_large :
  fs (snd (ocr_routes.force_download_models world_ok "large-handwritten"
             large_tried)) = large_cache
  /\ grows (loads_from "/srv/backend/python_ocr/trocr-large-handwritten")
       (EvFromPretrained "TrOCRProcessor"
          "/srv/backend/python_ocr/trocr-large-handwritten"
        :: log large_tried)
       (log (snd (ocr_routes.force_download_models world_ok
                    "large-handwritten" large_tried))).
Proof.
  destruct (force_download_uses_cache world_ok "large-handwritten"
              large_tried) as ((_ & Hfs & _) & Hgrows).
  - vm_compute. reflexivity.
  - split; [exact Hfs|].
    apply Hgrows; [eexists; reflexivity | discriminate].
Defined.

(** ** A cache that cannot be loaded *)

Lemma check_local_model_mono E mt (f f' : gset string) :
  f ⊆ f' ->
  fst (TrOCRService._check_local_model E mt f) = true ->
  fst (TrOCRService._check_local_model E mt f') = true.
Proof.
  intros Hsub. rewrite !check_local_model_present.
  intros [Hdir Hfiles]. split; [set_solver|].
  eapply Forall_impl; [exact Hfiles|]. cbn. set_solver.
Qed.

Lemma load_model_returns E mt s e s' :
  TrOCRService._load_model E mt s = (inl e, s') -> e = KeyboardInterrupt.
Proof.
  intros H. destruct (load_model_outcome E mt s) as ([Hr|Hr] & _);
    rewrite H in Hr; cbn [fst] in Hr; congruence.
Qed.

Lemma load_model_not_loaded E mt s s' :
  TrOCRService._load_model E mt s = (inr tt, s') ->
  TrOCRSelf.model_loaded (trocr_service s') = false ->
  exists cause,
    TrOCRSelf.status (trocr_service s')
    = "Error loading TrOCR " ++ mt ++ " model: " ++ cause.
Proof.
  intros H Hfalse. destruct (load_model_outcome E mt s) as (_ & Hret & _).
  rewrite H in Hret. cbn [fst snd] in Hret.
  destruct (Hret eq_refl) as [(Htrue & _)|(_ & Hcause)];
    [congruence | exact Hcause].
Qed.

(** With the cache present, every report of [download_model] for a catalog
    model says success. *)
Lemma download_model_cached_report E mt st report st' :
  is_Some (TrOCRService.available_models !! mt) ->
  fst (TrOCRService._check_local_model E mt (fs st)) = true ->
  TrOCRService.download_model E mt st = (inr report, st') ->
  Report.success report = true
  /\ (TrOCRSelf.model_loaded (trocr_service st') = false ->
      Report.message report = "Model " ++ mt ++ " loaded from local cache"
      /\ exists cause,
           Report.status report
           = "Error loading TrOCR " ++ mt ++ " model: " ++ cause).
Proof.
  intros [info Hinfo] Hlocal.
  unfold TrOCRService.download_model. rewrite Hinfo.
  unfold try_except.
  unfold mbind at 1, M_bind at 1, gets at 1.
  destruct (TrOCRSelf.model_loaded (trocr_service st)
            && TrOCRService.is_current (trocr_service st) mt) eqn:Hcur.
  { run_M. intros [= <- <-]. split; [reflexivity|].
    apply andb_true_iff in Hcur as [Hl _]. congruence. }
  unfold mbind at 1, M_bind at 1, gets at 1.
  destruct (TrOCRService._check_local_model E mt (fs st)) as [b d].
  cbn in Hlocal. subst b.
  unfold mbind at 1, M_bind at 1, update_trocr at 1, modify at 1.
  unfold mbind at 1, M_bind at 1.
  match goal with
  | |- context [TrOCRService._load_model E mt ?s0] =>
      destruct (TrOCRService._load_model E mt s0) as [[e|[]] s1] eqn:Hload
  end.
  - apply load_model_returns in Hload as ->. cbn. discriminate.
  - run_M. intros [= <- <-]. split; [reflexivity|].
    intros Hfalse. split; [reflexivity|].
    cbn [Report.status]. eapply load_model_not_loaded; eassumption.
Qed.

(** ** Running a route step by step *)

Lemma try_except_raise_run {A} (body : M A) f s :
  try_except body (except_Exception (fun e => raise (f e))) s
  = (match fst (body s) with
     | inl e => inl (if is_Exception e then f e else e)
     | inr a => inr a
     end, snd (body s)).
Proof.
  unfold try_except, except_Exception, raise.
  destruct (body s) as [[e|a] s']; cbn [fst snd]; [|reflexivity].
  destruct (is_Exception e); reflexivity.
Qed.

Lemma bind_run {A B} (m : M A) (k : A -> M B) s a s1 :
  m s = (inr a, s1) -> (m ≫= k) s = k a s1.
Proof. unfold mbind, M_bind. intros ->. reflexivity. Qed.

Lemma bind_raises {A B} (m : M A) (k : A -> M B) s e s1 :
  m s = (inl e, s1) -> (m ≫= k) s = (inl e, s1).
Proof. unfold mbind, M_bind. intros ->. reflexivity. Qed.

Lemma bind_then_pure {A B} (m : M A) (k : A -> M B) s :
  (forall a s1, snd (k a s1) = s1) ->
  snd ((m ≫= k) s) = snd (m s)
  /\ (forall e, fst (m s) = inl e -> fst ((m ≫= k) s) = inl e).
Proof.
  intros Hk. unfold mbind, M_bind.
  destruct (m s) as [[e|a] s1]; cbn [fst snd].
  - split; [reflexivity | intros e0 [= ->]; reflexivity].
  - split; [apply Hk | discriminate].
Qed.

Lemma save_uploaded_file_run {E : Env} (file : UploadFile E) s :
  file_utils.save_uploaded_file file s = (inr (upload_path file), saved file s).
Proof. reflexivity. Qed.

Lemma trocr_extract_not_loaded (E : Env) (image : ndarray E)
    use_preprocessing bk tm bs cv speed acc st :
  TrOCRSelf.model_loaded (trocr_service st) = false ->
  TrOCRService.extract_text E image use_preprocessing bk tm bs cv speed acc st
  = (inl (Exception "TrOCR model not properly loaded"), st).
Proof.
  intros Hf. unfold TrOCRService.extract_text.
  unfold mbind, M_bind, gets. rewrite Hf. reflexivity.
Qed.

Lemma trocr_extract_keeps_service (E : Env) (image : ndarray E)
    use_preprocessing bk tm bs cv speed acc st :
  trocr_service
    (snd (TrOCRService.extract_text E image use_preprocessing bk tm bs cv
            speed acc st))
  = trocr_service st.
Proof.
  destruct (trocr_extract_calm E image use_preprocessing bk tm bs cv speed acc
              st) as (_ & H & _).
  exact H.
Qed.

(** X14. A cache that is present but cannot be loaded is reported as a
    success and never leads to the Tesseract fallback.  With the cache of a
    catalog model present, every report [download_model] returns says
    [success: true]; if the model is not loaded afterwards, the message
    still says "loaded from local cache" and only the status field carries
    the load error.  A request for the neural engine that ends with no model
    loaded is then answered with the 500 error "TrOCR model not properly
    loaded" (or interrupted), not with Tesseract's reading. *)
Theorem cached_load_failure_reported_as_success (E : Env)
    (file : UploadFile E) image_cv model_type use_preprocessing blur_kernel
    threshold_method block_size c_value primary_language language_detection
    custom_dictionary processing_speed accuracy_level st :
  is_Some (TrOCRService.available_models !! model_type) ->
  fst (TrOCRService._check_local_model E model_type (fs st)) = true ->
  (forall report st',
     TrOCRService.download_model E model_type st = (inr report, st') ->
     Report.success report = true
     /\ (TrOCRSelf.model_loaded (trocr_service st') = false ->
         Report.message report
         = "Model " ++ model_type ++ " loaded from local cache"
         /\ exists cause,
              Report.status report
              = "Error loading TrOCR " ++ model_type ++ " model: " ++ cause))
  /\ (file_utils.validate_image_file file = true ->
      decoded file = inr image_cv ->
      TrOCRSelf.model_loaded
        (trocr_service
           (snd (ocr_routes.extract_text file "trocr" model_type
                   use_preprocessing blur_kernel threshold_method block_size
                   c_value primary_language language_detection
                   custom_dictionary processing_speed accuracy_level st)))
      = false ->
      fst (ocr_routes.extract_text file "trocr" model_type use_preprocessing
             blur_kernel threshold_method block_size c_value primary_language
             language_detection custom_dictionary processing_speed
             accuracy_level st)
      = inl (HTTPException 500
               "OCR processing failed: TrOCR model not properly loaded")
      \/ fst (ocr_routes.extract_text file "trocr" model_type
                use_preprocessing blur_kernel threshold_method block_size
                c_value primary_language language_detection custom_dictionary
                processing_speed accuracy_level st)
         = inl KeyboardInterrupt).
Proof.
  intros Hcat Hlocal. split.
  { intros report st'. apply download_model_cached_report; assumption. }
  intros Hok Hdec.
  remember (ocr_routes.extract_text file "trocr" model_type use_preprocessing
              blur_kernel threshold_method block_size c_value
              primary_language language_detection custom_dictionary
              processing_speed accuracy_level st) as r eqn:Hr.
  unfold ocr_routes.extract_text in Hr.
  rewrite try_except_raise_run, Hok, Hdec in Hr. cbn [negb] in Hr.
  rewrite (bind_run (lift (inr image_cv)) _ st image_cv st eq_refl) in Hr.
  rewrite (bind_run _ _ _ _ _ (save_uploaded_file_run file st)) in Hr.
  change ("trocr" =? "tesseract")%string with false in Hr.
  change ("trocr" =? "trocr")%string with true in Hr.
  cbv iota in Hr. subst r. cbn [fst snd].
  match goal with
  | |- context [(?m ≫= ?k) (saved file st)] => set (eng := m); set (respond := k)
  end.
  destruct (bind_then_pure eng respond (saved file st)) as [Hsnd Hfst].
  { intros a s1. unfold respond, ocr_routes.getitem.
    destruct (a !! "text"); reflexivity. }
  rewrite Hsnd. intros Hfalse.
  assert (Hlocal' : fst (TrOCRService._check_local_model E model_type
                           (fs (saved file st))) = true).
  { eapply check_local_model_mono; [|exact Hlocal]. cbn. set_solver. }
  assert (Heng : fst (eng (saved file st))
                 = inl (Exception "TrOCR model not properly loaded")
                 \/ fst (eng (saved file st)) = inl KeyboardInterrupt).
  { revert Hfalse. unfold eng.
    rewrite (bind_run (gets trocr_service) _ (saved file st)
               (trocr_service st) (saved file st) eq_refl).
    destruct (negb (TrOCRSelf.model_loaded (trocr_service st))
              || negb (TrOCRService.is_current (trocr_service st) model_type)).
    - destruct (TrOCRService.download_model E model_type (saved file st))
        as [[e|report] s2] eqn:Hd.
      + rewrite (bind_raises _ _ _ _ _ Hd). intros _. right. cbn [fst].
        destruct (download_model_answers E model_type (saved file st))
          as [[r Hr]|Hr]; rewrite Hd in Hr; cbn [fst] in Hr; congruence.
      + rewrite (bind_run _ _ _ _ _ Hd).
        destruct (download_model_cached_report E model_type _ _ _ Hcat
                    Hlocal' Hd) as [-> _].
        cbn [negb]. rewrite trocr_extract_keeps_service. intros Hfalse.
        rewrite trocr_extract_not_loaded by exact Hfalse.
        left. reflexivity.
    - rewrite trocr_extract_keeps_service. intros Hfalse.
      rewrite trocr_extract_not_loaded by exact Hfalse.
      left. reflexivity. }
  destruct Heng as [He|He]; rewrite (Hfst _ He); [left|right]; reflexivity.
Qed.

Lemma cached_load_failure_reported_as_success_corrupt :
  fst request_corrupt
  = inl (HTTPException 500
           "OCR processing failed: TrOCR model not properly loaded")
  \/ fst request_corrupt = inl KeyboardInterrupt.
Proof.
  destruct (cached_load_failure_reported_as_success world_corrupt
              (note_png world_corrupt Input) Input "large-handwritten" true 5
              "Adaptive Gaussian" 11 2 "eng" true "" "balanced" "high"
              (started true large_cache)) as [_ Hroute].
  - eexists. reflexivity.
  - vm_compute. reflexivity.
  - apply Hroute; [reflexivity | reflexivity | vm_compute; reflexivity].
Defined.

(** ** Requests that need no model to be loaded *)

Lemma grows_weaken (P Q : event -> Prop) old now :
  (forall ev, P ev -> Q ev) -> grows P old now -> grows Q old now.
Proof. intros HPQ H. induction H; constructor; auto. Qed.

Lemma calm_weaken (P Q : event -> Prop) s s' :
  (forall ev, P ev -> Q ev) -> calm P s s' -> calm Q s s'.
Proof.
  intros HPQ (Ht & Hr & Hf & Hl). repeat split; try assumption.
  eapply grows_weaken; eassumption.
Qed.

Lemma served_refl s : served s s.
Proof.
  repeat split; [set_solver | intros p Hp; left; exact Hp | constructor].
Qed.

Lemma prefix_append a b : String.prefix a (a ++ b) = true.
Proof.
  induction a as [|c a IH]; [destruct b; reflexivity|].
  change (String c a ++ b) with (String c (a ++ b)). cbn [String.prefix].
  destruct (Ascii.ascii_dec c c); [exact IH | contradiction].
Qed.

Lemma under_below dir name : under dir (path_join dir name) = true.
Proof.
  unfold under, path_join. apply orb_true_iff. right.
  induction dir as [|c dir IH]; [exact (prefix_append "/" name)|].
  change (String.prefix (String c (dir ++ "/")) (String c (dir ++ "/" ++ name))
          = true).
  cbn [String.prefix].
  destruct (Ascii.ascii_dec c c); [exact IH | contradiction].
Qed.

(** Storing the upload and then making only engine calls is [served]. *)
Lemma served_saved {E : Env} (file : UploadFile E) s s' :
  calm request_call (saved file s) s' -> served s s'.
Proof.
  intros (Ht & Hr & Hf & Hl). unfold served.
  rewrite Ht, Hr, Hf. cbn [saved fs tesseract_service trocr_service log] in *.
  repeat split.
  - intros p Hp. apply elem_of_union_r, elem_of_union_r, Hp.
  - intros p Hp. apply elem_of_union in Hp as [Hp|Hp].
    + apply elem_of_singleton in Hp as ->. right. apply under_below.
    + apply elem_of_union in Hp as [Hp|Hp]; [|left; exact Hp].
      apply elem_of_singleton in Hp as ->. right. reflexivity.
  - eapply grows_trans; [|exact Hl].
    constructor; [exact I | constructor].
Qed.

(** X15. A request that needs no model to be loaded (one for the
    deterministic engine, or any request while the requested model is the
    loaded one) leaves both service objects as they were, removes no file,
    adds files only at or below the uploads directory, and calls nothing but
    the storing of the upload, OpenCV, Tesseract and the loaded model: in
    particular it starts no download and loads nothing.  If the upload
    passes validation and can be decoded it is stored, and it is still there
    when the request ends, whether the extraction worked or failed. *)
Theorem light_request_touches_nothing (E : Env) (file : UploadFile E)
    ocr_type model_type use_preprocessing blur_kernel threshold_method
    block_size c_value primary_language language_detection custom_dictionary
    processing_speed accuracy_level st :
  ocr_type = "tesseract"
  \/ (TrOCRSelf.model_loaded (trocr_service st) = true
      /\ TrOCRService.is_current (trocr_service st) model_type = true) ->
  served st
    (snd (ocr_routes.extract_text file ocr_type model_type use_preprocessing
            blur_kernel threshold_method block_size c_value primary_language
            language_detection custom_dictionary processing_speed
            accuracy_level st))
  /\ (file_utils.validate_image_file file = true ->
      (exists image_cv, decoded file = inr image_cv) ->
      upload_path file
      ∈ fs (snd (ocr_routes.extract_text file ocr_type model_type
                   use_preprocessing blur_kernel threshold_method block_size
                   c_value primary_language language_detection
                   custom_dictionary processing_speed accuracy_level st))).
Proof.
  intros Hlight.
  unfold ocr_routes.extract_text. rewrite try_except_raise_run. cbn [snd].
  destruct (file_utils.validate_image_file file); cbn [negb];
    [|split; [apply served_refl | discriminate]].
  destruct (decoded file) as [e|image_cv];
    [split; [apply served_refl | intros _ [? [=]]]|].
  rewrite (bind_run (lift (inr image_cv)) _ st image_cv st eq_refl).
  rewrite (bind_run _ _ _ _ _ (save_uploaded_file_run file st)).
  match goal with
  | |- context [(?m ≫= ?k) (saved file st)] => set (eng := m); set (respond := k)
  end.
  destruct (bind_then_pure eng respond (saved file st)) as [-> _].
  { intros a s1. unfold respond, ocr_routes.getitem.
    destruct (a !! "text"); reflexivity. }
  assert (Htess : forall s,
            calm request_call s
              (snd (TesseractService.extract_text E image_cv use_preprocessing
                      blur_kernel threshold_method block_size c_value
                      processing_speed accuracy_level s))).
  { intros s. eapply calm_weaken; [|apply tesseract_extract_calm].
    intros []; cbn; tauto. }
  assert (Hcalm : calm request_call (saved file st) (snd (eng (saved file st)))).
  { unfold eng. destruct Hlight as [-> | [Hl Hc]].
    - change ("tesseract" =? "tesseract")%string with true. cbv iota.
      apply Htess.
    - destruct (ocr_type =? "tesseract")%string; [apply Htess|].
      destruct (ocr_type =? "trocr")%string; [|apply calm_refl].
      rewrite (bind_run (gets trocr_service) _ (saved file st)
                 (trocr_service st) (saved file st) eq_refl).
      rewrite Hl, Hc. cbn [negb orb].
      eapply calm_weaken; [|apply trocr_extract_calm].
      intros []; cbn; tauto. }
  split; [apply (served_saved file), Hcalm|].
  intros _ _. destruct Hcalm as (_ & _ & -> & _).
  cbn [saved fs]. apply elem_of_union_l, elem_of_singleton. reflexivity.
Qed.

Lemma light_request_touches_nothing_tesseract :
  trocr_service
    (snd (request world_ok Input "tesseract" "large-handwritten"
            (started false ∅))) = TrOCRSelf.init
  /\ "uploads/0b5c.png"
     ∈ fs (snd (request world_ok Input "tesseract" "large-handwritten"
                  (started false ∅))).
Proof.
  destruct (light_request_touches_nothing world_ok (note_png world_ok Input)
              "tesseract" "large-handwritten" true 5 "Adaptive Gaussian" 11 2
              "eng" true "" "balanced" "high" (started false ∅))
    as ((_ & Hservice & _) & Hstored).
  - left. reflexivity.
  - split; [exact Hservice|].
    apply Hstored; [reflexivity | eexists; reflexivity].
Defined.

(** ** An invariant of the TrOCR service object *)

Lemma keeps_refl I s : keeps I s s.
Proof. intros H. exact H. Qed.

Lemma keeps_trans I s1 s2 s3 : keeps I s1 s2 -> keeps I s2 s3 -> keeps I s1 s3.
Proof. unfold keeps. auto. Qed.

Lemma keeps_emit I ev : respects (keeps I) (emit ev).
Proof. unfold emit. apply respects_modify. intros s H. exact H. Qed.

Lemma keeps_set_fs I f : respects (keeps I) (set_fs f).
Proof. unfold set_fs. apply respects_modify. intros s H. exact H. Qed.

Lemma keeps_set_status v :
  respects (keeps consistent) (update_trocr (TrOCRSelf.set_status v)).
Proof.
  unfold update_trocr. apply respects_modify. intros s H. exact H.
Qed.

Lemma keeps_unloaded :
  respects (keeps consistent) (update_trocr (TrOCRSelf.set_model_loaded false)).
Proof.
  unfold update_trocr. apply respects_modify. intros s [_ Hn].
  split; [intros Hl; discriminate Hl | exact Hn].
Qed.

Lemma keeps_calm I P s s' : calm P s s' -> keeps I s s'.
Proof. intros (_ & Hr & _) H. rewrite Hr. exact H. Qed.

Lemma keeps_tesseract I (E : Env) (image : ndarray E) use_preprocessing bk tm
    bs cv speed acc :
  respects (keeps I)
    (TesseractService.extract_text E image use_preprocessing bk tm bs cv speed
       acc).
Proof. intros s. eapply keeps_calm, tesseract_extract_calm. Qed.

Lemma keeps_trocr I (E : Env) (image : ndarray E) use_preprocessing bk tm bs
    cv speed acc :
  respects (keeps I)
    (TrOCRService.extract_text E image use_preprocessing bk tm bs cv speed acc).
Proof. intros s. eapply keeps_calm, trocr_extract_calm. Qed.

(** Loading keeps the object consistent, however it ends. *)
Lemma keeps_load_model E mt :
  respects (keeps consistent) (TrOCRService._load_model E mt).
Proof.
  intros st.
  unfold TrOCRService._load_model, TrOCRService.load_from.
  destruct (TrOCRService.available_models !! mt) as [[repo size]|] eqn:Hinfo;
  destruct (TrOCRService._check_local_model E mt (fs st)) as [[] d] eqn:Hc;
  destruct (cuda_is_available E);
    try destruct (cuda_gpu_info E) as [e0|gpu];
    run_M; rewrite ?Hc; trocr_simpl;
    repeat case_answer.
  all: intros [Hu Hn]; split.
  all: unfold usable, named in *; trocr_simpl.
  all: try (intros Hl; try discriminate Hl;
            try (destruct (Hu Hl) as (Hp & Hm & Hd & Hcur));
            repeat split;
            first [ assumption | solve [eauto]
                  | left; reflexivity | right; reflexivity
                  | eexists; split; [reflexivity | rewrite Hinfo; eauto] ]).
  all: first [ exact Hn
             | right; eexists; split; [reflexivity | rewrite Hinfo; eauto] ].
Qed.

(** One syntax-directed step of a [respects (keeps consistent)]
    derivation. *)
Ltac keeps_step :=
  first
    [ apply respects_ret; apply keeps_refl
    | apply respects_raise; apply keeps_refl
    | apply respects_lift; apply keeps_refl
    | apply respects_gets; apply keeps_refl
    | apply keeps_emit | apply keeps_set_fs
    | apply keeps_set_status | apply keeps_unloaded
    | apply keeps_load_model | apply keeps_tesseract | apply keeps_trocr
    | apply respects_except_Exception; [apply keeps_trans | | intros ?]
    | apply respects_bind; [apply keeps_trans | | intros ?]
    | match goal with
      | |- respects _ (if ?b then _ else _) => destruct b eqn:?
      | |- respects _ (match ?x with _ => _ end) => destruct x eqn:?
      end
    | progress cbv beta zeta ].

Lemma keeps_download_failed temp msg :
  respects (keeps consistent) (TrOCRService.download_failed temp msg).
Proof.
  unfold TrOCRService.download_failed, TrOCRService.remove_if_exists.
  repeat keeps_step.
Qed.

Lemma keeps_run_download E mt cwd temp :
  respects (keeps consistent) (TrOCRService.run_download E mt cwd temp).
Proof.
  unfold TrOCRService.run_download.
  apply respects_try_except; [apply keeps_trans | |].
  - unfold TrOCRService.run, TrOCRService.remove_if_exists.
    repeat keeps_step.
  - intros e h Hh.
    destruct e; injection Hh as <-; apply keeps_download_failed.
Qed.

Lemma keeps_download_model E mt :
  respects (keeps consistent) (TrOCRService.download_model E mt).
Proof.
  unfold TrOCRService.download_model, TrOCRService.write_file.
  repeat first [ apply keeps_run_download | keeps_step ].
Qed.

(** Every route keeps the object consistent. *)
Lemma keeps_route_step E s s' :
  route_step E s s' -> keeps consistent s s'.
Proof.
  intros [file ocr_type model_type use_preprocessing blur_kernel
            threshold_method block_size c_value primary_language
            language_detection custom_dictionary processing_speed
            accuracy_level
         | imencode file blur_kernel threshold_method block_size c_value
             simple_thresh_value
         | model_type | model_type | | files].
  - revert s.
    change (respects (keeps consistent)
              (ocr_routes.extract_text file ocr_type model_type
                 use_preprocessing blur_kernel threshold_method block_size
                 c_value primary_language language_detection
                 custom_dictionary processing_speed accuracy_level)).
    unfold ocr_routes.extract_text, file_utils.save_uploaded_file,
      ocr_routes.getitem.
    repeat first [ apply keeps_download_model | keeps_step ].
  - revert s.
    change (respects (keeps consistent)
              (ocr_routes.preprocess_image imencode file blur_kernel
                 threshold_method block_size c_value simple_thresh_value)).
    unfold ocr_routes.preprocess_image, run_cv.
    repeat keeps_step.
  - revert s.
    change (respects (keeps consistent)
              (ocr_routes.download_models E model_type)).
    unfold ocr_routes.download_models.
    repeat first [ apply keeps_download_model | keeps_step ].
  - revert s.
    change (respects (keeps consistent)
              (ocr_routes.force_download_models E model_type)).
    unfold ocr_routes.force_download_models.
    repeat first [ apply keeps_download_model | keeps_step ].
  - revert s.
    change (respects (keeps consistent) (ocr_routes.clear_model_cache E)).
    unfold ocr_routes.clear_model_cache.
    repeat keeps_step.
  - intros H. exact H.
Qed.

Lemma catalog_repo mt repo size :
  TrOCRService.available_models !! mt = Some (repo, size) ->
  mt <> "" /\ repo <> "Unknown".
Proof.
  intros H.
  apply (elem_of_list_to_map_2 TrOCRService.available_items) in H.
  unfold TrOCRService.available_items in H.
  repeat (apply elem_of_cons in H as [[= -> -> ->]|H];
          [split; discriminate|]).
  apply elem_of_nil in H. contradiction.
Qed.

(** X16. In every state the process can reach from start-up, by any
    sequence of route calls with any arguments and any outcomes of the
    library calls, and with the files changing in between, the TrOCR service
    object is consistent: if [model_loaded] is true then a processor, a
    model and a device ("cuda" or "cpu") are set and the current model type
    is a catalog key; the current model type is never a key outside the
    catalog.  So [get_status] never reports "Unknown" as the model
    repository, and never "Unknown" as the device of a loaded model. *)
Theorem reachable_service_consistent E s :
  reachable E s ->
  let status := TrOCRService.get_status E (trocr_service s) (fs s) in
  usable (trocr_service s)
  /\ named (trocr_service s)
  /\ Status.model_repo status <> "Unknown"
  /\ (Status.loaded status = true -> Status.device status <> "Unknown").
Proof.
  intros Hreach.
  assert (Hcons : consistent (trocr_service s)).
  { induction Hreach as [tesseract files | s s' _ IH Hstep].
    - split; [intros Hl; discriminate Hl | left; reflexivity].
    - eapply keeps_route_step; eassumption. }
  destruct Hcons as [Hu Hn]. cbv zeta.
  split; [exact Hu|]. split; [exact Hn|]. split.
  - unfold TrOCRService.get_status. cbn [Status.model_repo].
    destruct Hn as [-> | (mt & -> & [[repo size] Hinfo])]; [discriminate|].
    destruct (catalog_repo mt repo size Hinfo) as [Hmt Hrepo].
    apply String.eqb_neq in Hmt. rewrite Hmt, Hinfo. exact Hrepo.
  - unfold TrOCRService.get_status. cbn [Status.loaded Status.device].
    intros Hl. destruct (Hu Hl) as (_ & _ & [-> | ->] & _); discriminate.
Qed.

Lemma reachable_service_consistent_large :
  named (trocr_service large_tried)
  /\ Status.model_repo
       (TrOCRService.get_status world_ok (trocr_service large_tried)
          (fs large_tried))
     <> "Unknown".
Proof.
  assert (Hreach : reachable world_ok large_tried).
  { assert (Heq : snd (ocr_routes.download_models world_ok "large-handwritten"
                         (mkSt (TesseractSelf.mk true "Ready") TrOCRSelf.init
                            large_cache []))
                  = large_tried) by (vm_compute; reflexivity).
    rewrite <- Heq.
    eapply reachable_step; [apply reachable_start | apply step_download_models]. }
  destruct (reachable_service_consistent world_ok large_tried Hreach)
    as (_ & Hn & Hrepo & _).
  split; [exact Hn | exact Hrepo].
Defined.

(** ** [file_utils.py] *)

Lemma filter_twice {A} (f : A -> bool) l :
  List.filter f (List.filter f l) = List.filter f l.
Proof.
  induction l as [|a l IH]; [reflexivity|].
  cbn. destruct (f a) eqn:Hfa; [|exact IH].
  cbn. rewrite Hfa, IH. reflexivity.
Qed.

Lemma filter_sublist {A} (f : A -> bool) l : sublist (List.filter f l) l.
Proof.
  induction l as [|a l IH]; [constructor|].
  cbn. destruct (f a); constructor; exact IH.
Qed.

(** X17. [cleanup_old_files], every removal succeeding, removes exactly the
    regular files of the uploads directory whose age, as the float
    subtraction [current_time - st_mtime] computes it, is above
    [max_age_hours]: an entry is left if and only if it was there and is not
    such a file (so directories and younger files stay, and a file whose
    computed age is exactly the limit stays, also when rounding brought it
    there); the entries that are left keep their order; running it again at
    the same time removes nothing more; and it does nothing when the
    directory does not exist. *)
Theorem cleanup_removes_only_old_files float_sub current_time entries
    max_age_hours :
  exists kept,
    file_utils.cleanup_old_files float_sub current_time (Some entries)
      max_age_hours
    = Some kept
    /\ (forall x, In x kept
                  <-> In x entries
                      /\ ~ expired float_sub current_time max_age_hours x)
    /\ sublist kept entries
    /\ file_utils.cleanup_old_files float_sub current_time (Some kept)
         max_age_hours
       = Some kept
    /\ file_utils.cleanup_old_files float_sub current_time None max_age_hours
       = None.
Proof.
  unfold file_utils.cleanup_old_files. eexists. split; [reflexivity|].
  split; [|split; [apply filter_sublist|split; [|reflexivity]]].
  - intros x. rewrite filter_In. unfold expired.
    destruct (file_utils.is_file x).
    + rewrite Qle_bool_iff. split.
      * intros [Hin Hle]. split; [exact Hin|].
        intros [_ Hlt]. apply (Qlt_not_le _ _ Hlt), Hle.
      * intros [Hin Hnot]. split; [exact Hin|].
        apply Qnot_lt_le. intros Hlt. apply Hnot. split; [reflexivity|exact Hlt].
    + split; intros [Hin _]; (split; [exact Hin|]);
        [intros [Hf _]; discriminate Hf | reflexivity].
  - rewrite filter_twice. reflexivity.
Qed.

Lemma mem_In x l : file_utils.mem x l = true <-> In x l.
Proof.
  unfold file_utils.mem. rewrite existsb_exists. split.
  - intros (y & Hy & Heq). apply String.eqb_eq in Heq as ->. exact Hy.
  - intros Hx. exists x. split; [exact Hx | apply String.eqb_refl].
Qed.

(** X18. What validation lets through is stored under a name of the
    server's own making: for an upload that passed [validate_image_file] and
    has a file name, [save_uploaded_file] returns and writes exactly the
    path "uploads/" + uuid + the lower-cased suffix of that name, the suffix
    is one of the allowed extensions, the declared content type (if any) is
    an allowed image type and the declared size (if any) is at most 10 MB;
    nothing else of the client's file name reaches the file system. *)
Theorem stored_name_has_allowed_extension (E : Env) (file : UploadFile E)
    name st :
  file_utils.validate_image_file file = true ->
  filename file = Some name -> name <> "" ->
  file_utils.save_uploaded_file file st
  = (inr ("uploads/" ++ uuid4 E ++ path_suffix_lower E name),
     mkSt (tesseract_service st) (trocr_service st)
          ({["uploads/" ++ uuid4 E ++ path_suffix_lower E name]}
           ∪ ({["uploads"]} ∪ fs st))
          (EvSaveUpload ("uploads/" ++ uuid4 E ++ path_suffix_lower E name)
           :: log st))
  /\ In (path_suffix_lower E name) file_utils.ALLOWED_EXTENSIONS
  /\ (forall ct, content_type file = Some ct -> ct <> "" ->
      In ct file_utils.ALLOWED_IMAGE_TYPES)
  /\ (forall n, size file = Some n -> n <= file_utils.MAX_FILE_SIZE).
Proof.
  intros Hvalid Hname Hne. apply String.eqb_neq in Hne.
  unfold file_utils.validate_image_file in Hvalid.
  rewrite Hname, Hne in Hvalid. cbn [negb andb] in Hvalid.
  split; [|split; [|split]].
  - unfold file_utils.save_uploaded_file, file_utils.generate_unique_filename,
      file_utils.filename_or.
    rewrite Hname, Hne. reflexivity.
  - apply mem_In.
    destruct (file_utils.mem (path_suffix_lower E name)
                file_utils.ALLOWED_EXTENSIONS); [reflexivity|].
    destruct (match size file with Some _ => _ | None => _ end);
      discriminate Hvalid.
  - intros ct Hct Hctne. apply String.eqb_neq in Hctne.
    rewrite Hct, Hctne in Hvalid. cbn [negb andb] in Hvalid.
    apply mem_In.
    destruct (file_utils.mem ct file_utils.ALLOWED_IMAGE_TYPES);
      [reflexivity|].
    destruct (match size file with Some _ => _ | None => _ end);
      [discriminate Hvalid|].
    destruct (negb _); discriminate Hvalid.
  - intros n Hn. rewrite Hn in Hvalid.
    destruct (n =? 0) eqn:Hz; [apply Z.eqb_eq in Hz; subst n; discriminate|].
    cbn [negb andb] in Hvalid.
    destruct (file_utils.MAX_FILE_SIZE <? n) eqn:Hlt;
      [discriminate Hvalid|].
    apply Z.ltb_ge, Hlt.
Qed.

Lemma stored_name_has_allowed_extension_png :
  fst (file_utils.save_uploaded_file (note_png world_ok Input)
         (started true ∅)) = inr "uploads/0b5c.png"
  /\ In ".png" file_utils.ALLOWED_EXTENSIONS.
Proof.
  destruct (stored_name_has_allowed_extension world_ok
              (note_png world_ok Input) "note.png" (started true ∅))
    as (Hrun & Hext & _).
  - reflexivity.
  - reflexivity.
  - discriminate.
  - split; [rewrite Hrun; reflexivity | exact Hext].
Defined.

(** ** The bodies the image routes answer with *)

(** X19. A body returned by [extract_text] has exactly the nine keys
    [success], [text], [confidence], [processing_time], [file_path],
    [ocr_type], [model_type], [preprocessing_used] and [settings_used].  The
    upload had passed validation and the OCR type is one of the two engines;
    [file_path] is the path the upload was stored under; [model_type] is the
    requested type for the neural engine and null otherwise; and
    [settings_used] echoes the nine settings of the request as the caller
    sent them (also the four preprocessing values the deterministic engine
    replaces by its presets). *)
Theorem response_echoes_caller_settings
    (E : Env) (file : UploadFile E) ocr_type model_type use_preprocessing
    blur_kernel threshold_method block_size c_value primary_language
    language_detection custom_dictionary processing_speed accuracy_level
    st body st' :
  ocr_routes.extract_text file ocr_type model_type use_preprocessing
    blur_kernel threshold_method block_size c_value primary_language
    language_detection custom_dictionary processing_speed accuracy_level st
  = (inr body, st') ->
  file_utils.validate_image_file file = true
  /\ (ocr_type = "tesseract" \/ ocr_type = "trocr")
  /\ dom body = response_keys
  /\ body !! "success" = Some (VBool true)
  /\ body !! "file_path" = Some (VStr (upload_path file))
  /\ body !! "ocr_type" = Some (VStr ocr_type)
  /\ body !! "model_type"
     = Some (if String.eqb ocr_type "trocr" then VStr model_type else VNone)
  /\ body !! "preprocessing_used" = Some (VBool use_preprocessing)
  /\ body !! "settings_used"
     = Some (VDict (settings_used primary_language language_detection
                      custom_dictionary processing_speed accuracy_level
                      blur_kernel threshold_method block_size c_value)).
Proof.
  unfold ocr_routes.extract_text. intros H.
  apply try_except_returns in H.
  destruct (file_utils.validate_image_file file); [|discriminate H].
  split; [reflexivity|]. cbn [negb] in H.
  apply bind_returns in H as (image_cv & s1 & _ & H).
  apply bind_returns in H as (file_path & s2 & Hsave & H).
  rewrite save_uploaded_file_run in Hsave. injection Hsave as <- _.
  apply bind_returns in H as (result & s3 & Hengine & H).
  apply bind_returns in H as (text & s4 & _ & H).
  injection H as <- _.
  split.
  { destruct (String.eqb_spec ocr_type "tesseract") as [->|_];
      [left; reflexivity|].
    destruct (String.eqb_spec ocr_type "trocr") as [->|_];
      [right; reflexivity | discriminate Hengine]. }
  split.
  { rewrite !dom_insert_L, dom_empty_L. unfold response_keys. set_solver. }
  repeat split;
    rewrite ?lookup_insert_ne by discriminate; apply lookup_insert_eq.
Qed.

Lemma response_echoes_caller_settings_ok :
  returned
    (request world_ok Input "tesseract" "large-handwritten" (started true ∅))
  !! "settings_used"
  = Some (VDict (settings_used "eng" true "" "balanced" "high" 5
                   "Adaptive Gaussian" 11 2))
  /\ returned
       (request world_ok Input "tesseract" "large-handwritten"
          (started true ∅)) !! "model_type" = Some VNone.
Proof.
  assert (Hrun :
    request world_ok Input "tesseract" "large-handwritten" (started true ∅)
    = (inr (returned
              (request world_ok Input "tesseract" "large-handwritten"
                 (started true ∅))),
       snd (request world_ok Input "tesseract" "large-handwritten"
              (started true ∅))))
    by (vm_compute; reflexivity).
  destruct (response_echoes_caller_settings world_ok
              (note_png world_ok Input) "tesseract" "large-handwritten" true 5
              "Adaptive Gaussian" 11 2 "eng" true "" "balanced" "high"
              (started true ∅) _ _ Hrun)
    as (_ & _ & _ & _ & _ & _ & Hm & _ & Hs).
  split; [exact Hs | exact Hm].
Defined.

(** X20. [preprocess_image] (the route) runs the pipeline of the caller's
    own five parameters and nothing else: it changes neither service object
    nor any file, and needs no initialised Tesseract.  A body it returns has
    exactly the keys [success], [processed_image] and [settings]; the upload
    had passed validation and was decoded, the pipeline and the PNG encoding
    succeeded, [processed_image] is the data URL of the encoded result, and
    [settings] echoes the five parameters. *)
Theorem preprocess_route_contract (E : Env)
    (imencode : ndarray E -> exn + string) (file : UploadFile E)
    blur_kernel threshold_method block_size c_value simple_thresh_value st :
  let pipeline :=
    TesseractService.preprocess_image blur_kernel threshold_method block_size
      c_value simple_thresh_value in
  calm (runs pipeline) st
    (snd (ocr_routes.preprocess_image imencode file blur_kernel
            threshold_method block_size c_value simple_thresh_value st))
  /\ (forall body st',
        ocr_routes.preprocess_image imencode file blur_kernel threshold_method
          block_size c_value simple_thresh_value st = (inr body, st') ->
        file_utils.validate_image_file file = true
        /\ dom body = preprocess_keys
        /\ body !! "success" = Some (VBool true)
        /\ body !! "settings"
           = Some (VDict (preprocess_settings blur_kernel threshold_method
                            block_size c_value simple_thresh_value))
        /\ log st' = EvRunCv pipeline :: log st
        /\ exists image out encoded,
             decoded file = inr image
             /\ eval_cv E pipeline image = inr out
             /\ imencode out = inr encoded
             /\ body !! "processed_image"
                = Some (VStr ("data:image/png;base64," ++ encoded))).
Proof.
  intros pipeline. split.
  - revert st.
    change (respects (calm (runs pipeline))
              (ocr_routes.preprocess_image imencode file blur_kernel
                 threshold_method block_size c_value simple_thresh_value)).
    unfold ocr_routes.preprocess_image, run_cv. fold pipeline.
    repeat first [ apply calm_emit; reflexivity | calm_step ].
  - unfold ocr_routes.preprocess_image. fold pipeline. intros body st' H.
    apply try_except_returns in H.
    destruct (file_utils.validate_image_file file); [|discriminate H].
    split; [reflexivity|]. cbn [negb] in H.
    apply bind_returns in H as (image & s1 & Himage & H).
    unfold lift in Himage.
    destruct (decoded file) as [e|image0] eqn:Hdec; [discriminate Himage|].
    injection Himage as <- <-.
    apply bind_returns in H as (out & s2 & Hout & H).
    unfold run_cv in Hout.
    apply bind_returns in Hout as ([] & s3 & Hemit & Hout).
    unfold emit, modify in Hemit. injection Hemit as <-.
    unfold lift in Hout.
    destruct (eval_cv E pipeline image0) as [e|out0] eqn:Hcv;
      [discriminate Hout|].
    injection Hout as <- <-.
    apply bind_returns in H as (encoded & s4 & Henc & H).
    unfold lift in Henc.
    destruct (imencode out0) as [e|encoded0] eqn:Himencode;
      [discriminate Henc|].
    injection Henc as <- <-.
    injection H as <- <-.
    split.
    { rewrite !dom_insert_L, dom_empty_L. unfold preprocess_keys. set_solver. }
    split; [apply lookup_insert_eq|].
    split; [rewrite !lookup_insert_ne by discriminate; apply lookup_insert_eq|].
    split; [reflexivity|].
    exists image0, out0, encoded0.
    split; [reflexivity|]. split; [exact Hcv|]. split; [exact Himencode|].
    rewrite lookup_insert_ne by discriminate. apply lookup_insert_eq.
Qed.

Lemma preprocess_route_contract_otsu :
  log (snd (ocr_routes.preprocess_image (E := world_ok) (fun _ => inr "aGk=")
              (note_png world_ok Input) 4 "Otsu" 11 2 127 (started false ∅)))
  = [EvRunCv (TesseractService.preprocess_image 4 "Otsu" 11 2 127)]
  /\ returned
       (ocr_routes.preprocess_image (E := world_ok) (fun _ => inr "aGk=")
          (note_png world_ok Input) 4 "Otsu" 11 2 127 (started false ∅))
     !! "settings"
     = Some (VDict (preprocess_settings 4 "Otsu" 11 2 127)).
Proof.
  assert (Hrun :
    ocr_routes.preprocess_image (E := world_ok) (fun _ => inr "aGk=")
      (note_png world_ok Input) 4 "Otsu" 11 2 127 (started false ∅)
    = (inr (returned
              (ocr_routes.preprocess_image (E := world_ok)
                 (fun _ => inr "aGk=") (note_png world_ok Input) 4 "Otsu" 11 2
                 127 (started false ∅))),
       snd (ocr_routes.preprocess_image (E := world_ok) (fun _ => inr "aGk=")
              (note_png world_ok Input) 4 "Otsu" 11 2 127 (started false ∅))))
    by (vm_compute; reflexivity).
  destruct (preprocess_route_contract world_ok (fun _ => inr "aGk=")
              (note_png world_ok Input) 4 "Otsu" 11 2 127 (started false ∅))
    as [_ Hbody].
  destruct (Hbody _ _ Hrun) as (_ & _ & _ & Hsettings & Hlog & _).
  split; [exact Hlog | exact Hsettings].
Defined.

(** ** The installed models *)

Lemma installed_among_spec E f items entry :
  entry ∈ TrOCRService.installed_among E f items
  <-> exists mt repo size,
        (mt, (repo, size)) ∈ items
        /\ fst (TrOCRService._check_local_model E mt f) = true
        /\ entry = Installed.mk mt repo size
                     (Some (TrOCRService._get_model_path E mt)).
Proof.
  induction items as [|[mt0 [repo0 size0]] items IH].
  - cbn. split; [intros H; inversion H|].
    intros (mt & repo & size & H & _). inversion H.
  - cbn [TrOCRService.installed_among].
    destruct (TrOCRService._check_local_model E mt0 f) as [[] d] eqn:Hc.
    + apply check_local_model_dir in Hc as Hd. subst d.
      rewrite elem_of_cons, IH. split.
      * intros [->|(mt & repo & size & Hin & Hok & ->)].
        -- exists mt0, repo0, size0. rewrite Hc.
           repeat split. apply elem_of_cons. left. reflexivity.
        -- exists mt, repo, size. repeat split; [|exact Hok].
           apply elem_of_cons. right. exact Hin.
      * intros (mt & repo & size & Hin & Hok & ->).
        apply elem_of_cons in Hin as [[= -> -> ->]|Hin]; [left; reflexivity|].
        right. exists mt, repo, size. repeat split; assumption.
    + rewrite IH. split.
      * intros (mt & repo & size & Hin & Hok & ->).
        exists mt, repo, size. repeat split; [|exact Hok].
        apply elem_of_cons. right. exact Hin.
      * intros (mt & repo & size & Hin & Hok & ->).
        apply elem_of_cons in Hin as [[= -> -> ->]|Hin].
        -- rewrite Hc in Hok. discriminate Hok.
        -- exists mt, repo, size. repeat split; assumption.
Qed.

Lemma installed_among_order E f items :
  sublist (Installed.type <$> TrOCRService.installed_among E f items)
          (items.*1).
Proof.
  induction items as [|[mt0 [repo0 size0]] items IH]; [constructor|].
  cbn [TrOCRService.installed_among].
  destruct (TrOCRService._check_local_model E mt0 f) as [[] d];
    cbn; constructor; exact IH.
Qed.

Lemma available_items_lookup mt repo size :
  (mt, (repo, size)) ∈ TrOCRService.available_items
  <-> TrOCRService.available_models !! mt = Some (repo, size).
Proof.
  split.
  - intros H. unfold TrOCRService.available_items in H.
    repeat (apply elem_of_cons in H as [[= -> -> ->]|H]; [reflexivity|]).
    inversion H.
  - apply (elem_of_list_to_map_2 TrOCRService.available_items).
Qed.

Lemma installed_spec E f entry :
  entry ∈ TrOCRService.get_installed_models E f
  <-> exists repo size,
        TrOCRService.available_models !! Installed.type entry
        = Some (repo, size)
        /\ fst (TrOCRService._check_local_model E (Installed.type entry) f)
           = true
        /\ entry = Installed.mk (Installed.type entry) repo size
                     (Some (TrOCRService._get_model_path E
                              (Installed.type entry))).
Proof.
  unfold TrOCRService.get_installed_models. rewrite installed_among_spec.
  split.
  - intros (mt & repo & size & Hin & Hok & ->). cbn [Installed.type].
    exists repo, size. repeat split; [|exact Hok].
    apply available_items_lookup, Hin.
  - intros (repo & size & Hin & Hok & Hentry).
    exists (Installed.type entry), repo, size.
    repeat split; [|exact Hok|exact Hentry].
    apply available_items_lookup, Hin.
Qed.

(** X21. [get_installed_models] lists exactly the catalog models whose
    cache is present (directory, the three processor files and the two model
    files), each once, in catalog order, with the catalog's repository and
    size and the cache directory as its path; and a model it lists is one
    [download_model] loads without writing a script, running the child
    process or changing a file. *)
Theorem installed_models_load_locally E st :
  (forall entry,
     entry ∈ TrOCRService.get_installed_models E (fs st)
     <-> exists repo size,
           TrOCRService.available_models !! Installed.type entry
           = Some (repo, size)
           /\ fst (TrOCRService._check_local_model E (Installed.type entry)
                     (fs st)) = true
           /\ entry = Installed.mk (Installed.type entry) repo size
                        (Some (TrOCRService._get_model_path E
                                 (Installed.type entry))))
  /\ sublist (Installed.type <$> TrOCRService.get_installed_models E (fs st))
             (TrOCRService.available_items.*1)
  /\ (forall entry,
        entry ∈ TrOCRService.get_installed_models E (fs st) ->
        frame (loads_from (TrOCRService._get_model_path E
                             (Installed.type entry)))
              st
              (snd (TrOCRService.download_model E (Installed.type entry) st))).
Proof.
  split; [apply installed_spec|].
  split; [apply installed_among_order|].
  intros entry Hentry.
  apply installed_spec in Hentry as (repo & size & _ & Hok & _).
  apply (download_model_framed_local (fs st)); [exact Hok | reflexivity].
Qed.

(** ** What clearing the cache leaves alone *)

Lemma append_cons c a b : String c a ++ b = String c (a ++ b).
Proof. reflexivity. Qed.

Lemma append_assoc a b c : (a ++ b) ++ c = a ++ (b ++ c).
Proof.
  induction a as [|x a IH]; [reflexivity|].
  rewrite !append_cons, IH. reflexivity.
Qed.

Lemma eqb_append_l a b c : String.eqb (a ++ b) (a ++ c) = String.eqb b c.
Proof.
  induction a as [|x a IH]; [reflexivity|].
  rewrite !append_cons. cbn [String.eqb]. rewrite Ascii.eqb_refl. exact IH.
Qed.

Lemma prefix_append_l a b c :
  String.prefix (a ++ b) (a ++ c) = String.prefix b c.
Proof.
  induction a as [|x a IH]; [reflexivity|].
  rewrite !append_cons. cbn [String.prefix].
  destruct (Ascii.ascii_dec x x); [exact IH | contradiction].
Qed.

Lemma under_common a d p : under (a ++ d) (a ++ p) = under d p.
Proof.
  unfold under. rewrite eqb_append_l, append_assoc, prefix_append_l.
  reflexivity.
Qed.

Lemma path_exists_rmtree dir (f : gset string) q :
  under dir q = false -> path_exists (rmtree dir f) q = path_exists f q.
Proof.
  intros Hq. unfold path_exists, rmtree. apply bool_decide_ext.
  rewrite elem_of_filter. tauto.
Qed.

(** The cache of another catalog model does not lie below the directory
    that is cleared. *)
Lemma other_cache_outside E mt :
  is_Some (TrOCRService.available_models !! mt) -> mt <> "large-handwritten" ->
  under (TrOCRService._get_model_path E "large-handwritten")
        (TrOCRService._get_model_path E mt) = false
  /\ forall x,
       under (TrOCRService._get_model_path E "large-handwritten")
             (path_join (TrOCRService._get_model_path E mt) x) = false.
Proof.
  intros [[repo size] Hinfo] Hne.
  apply available_items_lookup in Hinfo.
  unfold TrOCRService.available_items in Hinfo.
  unfold TrOCRService._get_model_path, path_join.
  repeat (apply elem_of_cons in Hinfo as [[= -> -> ->]|Hinfo];
          [first [ contradiction Hne; reflexivity
                 | split; [|intros x]; rewrite ?append_assoc;
                   rewrite under_common; reflexivity ]|]).
  inversion Hinfo.
Qed.

Lemma check_local_model_rmtree E mt f :
  is_Some (TrOCRService.available_models !! mt) -> mt <> "large-handwritten" ->
  TrOCRService._check_local_model E mt
    (rmtree (TrOCRService._get_model_path E "large-handwritten") f)
  = TrOCRService._check_local_model E mt f.
Proof.
  intros Hcat Hne. destruct (other_cache_outside E mt Hcat Hne) as [Hdir Hfile].
  unfold TrOCRService._check_local_model, TrOCRService.processor_files,
    TrOCRService.model_files.
  cbn [forallb]. rewrite !path_exists_rmtree by auto. reflexivity.
Qed.

Lemma clear_model_cache_state E st :
  snd (ocr_routes.clear_model_cache E st)
  = if path_exists (fs st) (TrOCRService._get_model_path E "large-handwritten")
    then mkSt (tesseract_service st)
           (TrOCRSelf.set_status "Local cache cleared"
              (TrOCRSelf.set_model_loaded false (trocr_service st)))
           (rmtree (TrOCRService._get_model_path E "large-handwritten") (fs st))
           (EvRmtree (TrOCRService._get_model_path E "large-handwritten")
            :: log st)
    else st.
Proof.
  unfold ocr_routes.clear_model_cache. run_M.
  destruct (path_exists (fs st)
              (TrOCRService._get_model_path E "large-handwritten"));
    reflexivity.
Qed.

Lemma clear_model_cache_checks E st :
  let st' := snd (ocr_routes.clear_model_cache E st) in
  fst (TrOCRService._check_local_model E "large-handwritten" (fs st')) = false
  /\ forall mt,
       is_Some (TrOCRService.available_models !! mt) ->
       mt <> "large-handwritten" ->
       TrOCRService._check_local_model E mt (fs st')
       = TrOCRService._check_local_model E mt (fs st).
Proof.
  cbv zeta. rewrite clear_model_cache_state.
  destruct (path_exists (fs st)
              (TrOCRService._get_model_path E "large-handwritten")) eqn:Hex.
  - cbn [fs]. split.
    + unfold TrOCRService._check_local_model.
      rewrite (proj2 (path_exists_false _ _)); [reflexivity|].
      apply rmtree_removes.
    + intros mt Hcat Hne. apply check_local_model_rmtree; assumption.
  - split; [|reflexivity].
    unfold TrOCRService._check_local_model. rewrite Hex. reflexivity.
Qed.

(** X22. [clear_model_cache] clears the cache of [large-handwritten] and of
    no other model, whichever model is loaded: it adds no path and removes
    none outside that directory, the cache check of every other catalog
    model answers as before, and the installed models afterwards are the
    ones installed before except [large-handwritten].  The processor, the
    model and the current model type of the service object stay as they
    were. *)
Theorem clear_model_cache_scope E st :
  let model_dir := TrOCRService._get_model_path E "large-handwritten" in
  let st' := snd (ocr_routes.clear_model_cache E st) in
  (forall p, p ∈ fs st' -> p ∈ fs st)
  /\ (forall p, p ∈ fs st -> under model_dir p = false -> p ∈ fs st')
  /\ (forall model_type,
        is_Some (TrOCRService.available_models !! model_type) ->
        model_type <> "large-handwritten" ->
        TrOCRService._check_local_model E model_type (fs st')
        = TrOCRService._check_local_model E model_type (fs st))
  /\ (forall entry,
        entry ∈ TrOCRService.get_installed_models E (fs st')
        <-> entry ∈ TrOCRService.get_installed_models E (fs st)
            /\ Installed.type entry <> "large-handwritten")
  /\ TrOCRSelf.processor (trocr_service st')
     = TrOCRSelf.processor (trocr_service st)
  /\ TrOCRSelf.model (trocr_service st') = TrOCRSelf.model (trocr_service st)
  /\ TrOCRSelf.current_model_type (trocr_service st')
     = TrOCRSelf.current_model_type (trocr_service st).
Proof.
  intros model_dir st'.
  destruct (clear_model_cache_checks E st) as [Hlarge Hother].
  fold st' in Hlarge, Hother.
  assert (Hst : st' = snd (ocr_routes.clear_model_cache E st)) by reflexivity.
  rewrite clear_model_cache_state in Hst. fold model_dir in Hst.
  split; [|split; [|split; [exact Hother|split]]].
  - intros p. rewrite Hst.
    destruct (path_exists (fs st) model_dir); [|exact (fun H => H)].
    cbn [fs]. unfold rmtree. rewrite elem_of_filter. tauto.
  - intros p Hp Hu. rewrite Hst.
    destruct (path_exists (fs st) model_dir); [|exact Hp].
    cbn [fs]. unfold rmtree. rewrite elem_of_filter. tauto.
  - intros entry. rewrite !installed_spec. split.
    + intros (repo & size & Hinfo & Hok & Hentry).
      assert (Hne : Installed.type entry <> "large-handwritten").
      { intros Heq. rewrite Heq, Hlarge in Hok. discriminate Hok. }
      split; [|exact Hne].
      exists repo, size. rewrite <- Hother by eauto. auto.
    + intros [(repo & size & Hinfo & Hok & Hentry) Hne].
      exists repo, size. rewrite Hother by eauto. auto.
  - rewrite Hst. destruct (path_exists (fs st) model_dir); auto.
Qed.

(** ** The parameters that reach OpenCV and Tesseract *)

(** X23. Which preprocessing parameters reach OpenCV (the function is the
    same in both services).  Otsu thresholding ignores the block size, the C
    value and the simple threshold; the adaptive methods ignore the simple
    threshold; every other method name ignores the block size and the C
    value.  So the block size and C value that the deterministic engine's
    presets store are dead wherever the preset selects Otsu or Simple: at
    accuracy maximum the pipeline depends on the speed only through the blur
    kernel, and at speed fast it is the same simple threshold at 127 for the
    accuracies low, medium and high. *)
Theorem dead_preset_values (E : Env) (image : ndarray E)
    blur_kernel threshold_method block_size c_value simple_thresh_value
    block_size' c_value' simple_thresh_value' :
  TrOCRService.preprocess_image blur_kernel threshold_method block_size
    c_value simple_thresh_value
  = TesseractService.preprocess_image blur_kernel threshold_method block_size
      c_value simple_thresh_value
  /\ TesseractService.preprocess_image blur_kernel "Otsu" block_size c_value
       simple_thresh_value
     = TesseractService.preprocess_image blur_kernel "Otsu" block_size'
         c_value' simple_thresh_value'
  /\ (adaptive threshold_method ->
      TesseractService.preprocess_image blur_kernel threshold_method
        block_size c_value simple_thresh_value
      = TesseractService.preprocess_image blur_kernel threshold_method
          block_size c_value simple_thresh_value')
  /\ (unnamed threshold_method ->
      TesseractService.preprocess_image blur_kernel threshold_method
        block_size c_value simple_thresh_value
      = TesseractService.preprocess_image blur_kernel threshold_method
          block_size' c_value' simple_thresh_value)
  /\ (forall s,
        TesseractService.pil_image E image true blur_kernel threshold_method
          block_size c_value
          (TesseractService._get_preprocessing_settings (speed_key s)
             "maximum")
        = (processed_image ←
             run_cv E
               (TesseractService.preprocess_image (blur (policy_table s))
                  "Otsu" block_size' c_value' simple_thresh_value') image;
           lift (Image_fromarray E processed_image)))
  /\ (forall a, a <> AccMaximum ->
        TesseractService.pil_image E image true blur_kernel threshold_method
          block_size c_value
          (TesseractService._get_preprocessing_settings "fast"
             (accuracy_key a))
        = (processed_image ←
             run_cv E
               (Threshold
                  (GaussianBlur (CvtColor Input COLOR_BGR2GRAY) (3, 3) 0)
                  127 255 THRESH_BINARY) image;
           lift (Image_fromarray E processed_image))).
Proof.
  split; [reflexivity|]. split; [reflexivity|].
  split; [intros [-> | ->]; reflexivity|].
  split.
  { intros (Hg & Hm & Ho). apply String.eqb_neq in Hg, Hm, Ho.
    unfold TesseractService.preprocess_image. rewrite Hg, Hm, Ho.
    reflexivity. }
  split.
  - intros s. destruct s; reflexivity.
  - intros a Ha. destruct a; [reflexivity | reflexivity | reflexivity|].
    contradiction Ha. reflexivity.
Qed.

Lemma dead_preset_values_sauvola :
  TesseractService.preprocess_image 5 "Sauvola" 11 2 127
  = TesseractService.preprocess_image 5 "Sauvola" 31 9 127
  /\ TesseractService.preprocess_image 5 "Adaptive Mean" 11 2 127
     = TesseractService.preprocess_image 5 "Adaptive Mean" 11 2 0.
Proof.
  destruct (dead_preset_values world_ok Input 5 "Sauvola" 11 2 127 31 9 0)
    as (_ & _ & _ & Hsimple & _).
  destruct (dead_preset_values world_ok Input 5 "Adaptive Mean" 11 2 127 31 9
              0) as (_ & _ & Hadaptive & _).
  split.
  - apply Hsimple. repeat split; discriminate.
  - apply Hadaptive. right. reflexivity.
Defined.

(** X24. The Tesseract configuration string grows with the accuracy level:
    for any processing speed (also one outside the presets), the string
    built for an accuracy level is a prefix of the one built for any higher
    level, so raising the accuracy only appends flags.  The speed alone
    decides the engine and page segmentation modes the string starts with,
    and for a speed outside the presets at accuracy low the string is
    empty. *)
Theorem ocr_config_grows_with_accuracy processing_speed a a' :
  accuracy_rank a <= accuracy_rank a' ->
  String.prefix
    (TesseractService._get_ocr_settings processing_speed (accuracy_key a))
    (TesseractService._get_ocr_settings processing_speed (accuracy_key a'))
  = true
  /\ String.prefix
       (TesseractService._get_ocr_settings processing_speed "low")
       (TesseractService._get_ocr_settings processing_speed (accuracy_key a))
     = true
  /\ (off_grid processing_speed ->
      TesseractService._get_ocr_settings processing_speed "low" = "").
Proof.
  intros Hle. unfold TesseractService._get_ocr_settings, off_grid.
  destruct (String.eqb_spec processing_speed "fast") as [->|Hf];
    [|destruct (String.eqb_spec processing_speed "balanced") as [->|Hb];
      [|destruct (String.eqb_spec processing_speed "high") as [->|Hh];
        [|destruct (String.eqb_spec processing_speed "maximum") as [->|Hm]]]].
  all: destruct a, a'; cbn in Hle; try lia.
  all: repeat split; try reflexivity.
  all: intros (H1 & H2 & H3 & H4); try reflexivity; congruence.
Qed.

Lemma ocr_config_grows_with_accuracy_balanced :
  String.prefix (TesseractService._get_ocr_settings "balanced" "medium")
                (TesseractService._get_ocr_settings "balanced" "maximum")
  = true.
Proof.
  destruct (ocr_config_grows_with_accuracy "balanced" AccMedium AccMaximum)
    as [H _]; [cbn; lia | exact H].
Defined.

(** ** The language settings *)

Lemma same_but_bind {A} key (m : M A) (k k' : A -> M (gmap string pyval)) s :
  (forall a s1, same_but key (k a s1) (k' a s1)) ->
  same_but key ((m ≫= k) s) ((m ≫= k') s).
Proof.
  intros Hk. unfold mbind, M_bind.
  destruct (m s) as [[e|a] s1]; [split; reflexivity | apply Hk].
Qed.

Lemma same_but_refl key r : same_but key r r.
Proof.
  split; [reflexivity|]. destruct (fst r); [reflexivity|]. intros; reflexivity.
Qed.

Lemma insert_agree (m m' : gmap string pyval) j v k :
  m !! k = m' !! k -> (<[j:=v]> m) !! k = (<[j:=v]> m') !! k.
Proof.
  intros H. destruct (decide (j = k)) as [->|Hne].
  - rewrite !lookup_insert_eq. reflexivity.
  - rewrite !lookup_insert_ne by exact Hne. exact H.
Qed.

(** X25. The language settings of a request are never used: for two
    requests that differ only in [primary_language], [language_detection]
    and [custom_dictionary], [extract_text] makes the same calls, ends in
    the same state and gives the same outcome, with bodies that differ at
    most in the echo under [settings_used]. *)
Theorem language_settings_unused (E : Env) (file : UploadFile E)
    ocr_type model_type use_preprocessing blur_kernel threshold_method
    block_size c_value primary_language language_detection custom_dictionary
    primary_language' language_detection' custom_dictionary'
    processing_speed accuracy_level st :
  same_but "settings_used"
    (ocr_routes.extract_text file ocr_type model_type use_preprocessing
       blur_kernel threshold_method block_size c_value primary_language
       language_detection custom_dictionary processing_speed accuracy_level
       st)
    (ocr_routes.extract_text file ocr_type model_type use_preprocessing
       blur_kernel threshold_method block_size c_value primary_language'
       language_detection' custom_dictionary' processing_speed accuracy_level
       st).
Proof.
  unfold ocr_routes.extract_text. rewrite !try_except_raise_run.
  match goal with
  | |- same_but _ (_, snd (?b st)) (_, snd (?b' st)) =>
      assert (Hbody : same_but "settings_used" (b st) (b' st));
      [|destruct Hbody as [Hsnd Hfst]; split; [exact Hsnd|]; cbn [fst];
        destruct (fst (b st)) as [e|body], (fst (b' st)) as [e'|body'];
        try contradiction; [subst e'; reflexivity | exact Hfst]]
  end.
  destruct (negb (file_utils.validate_image_file file));
    [apply same_but_refl|].
  apply same_but_bind. intros image_cv s1.
  apply same_but_bind. intros file_path s2.
  apply same_but_bind. intros result s3.
  apply same_but_bind. intros text s4.
  split; [reflexivity|]. cbn [fst mret M_ret].
  intros k Hk. do 8 apply insert_agree.
  rewrite !lookup_insert_ne
    by (intros Heq; apply Hk; symmetry; exact Heq).
  reflexivity.
Qed.

(** ** The download script and the service's cache check *)

Lemma load_model_framed_hub f0 E mt repo size :
  TrOCRService.available_models !! mt = Some (repo, size) ->
  fst (TrOCRService._check_local_model E mt f0) = false ->
  framed f0 (loads_from repo) (TrOCRService._load_model E mt).
Proof.
  intros Hinfo Hlocal.
  destruct (TrOCRService._check_local_model E mt f0) as [b d] eqn:Hc.
  cbn in Hlocal. subst b.
  unfold TrOCRService._load_model. rewrite Hinfo.
  repeat first
    [ rewrite Hc; cbn [get]
    | apply load_from_framed
    | framing_step ].
Qed.

(** The script's catalog is the service's. *)
Lemma catalogs_agree :
  download_model_py.AVAILABLE_MODELS = TrOCRService.available_models.
Proof. reflexivity. Qed.

(** With [config.json] in place the script downloads nothing: it exits with
    code 0, and the only paths it adds are its log directory, its log file
    and the model directory. *)
Lemma temp_download_skips L mt repo size dir (f : gset string) :
  TrOCRService.available_models !! mt = Some (repo, size) ->
  path_join (path_join dir ("trocr-" ++ mt)) "config.json" ∈ f ->
  exists out f',
    download_model_py.temp_download L mt dir f
    = (Completed 0 out (download_model_py.noise L ++ ""), f')
    /\ f ⊆ f'
    /\ forall p, p ∈ f' ->
         p ∈ f \/ p = path_join dir "logs"
         \/ p = path_join dir ("trocr-" ++ mt)
         \/ p = path_join (path_join dir "logs")
                  ("trocr_download_" ++ download_model_py.timestamp L ++ ".log").
Proof.
  intros Hinfo Hconfig.
  unfold download_model_py.temp_download, download_model_py.download_model.
  rewrite catalogs_agree, Hinfo. cbv zeta.
  match goal with
  | |- context [path_exists ?f0 ?q] =>
      assert (Hex : path_exists f0 q = true)
  end.
  { apply path_exists_true.
    cbn [download_model_py.log download_model_py.files].
    destruct (download_model_py.log_writable L);
      rewrite !elem_of_union; tauto. }
  rewrite Hex. cbv iota. unfold download_model_py.exit.
  eexists _, _. split; [reflexivity|].
  cbn [download_model_py.log download_model_py.files].
  destruct (download_model_py.log_writable L);
    (split;
     [ intros p Hp; rewrite !elem_of_union; tauto
     | intros p; rewrite !elem_of_union, !elem_of_singleton; tauto ]).
Qed.

Lemma append_nil_r a : a ++ "" = a.
Proof.
  induction a as [|x a IH]; [reflexivity|].
  rewrite append_cons, IH. reflexivity.
Qed.

(** A file of a model's cache is none of the paths the script adds. *)
Lemma cache_file_distinct dir mt x stamp :
  path_join (path_join dir ("trocr-" ++ mt)) x <> path_join dir "logs"
  /\ path_join (path_join dir ("trocr-" ++ mt)) x
     <> path_join dir ("trocr-" ++ mt)
  /\ path_join (path_join dir ("trocr-" ++ mt)) x
     <> path_join (path_join dir "logs") stamp.
Proof.
  unfold path_join. repeat split; apply String.eqb_neq.
  - rewrite append_assoc, eqb_append_l. reflexivity.
  - rewrite <- (append_nil_r (dir ++ "/" ++ "trocr-" ++ mt)) at 2.
    rewrite eqb_append_l. reflexivity.
  - rewrite !append_assoc, eqb_append_l. reflexivity.
Qed.

Lemma download_failed_absent temp msg s :
  temp ∉ fs s ->
  TrOCRService.download_failed temp msg s
  = (inr (Report.mk false msg ("Error: " ++ msg) None None),
     mkSt (tesseract_service s)
          (TrOCRSelf.set_status ("Error: " ++ msg) (trocr_service s))
          (fs s) (log s)).
Proof.
  intros Habsent. apply path_exists_false in Habsent.
  unfold TrOCRService.download_failed, TrOCRService.remove_if_exists.
  run_M. rewrite Habsent. reflexivity.
Qed.

(** What [run_download] does when the child exits with code 0 and the
    cache check still fails afterwards. *)
Lemma run_download_after_exit E mt cwd temp s out err (f' : gset string)
    repo size :
  subprocess_run E temp mt cwd (fs s) = (Completed 0 out err, f') ->
  temp ∈ f' ->
  TrOCRService.available_models !! mt = Some (repo, size) ->
  fst (TrOCRService._check_local_model E mt (f' ∖ {[temp]})) = false ->
  exists report s',
    TrOCRService.run_download E mt cwd temp s = (inr report, s')
    /\ fs s' = f' ∖ {[temp]}
    /\ grows (loads_from repo)
         (EvRemove temp :: EvSubprocessRun temp :: log s) (log s').
Proof.
  intros Hrun Htemp Hinfo Hcheck. apply path_exists_true in Htemp.
  unfold TrOCRService.run_download, TrOCRService.run,
    TrOCRService.remove_if_exists.
  unfold try_except.
  unfold mbind at 1, M_bind at 1.
  unfold mbind at 1, M_bind at 1, gets at 1.
  unfold mbind at 1, M_bind at 1, emit at 1, modify at 1.
  rewrite Hrun.
  unfold mbind at 1, M_bind at 1, set_fs at 1, modify at 1.
  unfold mret at 1, M_ret at 1.
  unfold mbind at 1, M_bind at 1.
  unfold mbind at 1, M_bind at 1, gets at 1.
  cbn [fs log trocr_service tesseract_service]. rewrite Htemp.
  unfold mbind at 1, M_bind at 1, emit at 1, modify at 1.
  unfold set_fs at 1, modify at 1.
  cbn [fs log trocr_service tesseract_service].
  change (0 =? 0) with true. cbv iota.
  unfold mbind at 1, M_bind at 1.
  match goal with
  | |- context [TrOCRService._load_model E mt ?s1] =>
      destruct (load_model_framed_hub (f' ∖ {[temp]}) E mt repo size Hinfo
                  Hcheck s1 eq_refl) as (_ & Hfs & Hlog);
      destruct (TrOCRService._load_model E mt s1) as [[e|[]] s2]
  end; cbn [snd fs log] in Hfs, Hlog.
  - assert (Habsent : temp ∉ fs s2).
    { rewrite Hfs. apply not_elem_of_difference. right.
      apply elem_of_singleton. reflexivity. }
    destruct e; rewrite (download_failed_absent _ _ _ Habsent);
      eexists _, _; (split; [reflexivity|]); cbn [fs log];
      (split; [exact Hfs | exact Hlog]).
  - run_M. eexists _, _. split; [reflexivity|].
    split; [exact Hfs | exact Hlog].
Qed.

(** X26. The download script and the service disagree on what a complete
    cache is, and a partial cache is never completed.  Let the child process
    be the repository's own script.  If the directory of a catalog model
    holds [config.json] but the service's cache check fails (a processor or
    model file is missing), then [download_model] does run the script, the
    script finds [config.json], downloads nothing and exits with code 0, and
    the service then loads the model from the hub repository, not from the
    directory; afterwards the temporary script is gone, the cache check
    still fails and the model is still not listed as installed, so the next
    call does the same again. *)
Theorem partial_cache_is_never_completed (E : Env) (L : download_model_py.Lib)
    model_type repo size st :
  let E' := with_script E L in
  let python_ocr := path_join (backend_dir E) "python_ocr" in
  let temp_script := path_join python_ocr "temp_download.py" in
  let model_dir := TrOCRService._get_model_path E' model_type in
  TrOCRService.available_models !! model_type = Some (repo, size) ->
  TrOCRSelf.model_loaded (trocr_service st)
  && TrOCRService.is_current (trocr_service st) model_type = false ->
  model_dir ∈ fs st ->
  path_join model_dir "config.json" ∈ fs st ->
  fst (TrOCRService._check_local_model E' model_type (fs st)) = false ->
  exists report st',
    TrOCRService.download_model E' model_type st = (inr report, st')
    /\ (exists out,
          fst (subprocess_run E' temp_script model_type python_ocr
                 ({[temp_script]} ∪ fs st))
          = Completed 0 out (download_model_py.noise L ++ ""))
    /\ grows (loads_from repo)
         (EvRemove temp_script :: EvSubprocessRun temp_script
          :: EvWrite temp_script :: log st)
         (log st')
    /\ (temp_script ∉ fs st')
    /\ fst (TrOCRService._check_local_model E' model_type (fs st')) = false
    /\ (forall entry,
          entry ∈ TrOCRService.get_installed_models E' (fs st') ->
          Installed.type entry <> model_type).
Proof.
  intros E' python_ocr temp_script model_dir Hinfo Hnot Hdir Hconfig Hcheck.
  destruct (temp_download_skips L model_type repo size python_ocr
              ({[temp_script]} ∪ fs st) Hinfo) as (out & f' & Hscript & Hsub & Hadded).
  { apply elem_of_union_r. exact Hconfig. }
  (* the files after the script and the removal of the temporary script *)
  assert (Hstill : forall f'' : gset string,
            (forall p, p ∈ f'' -> p ∈ f' /\ p <> temp_script) ->
            fst (TrOCRService._check_local_model E' model_type f'') = false).
  { intros f'' Hf''.
    destruct (fst (TrOCRService._check_local_model E' model_type f'')) eqn:Hc;
      [|reflexivity].
    apply check_local_model_present in Hc as [_ Hfiles].
    rewrite <- Hcheck. symmetry. apply check_local_model_present.
    split; [exact Hdir|].
    eapply Forall_impl; [exact Hfiles|]. cbn beta. intros x Hx.
    apply Hf'' in Hx as [Hx Hne].
    destruct (cache_file_distinct python_ocr model_type x
                ("trocr_download_" ++ download_model_py.timestamp L ++ ".log"))
      as (H1 & H2 & H3).
    apply Hadded in Hx as [Hx|[Hx|[Hx|Hx]]];
      [|contradiction|contradiction|contradiction].
    apply elem_of_union in Hx as [Hx|Hx]; [|exact Hx].
    apply elem_of_singleton in Hx. contradiction. }
  assert (Htemp : temp_script ∈ f').
  { apply Hsub, elem_of_union_l, elem_of_singleton. reflexivity. }
  assert (Hafter : fst (TrOCRService._check_local_model E' model_type
                          (f' ∖ {[temp_script]})) = false).
  { apply Hstill. intros p Hp. apply elem_of_difference in Hp as [Hp Hne].
    split; [exact Hp|]. intros ->. apply Hne, elem_of_singleton. reflexivity. }
  unfold TrOCRService.download_model. rewrite Hinfo.
  unfold try_except at 1.
  unfold mbind at 1, M_bind at 1, gets at 1. rewrite Hnot.
  unfold mbind at 1, M_bind at 1, gets at 1.
  destruct (TrOCRService._check_local_model E' model_type (fs st))
    as [b d] eqn:Hc.
  cbn [fst] in Hcheck. subst b.
  unfold mbind at 1, M_bind at 1, update_trocr at 1, modify at 1.
  unfold mbind at 1, M_bind at 1, TrOCRService.write_file at 1.
  unfold mbind at 1, M_bind at 1, gets at 1.
  unfold mbind at 1, M_bind at 1, emit at 1, modify at 1.
  unfold set_fs at 1, modify at 1.
  cbn [fs log trocr_service tesseract_service].
  change (backend_dir E') with (backend_dir E).
  fold python_ocr. fold temp_script.
  match goal with
  | |- context [TrOCRService.run_download E' model_type python_ocr temp_script
                  ?s_w] =>
      destruct (run_download_after_exit E' model_type python_ocr temp_script
                  s_w out (download_model_py.noise L ++ "") f' repo size
                  Hscript Htemp Hinfo Hafter)
        as (report & st' & -> & Hfs & Hlog)
  end.
  cbn [fs log] in Hlog.
  exists report, st'. split; [reflexivity|].
  split.
  { exists out.
    change (subprocess_run E' temp_script model_type python_ocr
              ({[temp_script]} ∪ fs st))
      with (download_model_py.temp_download L model_type python_ocr
              ({[temp_script]} ∪ fs st)).
    rewrite Hscript. reflexivity. }
  split; [exact Hlog|].
  split.
  { rewrite Hfs. apply not_elem_of_difference. right.
    apply elem_of_singleton. reflexivity. }
  rewrite Hfs. split; [exact Hafter|].
  intros entry Hentry Htype.
  apply installed_spec in Hentry as (r & z & _ & Hok & _).
  rewrite Htype, Hafter in Hok. discriminate Hok.
Qed.

Lemma partial_cache_is_never_completed_large :
  exists report st',
    TrOCRService.download_model (with_script world_ok lib_ok)
      "large-handwritten" (started true partial_cache) = (inr report, st')
    /\ fst (TrOCRService._check_local_model (with_script world_ok lib_ok)
              "large-handwritten" (fs st')) = false.
Proof.
  destruct (partial_cache_is_never_completed world_ok lib_ok
              "large-handwritten" "microsoft/trocr-large-handwritten"
              "~1.4 GB" (started true partial_cache))
    as (report & st' & Hrun & _ & _ & _ & Hcheck & _).
  - reflexivity.
  - reflexivity.
  - apply elem_of_union_l, elem_of_singleton. reflexivity.
  - apply elem_of_union_r, elem_of_singleton. reflexivity.
  - vm_compute. reflexivity.
  - exists report, st'. split; [exact Hrun | exact Hcheck].
Defined.

(** ** A download that fails inside the script *)

Lemma cache_file_not_temp dir mt x :
  path_join (path_join dir ("trocr-" ++ mt)) x
  <> path_join dir "temp_download.py".
Proof.
  unfold path_join. apply String.eqb_neq.
  rewrite append_assoc, eqb_append_l. reflexivity.
Qed.

(** Without [config.json], and with a hub that gives no processor, the
    script prints its error as its last line and exits with code 1, leaving
    nothing in the model directory. *)
Lemma temp_download_fails L mt repo size dir (f : gset string) e1 e2 :
  TrOCRService.available_models !! mt = Some (repo, size) ->
  path_join (path_join dir ("trocr-" ++ mt)) "config.json" ∉ f ->
  download_model_py.processor_from_pretrained L repo true = Some e1 ->
  download_model_py.processor_from_pretrained L repo false = Some e2 ->
  exists lines f',
    download_model_py.temp_download L mt dir f
    = (Completed 1
         (download_model_py.stdout
            (download_model_py.mkProc f' (lines ++ ["Error: " ++ e2])))
         (download_model_py.noise L ++ ""), f')
    /\ f ⊆ f'.
Proof.
  intros Hinfo Hconfig Hfast Hslow.
  unfold download_model_py.temp_download, download_model_py.download_model.
  rewrite catalogs_agree, Hinfo. cbv zeta.
  match goal with
  | |- context [path_exists ?f0 ?q] =>
      assert (Hex : path_exists f0 q = false)
  end.
  { apply path_exists_false.
    destruct (cache_file_distinct dir mt "config.json"
                ("trocr_download_" ++ download_model_py.timestamp L ++ ".log"))
      as (H1 & H2 & H3).
    cbn [download_model_py.log download_model_py.files].
    destruct (download_model_py.log_writable L);
      rewrite !elem_of_union, !elem_of_singleton; tauto. }
  rewrite Hex, Hfast, Hslow. cbv iota.
  unfold download_model_py.failed, download_model_py.exit,
    download_model_py.stdout. cbv zeta.
  cbn [download_model_py.log download_model_py.files
       download_model_py.printed].
  eexists _, _. split; [reflexivity|].
  destruct (download_model_py.log_writable L);
    intros p Hp; rewrite !elem_of_union; tauto.
Qed.

(** What [run_download] does when the child exits with another code than
    0. *)
Lemma run_download_after_failure E mt cwd temp s code out err
    (f' : gset string) :
  subprocess_run E temp mt cwd (fs s) = (Completed code out err, f') ->
  code <> 0 -> temp ∈ f' ->
  TrOCRService.run_download E mt cwd temp s
  = (inr (Report.mk false ("Download script failed: " ++ err)
            ("Error: " ++ "Download script failed: " ++ err)
            (Some out) (Some err)),
     mkSt (tesseract_service s)
          (TrOCRSelf.set_status
             ("Error: " ++ "Download script failed: " ++ err)
             (trocr_service s))
          (f' ∖ {[temp]})
          (EvRemove temp :: EvSubprocessRun temp :: log s)).
Proof.
  intros Hrun Hcode Htemp. apply path_exists_true in Htemp.
  apply Z.eqb_neq in Hcode.
  unfold TrOCRService.run_download, TrOCRService.run,
    TrOCRService.remove_if_exists.
  unfold try_except.
  unfold mbind at 1, M_bind at 1.
  unfold mbind at 1, M_bind at 1, gets at 1.
  unfold mbind at 1, M_bind at 1, emit at 1, modify at 1.
  rewrite Hrun.
  unfold mbind at 1, M_bind at 1, set_fs at 1, modify at 1.
  unfold mret at 1, M_ret at 1.
  unfold mbind at 1, M_bind at 1.
  unfold mbind at 1, M_bind at 1, gets at 1.
  cbn [fs log trocr_service tesseract_service]. rewrite Htemp.
  unfold mbind at 1, M_bind at 1, emit at 1, modify at 1.
  unfold set_fs at 1, modify at 1.
  cbn [fs log trocr_service tesseract_service].
  rewrite Hcode. reflexivity.
Qed.

(** X27. The reason of a download that fails inside the script is lost on
    the way to the caller.  Let the child process be the repository's own
    script, with no [config.json] in the model directory and a hub that gives
    no processor (neither with the fast nor with the slow tokenizer).  The
    script prints "Error: " and the exception's message as its last line and
    exits with code 1 and nothing of its own on the error stream; so
    [download_model] reports failure with the message "Download script
    failed: " followed only by what the libraries wrote to the error stream,
    the script's error line is in [output], the temporary script is removed
    and the service makes no attempt to load the model. *)
Theorem script_failure_reason_is_lost (E : Env) (L : download_model_py.Lib)
    model_type repo size st e1 e2 :
  let E' := with_script E L in
  let python_ocr := path_join (backend_dir E) "python_ocr" in
  let temp_script := path_join python_ocr "temp_download.py" in
  let model_dir := TrOCRService._get_model_path E' model_type in
  TrOCRService.available_models !! model_type = Some (repo, size) ->
  TrOCRSelf.model_loaded (trocr_service st)
  && TrOCRService.is_current (trocr_service st) model_type = false ->
  path_join model_dir "config.json" ∉ fs st ->
  download_model_py.processor_from_pretrained L repo true = Some e1 ->
  download_model_py.processor_from_pretrained L repo false = Some e2 ->
  exists report st' lines files,
    TrOCRService.download_model E' model_type st = (inr report, st')
    /\ Report.success report = false
    /\ Report.message report
       = "Download script failed: " ++ download_model_py.noise L
    /\ Report.output report
       = Some (download_model_py.stdout
                 (download_model_py.mkProc files
                    (lines ++ ["Error: " ++ e2])))
    /\ log st'
       = EvRemove temp_script :: EvSubprocessRun temp_script
         :: EvWrite temp_script :: log st
    /\ (temp_script ∉ fs st').
Proof.
  intros E' python_ocr temp_script model_dir Hinfo Hnot Hconfig Hfast Hslow.
  destruct (temp_download_fails L model_type repo size python_ocr
              ({[temp_script]} ∪ fs st) e1 e2 Hinfo)
    as (lines & f' & Hscript & Hsub); [|exact Hfast|exact Hslow|].
  { intros Hin. apply elem_of_union in Hin as [Hin|Hin]; [|exact (Hconfig Hin)].
    apply elem_of_singleton in Hin.
    exact (cache_file_not_temp python_ocr model_type "config.json" Hin). }
  assert (Htemp : temp_script ∈ f').
  { apply Hsub, elem_of_union_l, elem_of_singleton. reflexivity. }
  assert (Hcheck : fst (TrOCRService._check_local_model E' model_type (fs st))
                   = false).
  { destruct (fst (TrOCRService._check_local_model E' model_type (fs st)))
      eqn:Hc; [|reflexivity].
    apply check_local_model_present in Hc as [_ Hfiles].
    exfalso. apply Hconfig.
    rewrite Forall_forall in Hfiles. apply Hfiles.
    unfold TrOCRService.processor_files, TrOCRService.model_files.
    cbn [app]. rewrite !elem_of_cons. do 3 right. left. reflexivity. }
  unfold TrOCRService.download_model. rewrite Hinfo.
  unfold try_except at 1.
  unfold mbind at 1, M_bind at 1, gets at 1. rewrite Hnot.
  unfold mbind at 1, M_bind at 1, gets at 1.
  destruct (TrOCRService._check_local_model E' model_type (fs st))
    as [b d] eqn:Hc.
  cbn [fst] in Hcheck. subst b.
  unfold mbind at 1, M_bind at 1, update_trocr at 1, modify at 1.
  unfold mbind at 1, M_bind at 1, TrOCRService.write_file at 1.
  unfold mbind at 1, M_bind at 1, gets at 1.
  unfold mbind at 1, M_bind at 1, emit at 1, modify at 1.
  unfold set_fs at 1, modify at 1.
  cbn [fs log trocr_service tesseract_service].
  change (backend_dir E') with (backend_dir E).
  fold python_ocr. fold temp_script.
  match goal with
  | |- context [TrOCRService.run_download E' model_type python_ocr temp_script
                  ?s_w] =>
      rewrite (run_download_after_failure E' model_type python_ocr temp_script
                 s_w 1 _ _ f' Hscript ltac:(discriminate) Htemp)
  end.
  eexists _, _, lines, f'. split; [reflexivity|].
  cbn [Report.success Report.message Report.output fs log].
  split; [reflexivity|].
  split; [rewrite append_nil_r; reflexivity|].
  split; [reflexivity|]. split; [reflexivity|].
  apply not_elem_of_difference. right. apply elem_of_singleton. reflexivity.
Qed.

Lemma script_failure_reason_is_lost_offline :
  exists report st',
    TrOCRService.download_model (with_script world_ok lib_offline)
      "large-handwritten" (started true ∅) = (inr report, st')
    /\ Report.success report = false
    /\ Report.message report = "Download script failed: ".
Proof.
  destruct (script_failure_reason_is_lost world_ok lib_offline
              "large-handwritten" "microsoft/trocr-large-handwritten"
              "~1.4 GB" (started true ∅) "Connection error"
              "Connection error")
    as (report & st' & lines & files & Hrun & Hfail & Hmsg & _).
  - reflexivity.
  - reflexivity.
  - apply not_elem_of_empty.
  - reflexivity.
  - reflexivity.
  - exists report, st'. split; [exact Hrun|]. split; [exact Hfail | exact Hmsg].
Defined.

(** ** The status line that always fails *)

Lemma idle_refl s : idle s s.
Proof. intros H. split; [exact H | constructor]. Qed.

Lemma idle_trans s1 s2 s3 : idle s1 s2 -> idle s2 s3 -> idle s1 s3.
Proof.
  intros H12 H23 H1. destruct (H12 H1) as [H2 Hl12].
  destruct (H23 H2) as [H3 Hl23].
  split; [exact H3 | eapply grows_trans; eassumption].
Qed.

Lemma idle_emit ev : not_generate ev -> respects idle (emit ev).
Proof.
  intros Hev. unfold emit. apply respects_modify. intros s H.
  split; [exact H|]. cbn. constructor; [exact Hev | constructor].
Qed.

Lemma idle_set_fs f : respects idle (set_fs f).
Proof.
  unfold set_fs. apply respects_modify. intros s H.
  split; [exact H | constructor].
Qed.

Lemma idle_set_status v :
  respects idle (update_trocr (TrOCRSelf.set_status v)).
Proof.
  unfold update_trocr. apply respects_modify. intros s H.
  split; [exact H | constructor].
Qed.

Lemma idle_unloaded :
  respects idle (update_trocr (TrOCRSelf.set_model_loaded false)).
Proof.
  unfold update_trocr. apply respects_modify. intros s _.
  split; [reflexivity | constructor].
Qed.

Lemma idle_tesseract (E : Env) (image : ndarray E) use_preprocessing bk tm
    bs cv speed acc :
  respects idle
    (TesseractService.extract_text E image use_preprocessing bk tm bs cv speed
       acc).
Proof.
  intros s H.
  destruct (tesseract_extract_calm E image use_preprocessing bk tm bs cv
              speed acc s) as (_ & Hr & _ & Hl).
  rewrite Hr. split; [exact H|].
  eapply grows_weaken; [|exact Hl]. intros []; cbn; tauto.
Qed.

Lemma idle_trocr (E : Env) (image : ndarray E) use_preprocessing bk tm bs
    cv speed acc :
  respects idle
    (TrOCRService.extract_text E image use_preprocessing bk tm bs cv speed acc).
Proof.
  intros s H.
  rewrite (trocr_extract_not_loaded E image use_preprocessing bk tm bs cv
             speed acc s H).
  apply idle_refl, H.
Qed.

(** With the status line raising, a load that returns has gone through the
    handler, from whatever state it started. *)
Lemma load_model_ends_unloaded E mt st :
  device_has_no_upper E ->
  (fst (TrOCRService._load_model E mt st) = inr tt ->
   TrOCRSelf.model_loaded
     (trocr_service (snd (TrOCRService._load_model E mt st))) = false)
  /\ idle st (snd (TrOCRService._load_model E mt st)).
Proof.
  intros Hup.
  destruct (Hup "cuda") as [on_cuda Hcuda].
  destruct (Hup "cpu") as [on_cpu Hcpu].
  unfold idle, TrOCRService._load_model, TrOCRService.load_from.
  destruct (TrOCRService.available_models !! mt) as [[repo size]|] eqn:Hinfo;
  destruct (TrOCRService._check_local_model E mt (fs st)) as [[] d] eqn:Hc;
  destruct (cuda_is_available E);
    try destruct (cuda_gpu_info E) as [e0|gpu];
    run_M; rewrite ?Hc, ?Hcuda, ?Hcpu; cbn [is_Exception]; trocr_simpl;
    repeat (case_answer; rewrite ?Hcuda, ?Hcpu; cbn [is_Exception];
            trocr_simpl).
  all: split; [first [discriminate | intros _; reflexivity]|].
  all: intros Hl; split; [first [reflexivity | exact Hl]|].
  all: repeat first [apply grows_refl | apply grows_cons; [exact I|]].
Qed.

Lemma idle_load_model E mt :
  device_has_no_upper E -> respects idle (TrOCRService._load_model E mt).
Proof. intros Hup s. apply (load_model_ends_unloaded E mt s Hup). Qed.

(** One syntax-directed step of a [respects idle] derivation. *)
Ltac idle_step :=
  first
    [ apply respects_ret; apply idle_refl
    | apply respects_raise; apply idle_refl
    | apply respects_lift; apply idle_refl
    | apply respects_gets; apply idle_refl
    | apply idle_emit; exact I | apply idle_set_fs
    | apply idle_set_status | apply idle_unloaded
    | apply idle_load_model; assumption
    | apply idle_tesseract | apply idle_trocr
    | apply respects_except_Exception; [apply idle_trans | | intros ?]
    | apply respects_bind; [apply idle_trans | | intros ?]
    | match goal with
      | |- respects _ (if ?b then _ else _) => destruct b eqn:?
      | |- respects _ (match ?x with _ => _ end) => destruct x eqn:?
      end
    | progress cbv beta zeta ].

Lemma idle_download_failed temp msg :
  respects idle (TrOCRService.download_failed temp msg).
Proof.
  unfold TrOCRService.download_failed, TrOCRService.remove_if_exists.
  repeat idle_step.
Qed.

Lemma idle_run_download E mt cwd temp :
  device_has_no_upper E ->
  respects idle (TrOCRService.run_download E mt cwd temp).
Proof.
  intros Hup. unfold TrOCRService.run_download.
  apply respects_try_except; [apply idle_trans | |].
  - unfold TrOCRService.run, TrOCRService.remove_if_exists.
    repeat idle_step.
  - intros e h Hh.
    destruct e; injection Hh as <-; apply idle_download_failed.
Qed.

Lemma idle_download_model E mt :
  device_has_no_upper E -> respects idle (TrOCRService.download_model E mt).
Proof.
  intros Hup. unfold TrOCRService.download_model, TrOCRService.write_file.
  repeat first [ apply idle_run_download; assumption | idle_step ].
Qed.

Lemma idle_route_step E s s' :
  device_has_no_upper E -> route_step E s s' -> idle s s'.
Proof.
  intros Hup
         [file ocr_type model_type use_preprocessing blur_kernel
            threshold_method block_size c_value primary_language
            language_detection custom_dictionary processing_speed
            accuracy_level
         | imencode file blur_kernel threshold_method block_size c_value
             simple_thresh_value
         | model_type | model_type | | files].
  - revert s.
    change (respects idle
              (ocr_routes.extract_text file ocr_type model_type
                 use_preprocessing blur_kernel threshold_method block_size
                 c_value primary_language language_detection
                 custom_dictionary processing_speed accuracy_level)).
    unfold ocr_routes.extract_text, file_utils.save_uploaded_file,
      ocr_routes.getitem.
    repeat first [ apply idle_download_model; assumption | idle_step ].
  - revert s.
    change (respects idle
              (ocr_routes.preprocess_image imencode file blur_kernel
                 threshold_method block_size c_value simple_thresh_value)).
    unfold ocr_routes.preprocess_image, run_cv.
    repeat idle_step.
  - revert s.
    change (respects idle (ocr_routes.download_models E model_type)).
    unfold ocr_routes.download_models.
    repeat first [ apply idle_download_model; assumption | idle_step ].
  - revert s.
    change (respects idle (ocr_routes.force_download_models E model_type)).
    unfold ocr_routes.force_download_models.
    repeat first [ apply idle_download_model; assumption | idle_step ].
  - revert s.
    change (respects idle (ocr_routes.clear_model_cache E)).
    unfold ocr_routes.clear_model_cache.
    repeat idle_step.
  - intros H. split; [exact H | constructor].
Qed.

Lemma grows_keeps_out P old now ev :
  grows P old now -> ~ P ev -> ev ∉ old -> ev ∉ now.
Proof.
  intros Hg Hev Hold. induction Hg as [|ev' now Hev' _ IH]; [exact Hold|].
  intros Hin. apply elem_of_cons in Hin as [-> | Hin]; [exact (Hev Hev')|].
  exact (IH Hin).
Qed.

(** X10. The neural engine is never ready.  The last line of the [try]
    block of [_load_model] formats [self.device.upper()], and [self.device]
    is a [torch.device], which has no [upper]: the line raises after
    [model_loaded] was set, and the handler clears the flag again.  So a
    load that returns leaves [model_loaded] false, from whatever state it
    started; and in every state the process can reach from start-up, by any
    sequence of route calls, [model_loaded] is false, [get_status] reports
    the model as not loaded, the model's [generate] has never been called,
    and the neural engine's [extract_text] raises "TrOCR model not properly
    loaded" without doing anything. *)
Theorem model_never_loaded E :
  device_has_no_upper E ->
  (forall mt st,
      fst (TrOCRService._load_model E mt st) = inr tt ->
      TrOCRSelf.model_loaded
        (trocr_service (snd (TrOCRService._load_model E mt st))) = false)
  /\ (forall s,
        reachable E s ->
        TrOCRSelf.model_loaded (trocr_service s) = false
        /\ Status.loaded (TrOCRService.get_status E (trocr_service s) (fs s))
           = false
        /\ (forall config, EvGenerate config ∉ log s)
        /\ (forall (image : ndarray E) use_preprocessing bk tm bs cv speed
                   acc,
              TrOCRService.extract_text E image use_preprocessing bk tm bs cv
                speed acc s
              = (inl (Exception "TrOCR model not properly loaded"), s))).
Proof.
  intros Hup. split.
  - intros mt st. apply (load_model_ends_unloaded E mt st Hup).
  - intros s Hreach.
    assert (Hinv : TrOCRSelf.model_loaded (trocr_service s) = false
                   /\ grows not_generate [] (log s)).
    { induction Hreach as [tesseract files | s s' _ IH Hstep].
      - split; [reflexivity | constructor].
      - destruct IH as [Hl Hg].
        destruct (idle_route_step E s s' Hup Hstep Hl) as [Hl' Hg'].
        split; [exact Hl' | eapply grows_trans; eassumption]. }
    destruct Hinv as [Hl Hg].
    split; [exact Hl|]. split; [exact Hl|]. split.
    + intros config. eapply grows_keeps_out; [exact Hg | | apply not_elem_of_nil].
      intros H. exact H.
    + intros image use_preprocessing bk tm bs cv speed acc.
      apply trocr_extract_not_loaded, Hl.
Qed.

Lemma model_never_loaded_large :
  device_has_no_upper world_ok
  /\ TrOCRSelf.model_loaded
       (trocr_service
          (snd (TrOCRService._load_model world_ok "large-handwritten"
                  (started true large_cache)))) = false
  /\ TrOCRSelf.model_loaded (trocr_service large_tried) = false
  /\ TrOCRService.extract_text world_ok Input true 5 "Otsu" 11 2 "fast" "low"
       large_tried
     = (inl (Exception "TrOCR model not properly loaded"), large_tried).
Proof.
  assert (Hup : device_has_no_upper world_ok).
  { intros device. eexists. reflexivity. }
  assert (Hreach : reachable world_ok large_tried).
  { assert (Heq : snd (ocr_routes.download_models world_ok "large-handwritten"
                         (started true large_cache))
                  = large_tried) by (vm_compute; reflexivity).
    rewrite <- Heq.
    eapply reachable_step; [apply reachable_start | apply step_download_models]. }
  destruct (model_never_loaded world_ok Hup) as [Hload Hnever].
  destruct (Hnever large_tried Hreach) as (Hl & _ & _ & Hextract).
  split; [exact Hup|]. split; [|split; [exact Hl | apply Hextract]].
  apply Hload. vm_compute. reflexivity.
Defined.

(** ** Keys the code does not know *)

Lemma tesseract_result_text (E : Env) (image : ndarray E) use_preprocessing
    bk tm bs cv speed acc st result st' :
  TesseractService.extract_text E image use_preprocessing bk tm bs cv speed
    acc st = (inr result, st') ->
  exists text, result !! "text" = Some (VStr text).
Proof.
  unfold TesseractService.extract_text. intros H.
  apply bind_returns in H as (self & s0 & _ & H).
  destruct (negb (TesseractSelf.model_loaded self)); [discriminate H|].
  apply try_except_returns in H. cbv zeta in H.
  apply bind_returns in H as (pil & s1 & _ & H).
  apply bind_returns in H as ([] & s2 & _ & H).
  apply bind_returns in H as (text & s3 & _ & H).
  apply bind_returns in H as ([] & s4 & _ & H).
  injection H as <- _.
  eexists. apply lookup_insert_eq.
Qed.

Lemma download_model_unknown E model_type st :
  TrOCRService.available_models !! model_type = None ->
  exists message,
    TrOCRService.download_model E model_type st
    = (inr (Report.mk false message "Error" None None), st)
    /\ message <> "".
Proof.
  intros Hnone.
  unfold TrOCRService.download_model. rewrite Hnone. run_M.
  eexists. split; [reflexivity | discriminate].
Qed.

(** A model type outside the catalog is not the current one. *)
Lemma unknown_not_current self model_type :
  named self ->
  TrOCRService.available_models !! model_type = None ->
  TrOCRService.is_current self model_type = false.
Proof.
  intros Hnamed Hnone. unfold TrOCRService.is_current.
  destruct Hnamed as [-> | (mt & -> & [info Hinfo])]; [reflexivity|].
  apply String.eqb_neq. intros ->. rewrite Hnone in Hinfo. discriminate Hinfo.
Qed.

(** A computation whose first call is [ev] and whose other calls satisfy
    [P]. *)
Lemma starts_bind P ev {A B} (m : M A) (k : A -> M B) :
  (forall s, grows P (ev :: log s) (log (snd (m s)))) ->
  (forall a, respects (calm P) (k a)) ->
  forall s, grows P (ev :: log s) (log (snd ((m ≫= k) s))).
Proof.
  intros Hm Hk s. specialize (Hm s). unfold mbind, M_bind.
  destruct (m s) as [[e|a] s1]; [exact Hm|].
  destruct (Hk a s1) as (_ & _ & _ & Hl).
  eapply grows_trans; [exact Hm | exact Hl].
Qed.

Lemma starts_run_cv P E e (image : ndarray E) s :
  grows P (EvRunCv e :: log s) (log (snd (run_cv E e image s))).
Proof. constructor. Qed.

(** C4, amended.  An unknown engine key is rejected before any engine work
    begins: the request ends with an error, both service objects are as they
    were, and the only call made is the storing of the upload.  An unknown
    model-type key is rejected by [download_model] before any load or
    download work: it returns a failure report with a message, and the state
    is as it was.  The extraction request that carried the unknown model
    type is then handed to the deterministic engine: it ends in the state
    that engine leaves, it is answered with that engine's text when the
    engine returns a result, and with HTTP 500 when the engine raises, as it
    does when Tesseract is not initialised.  Preprocessing parameters are
    not validated at all: whatever the blur kernel, threshold method, block
    size and C value of a request for the deterministic engine, once the
    upload is stored the first call is OpenCV's, on the values the preset
    leaves of them (the caller's own where the preset stores none). *)
Theorem unknown_keys_rejected_early (E : Env) :
  (forall (file : UploadFile E) ocr_type model_type use_preprocessing
          blur_kernel threshold_method block_size c_value primary_language
          language_detection custom_dictionary processing_speed
          accuracy_level st,
      ocr_type <> "tesseract" -> ocr_type <> "trocr" ->
      exists e st',
        ocr_routes.extract_text file ocr_type model_type use_preprocessing
          blur_kernel threshold_method block_size c_value primary_language
          language_detection custom_dictionary processing_speed
          accuracy_level st = (inl e, st')
        /\ tesseract_service st' = tesseract_service st
        /\ trocr_service st' = trocr_service st
        /\ grows is_upload (log st) (log st'))
  /\ (forall model_type st,
        TrOCRService.available_models !! model_type = None ->
        exists message,
          TrOCRService.download_model E model_type st
          = (inr (Report.mk false message "Error" None None), st)
          /\ message <> "")
  /\ (forall (file : UploadFile E) image_cv model_type use_preprocessing
             blur_kernel threshold_method block_size c_value primary_language
             language_detection custom_dictionary processing_speed
             accuracy_level st,
        file_utils.validate_image_file file = true ->
        decoded file = inr image_cv ->
        TrOCRService.available_models !! model_type = None ->
        named (trocr_service st) ->
        let fallback :=
          TesseractService.extract_text E image_cv use_preprocessing
            blur_kernel threshold_method block_size c_value processing_speed
            accuracy_level (saved file st) in
        let outcome :=
          ocr_routes.extract_text file "trocr" model_type use_preprocessing
            blur_kernel threshold_method block_size c_value primary_language
            language_detection custom_dictionary processing_speed
            accuracy_level st in
        snd outcome = snd fallback
        /\ (forall result,
              fst fallback = inr result ->
              exists body,
                fst outcome = inr body
                /\ body !! "success" = Some (VBool true)
                /\ body !! "text" = result !! "text")
        /\ (forall e,
              fst fallback = inl e ->
              fst outcome
              = inl (if is_Exception e
                     then HTTPException 500
                            ("OCR processing failed: " ++ str E e)
                     else e))
        /\ (TesseractSelf.model_loaded (tesseract_service st) = false ->
            fst outcome
            = inl (HTTPException 500
                     "OCR processing failed: Tesseract not properly initialized")))
  /\ (forall (file : UploadFile E) image_cv model_type blur_kernel
             threshold_method block_size c_value primary_language
             language_detection custom_dictionary processing_speed
             accuracy_level st,
        file_utils.validate_image_file file = true ->
        decoded file = inr image_cv ->
        TesseractSelf.model_loaded (tesseract_service st) = true ->
        let settings :=
          TesseractService._get_preprocessing_settings processing_speed
            accuracy_level in
        grows tesseract_call
          (EvRunCv
             (TesseractService.preprocess_image
                (get (Settings.blur_kernel settings) blur_kernel)
                (get (Settings.threshold_method settings) threshold_method)
                (get (Settings.block_size settings) block_size)
                (get (Settings.c_value settings) c_value) 127)
           :: EvSaveUpload (upload_path file) :: log st)
          (log (snd (ocr_routes.extract_text file "tesseract" model_type true
                       blur_kernel threshold_method block_size c_value
                       primary_language language_detection custom_dictionary
                       processing_speed accuracy_level st)))).
Proof.
  split; [|split; [|split]].
  - intros file ocr_type model_type use_preprocessing blur_kernel
      threshold_method block_size c_value primary_language language_detection
      custom_dictionary processing_speed accuracy_level st Ht Hr.
    apply String.eqb_neq in Ht, Hr.
    unfold ocr_routes.extract_text. rewrite Ht, Hr.
    unfold file_utils.save_uploaded_file. run_M.
    destruct (negb (file_utils.validate_image_file file)).
    + eexists _, _. split; [reflexivity|]. repeat split. constructor.
    + destruct (decoded file) as [e|image_cv].
      * destruct (is_Exception e); eexists _, _; (split; [reflexivity|]);
          repeat split; constructor.
      * eexists _, _. split; [reflexivity|]. cbn.
        repeat split. constructor; [eexists; reflexivity | constructor].
  - intros model_type st. apply download_model_unknown.
  - intros file image_cv model_type use_preprocessing blur_kernel
      threshold_method block_size c_value primary_language language_detection
      custom_dictionary processing_speed accuracy_level st Hok Hdec Hnone
      Hnamed.
    cbv zeta.
    pose proof (unknown_not_current _ _ Hnamed Hnone) as Hcur.
    destruct (download_model_unknown E model_type (saved file st) Hnone)
      as (message & Hreject & _).
    unfold ocr_routes.extract_text. rewrite try_except_raise_run.
    rewrite Hok, Hdec. cbn [negb fst snd].
    rewrite (bind_run (lift (inr image_cv)) _ st image_cv st eq_refl).
    rewrite (bind_run _ _ _ _ _ (save_uploaded_file_run file st)).
    change ("trocr" =? "tesseract")%string with false.
    change ("trocr" =? "trocr")%string with true. cbv iota.
    match goal with
    | |- context [(?m ≫= ?k) (saved file st)] => set (eng := m); set (respond := k)
    end.
    set (fallback :=
           TesseractService.extract_text E image_cv use_preprocessing
             blur_kernel threshold_method block_size c_value processing_speed
             accuracy_level).
    assert (Heng : eng (saved file st)
                   = (result ← fallback;
                      mret (<["fallback_reason" :=
                                VStr ("TrOCR model " ++ model_type
                                      ++ " failed to load: " ++ message)]>
                            (<["fallback_used" := VBool true]> result)))
                       (saved file st)).
    { unfold eng.
      rewrite (bind_run (gets trocr_service) _ (saved file st)
                 (trocr_service st) (saved file st) eq_refl).
      rewrite Hcur. cbn [negb]. rewrite orb_true_r.
      rewrite (bind_run _ _ _ _ _ Hreject). reflexivity. }
    assert (Hidle :
              TesseractSelf.model_loaded (tesseract_service st) = false ->
              fallback (saved file st)
              = (inl (Exception "Tesseract not properly initialized"),
                 saved file st)).
    { intros Hfalse. unfold fallback, TesseractService.extract_text.
      rewrite (bind_run (gets tesseract_service) _ (saved file st)
                 (tesseract_service st) (saved file st) eq_refl).
      rewrite Hfalse. reflexivity. }
    destruct (fallback (saved file st)) as [[e|result] s1] eqn:Hrun.
    + assert (Hraised : eng (saved file st) = (inl e, s1)).
      { rewrite Heng. apply bind_raises, Hrun. }
      rewrite (bind_raises eng respond _ _ _ Hraised). cbn [fst snd].
      split; [reflexivity|]. split; [intros result [=]|].
      split; [intros e0 [= <-]; reflexivity|].
      intros Hfalse. specialize (Hidle Hfalse). injection Hidle as -> _.
      reflexivity.
    + destruct (tesseract_result_text _ _ _ _ _ _ _ _ _ _ _ _ Hrun)
        as [text Htext].
      assert (Hreturned :
                eng (saved file st)
                = (inr (<["fallback_reason" :=
                            VStr ("TrOCR model " ++ model_type
                                  ++ " failed to load: " ++ message)]>
                        (<["fallback_used" := VBool true]> result)), s1)).
      { rewrite Heng. rewrite (bind_run _ _ _ _ _ Hrun). reflexivity. }
      rewrite (bind_run eng respond _ _ _ Hreturned).
      unfold respond, ocr_routes.getitem.
      rewrite !lookup_insert_ne by discriminate. rewrite Htext.
      cbn [fst snd].
      split; [reflexivity|]. split.
      { intros result0 [= <-]. eexists. split; [reflexivity|].
        split; [apply lookup_insert_eq|].
        rewrite lookup_insert_ne by discriminate.
        rewrite lookup_insert_eq. symmetry. exact Htext. }
      split; [intros e [=]|].
      intros Hfalse. specialize (Hidle Hfalse). discriminate Hidle.
  - intros file image_cv model_type blur_kernel threshold_method block_size
      c_value primary_language language_detection custom_dictionary
      processing_speed accuracy_level st Hok Hdec Hready.
    cbv zeta.
    unfold ocr_routes.extract_text. rewrite try_except_raise_run.
    rewrite Hok, Hdec. cbn [negb fst snd].
    rewrite (bind_run (lift (inr image_cv)) _ st image_cv st eq_refl).
    rewrite (bind_run _ _ _ _ _ (save_uploaded_file_run file st)).
    change ("tesseract" =? "tesseract")%string with true. cbv iota.
    match goal with
    | |- context [(?m ≫= ?k) (saved file st)] => set (eng := m); set (respond := k)
    end.
    destruct (bind_then_pure eng respond (saved file st)) as [-> _].
    { intros a s1. unfold respond, ocr_routes.getitem.
      destruct (a !! "text"); reflexivity. }
    unfold eng, TesseractService.extract_text.
    rewrite (bind_run (gets tesseract_service) _ (saved file st)
               (tesseract_service st) (saved file st) eq_refl).
    rewrite Hready. cbn [negb]. rewrite try_except_raise_run. cbn [snd].
    cbv zeta. unfold TesseractService.pil_image.
    change (EvSaveUpload (upload_path file) :: log st)
      with (log (saved file st)).
    apply starts_bind; [|intros pil; repeat calm_step].
    apply starts_bind; [|intros processed; repeat calm_step].
    intros s. apply starts_run_cv.
Qed.

Lemma unknown_keys_rejected_early_examples :
  (exists e st',
     request world_ok Input "tessaract" "large-handwritten" (started true ∅)
     = (inl e, st')
     /\ grows is_upload [] (log st'))
  /\ (exists message,
        TrOCRService.download_model world_ok "tiny-handwritten"
          (started true ∅)
        = (inr (Report.mk false message "Error" None None), started true ∅))
  /\ fst (request world_ok Input "trocr" "tiny-handwritten" (started false ∅))
     = inl (HTTPException 500
              "OCR processing failed: Tesseract not properly initialized")
  /\ grows tesseract_call
       [ EvRunCv (TesseractService.preprocess_image (-3) "Sauvola" 0 0 127);
         EvSaveUpload "uploads/0b5c.png" ]
       (log (snd (ocr_routes.extract_text (note_png world_ok Input)
                    "tesseract" "large-handwritten" true (-3) "Sauvola" 0 0
                    "eng" true "" "turbo" "low" (started true ∅)))).
Proof.
  destruct (unknown_keys_rejected_early world_ok)
    as (Hengine & Hmodel & Hfallback & Hparams).
  split; [|split; [|split]].
  - destruct (Hengine (note_png world_ok Input) "tessaract"
                "large-handwritten" true 5 "Adaptive Gaussian" 11 2 "eng" true
                "" "balanced" "high" (started true ∅))
      as (e & st' & Hrun & _ & _ & Hlog); [discriminate | discriminate |].
    exists e, st'. split; [exact Hrun | exact Hlog].
  - destruct (Hmodel "tiny-handwritten" (started true ∅))
      as (message & Hrun & _); [reflexivity|].
    exists message. exact Hrun.
  - destruct (Hfallback (note_png world_ok Input) Input "tiny-handwritten"
                true 5 "Adaptive Gaussian" 11 2 "eng" true "" "balanced"
                "high" (started false ∅))
      as (_ & _ & _ & Hidle);
      [reflexivity | reflexivity | reflexivity | left; reflexivity |].
    apply Hidle. reflexivity.
  - apply (Hparams (note_png world_ok Input) Input "large-handwritten" (-3)
             "Sauvola" 0 0 "eng" true "" "turbo" "low" (started true ∅));
      reflexivity.
Defined.
